(** * Network associations stack: reference resolution and graph building

    A shallow embedding of the resolution and graph-building methods of
    [NetworkAssociationsStack] (and of [NetworkVpcEndpointsStack.setNfwPolicyMap]).

    - Configuration objects are records; optional fields are [option]s, and
      arrays that the code only reads through [x ?? []] are plain lists.
    - The per-stack instance fields ([this.transitGatewayAttachments], ...)
      are the fields of [Stack]; JavaScript [Map]s are [gmap string string].
    - Every [new Construct(this, id, props)] the code executes is appended to
      the [trace] of the stack, and so is every write to one of the [this.*]
      maps ([SetEntry]), so that statements about what is requested, and in what
      order, are statements about the trace.
    - A construct is a child of the stack under its identifier: creating one
      throws when the identifier is empty or already taken in the stack, as
      the construct tree does ([emit], [refused]).
    - A [throw] ends the run with [Throw e s], where [s] is the stack at the
      moment of the throw.
    - Collaborators whose code lives in other packages (the accounts table,
      the SSM parameter reader, the cross-account lookups, [pascalCase]) are
      fields of [Env]; every theorem holds for all of them. What those
      packages do beyond returning a value is not modelled: the children
      that [getResourceShare] and the route methods of a peering connection
      add under identifiers of their own, and the checks that the constructs
      make on their properties. *)

From stdpp Require Import gmap strings list pretty.

Open Scope string_scope.
Open Scope list_scope.

(** ** JavaScript values *)

(** [!x] for a [string | undefined]: the empty string and [undefined] are falsy. *)
Definition truthy (x : option string) : bool :=
  match x with
  | Some s => negb (String.eqb s EmptyString)
  | None => false
  end.

(** [xs.includes(x)] on an array of strings. *)
Definition includes (xs : list string) (x : string) : bool :=
  existsb (String.eqb x) xs.

(** [a === b] where either side may be [undefined]. *)
Definition opt_eqb (a b : option string) : bool :=
  match a, b with
  | Some x, Some y => String.eqb x y
  | None, None => true
  | _, _ => false
  end.

(** ** Configuration model *)

Module RouteTableEntryConfig.
Record t := {
    name : string;
    type : option string;
    target : option string;
    destination : option string;
    destinationPrefixList : option string }.
End RouteTableEntryConfig.

Module RouteTableConfig.
Record t := {
    name : string;
    routes : list RouteTableEntryConfig.t }.
End RouteTableConfig.

Module TransitGatewayAttachmentTargetConfig.
Record t := { name : string; account : string }.
End TransitGatewayAttachmentTargetConfig.

Module TransitGatewayAttachmentConfig.
Record t := {
    name : string;
    transitGateway : TransitGatewayAttachmentTargetConfig.t;
    routeTableAssociations : list string;
    routeTablePropagations : list string }.
End TransitGatewayAttachmentConfig.

Module InterfaceEndpointConfig.
Record t := {
    central : bool;
    endpoints : list string (* the [service] of each endpoint *) }.
End InterfaceEndpointConfig.

Module VpcDnsFirewallAssociationConfig.
Record t := { name : string; priority : nat; mutationProtection : bool }.
End VpcDnsFirewallAssociationConfig.

Module DeploymentTargets.
Record t := {
    organizationalUnits : list string;
    accounts : list string;
    excludedRegions : list string;
    excludedAccounts : list string }.
End DeploymentTargets.

Module VpcConfig.
Record t := {
    name : string;
    account : string;
    region : string;
    routeTables : list RouteTableConfig.t;
    transitGatewayAttachments : list TransitGatewayAttachmentConfig.t;
    interfaceEndpoints : option InterfaceEndpointConfig.t;
    useCentralEndpoints : bool;
    dnsFirewallRuleGroups : list VpcDnsFirewallAssociationConfig.t;
    queryLogs : list string;
    resolverRules : list string }.
End VpcConfig.

Module VpcTemplatesConfig.
Record t := {
    name : string;
    region : string;
    deploymentTargets : DeploymentTargets.t;
    routeTables : list RouteTableConfig.t;
    transitGatewayAttachments : list TransitGatewayAttachmentConfig.t;
    useCentralEndpoints : bool;
    dnsFirewallRuleGroups : list VpcDnsFirewallAssociationConfig.t;
    queryLogs : list string;
    resolverRules : list string }.
End VpcTemplatesConfig.

(** [VpcConfig | VpcTemplatesConfig]; [NetworkConfigTypes.vpcConfig.is] is the
    test for the first constructor. *)
Inductive VpcItem :=
| IsVpc (v : VpcConfig.t)
| IsVpcTemplate (v : VpcTemplatesConfig.t).

Module VpcItem.
Definition name (i : VpcItem) : string :=
    match i with IsVpc v => VpcConfig.name v | IsVpcTemplate v => VpcTemplatesConfig.name v end.
Definition region (i : VpcItem) : string :=
    match i with IsVpc v => VpcConfig.region v | IsVpcTemplate v => VpcTemplatesConfig.region v end.
Definition routeTables (i : VpcItem) : list RouteTableConfig.t :=
    match i with
    | IsVpc v => VpcConfig.routeTables v
    | IsVpcTemplate v => VpcTemplatesConfig.routeTables v
    end.
Definition transitGatewayAttachments (i : VpcItem) : list TransitGatewayAttachmentConfig.t :=
    match i with
    | IsVpc v => VpcConfig.transitGatewayAttachments v
    | IsVpcTemplate v => VpcTemplatesConfig.transitGatewayAttachments v
    end.
Definition useCentralEndpoints (i : VpcItem) : bool :=
    match i with
    | IsVpc v => VpcConfig.useCentralEndpoints v
    | IsVpcTemplate v => VpcTemplatesConfig.useCentralEndpoints v
    end.
Definition dnsFirewallRuleGroups (i : VpcItem) : list VpcDnsFirewallAssociationConfig.t :=
    match i with
    | IsVpc v => VpcConfig.dnsFirewallRuleGroups v
    | IsVpcTemplate v => VpcTemplatesConfig.dnsFirewallRuleGroups v
    end.
Definition queryLogs (i : VpcItem) : list string :=
    match i with IsVpc v => VpcConfig.queryLogs v | IsVpcTemplate v => VpcTemplatesConfig.queryLogs v end.
Definition resolverRules (i : VpcItem) : list string :=
    match i with
    | IsVpc v => VpcConfig.resolverRules v
    | IsVpcTemplate v => VpcTemplatesConfig.resolverRules v
    end.
End VpcItem.

(** The attachment of a transit gateway route entry: a union of four shapes,
    told apart by the [NetworkConfigTypes.transitGatewayRouteTable*EntryConfig.is]
    predicates. *)
Inductive TransitGatewayRouteTableEntryAttachment :=
| VpcEntry (account vpcName : string)
| DxGatewayEntry (directConnectGatewayName : string)
| VpnEntry (vpnConnectionName : string)
| TgwPeeringEntry (transitGatewayPeeringName : string).

Module TransitGatewayRouteEntryConfig.
Record t := {
    destinationCidrBlock : option string;
    destinationPrefixList : option string;
    blackhole : option bool;
    attachment : option TransitGatewayRouteTableEntryAttachment }.
End TransitGatewayRouteEntryConfig.

Module TransitGatewayRouteTableConfig.
Record t := {
    name : string;
    routes : list TransitGatewayRouteEntryConfig.t }.
End TransitGatewayRouteTableConfig.

Module TransitGatewayConfig.
Record t := {
    name : string;
    account : string;
    region : string;
    routeTables : list TransitGatewayRouteTableConfig.t }.
End TransitGatewayConfig.

Module VpnConnectionConfig.
Record t := {
    name : string;
    transitGateway : option string;
    routeTableAssociations : option (list string);
    routeTablePropagations : option (list string) }.
End VpnConnectionConfig.

Module CustomerGatewayConfig.
Record t := {
    name : string;
    account : string;
    region : string;
    vpnConnections : list VpnConnectionConfig.t }.
End CustomerGatewayConfig.

Module DxTransitGatewayAssociationConfig.
Record t := {
    name : string;
    account : string;
    allowedPrefixes : list string;
    routeTableAssociations : list string;
    routeTablePropagations : list string }.
End DxTransitGatewayAssociationConfig.

Module DxGatewayConfig.
Record t := {
    name : string;
    account : string;
    transitGatewayAssociations : list DxTransitGatewayAssociationConfig.t }.
End DxGatewayConfig.

Module PrefixListConfig.
Record t := { name : string; accounts : list string; regions : list string }.
End PrefixListConfig.

Module VpcPeeringConfig.
Record t := { name : string; vpcs : list string; tags : list (string * string) }.
End VpcPeeringConfig.

Module NfwFirewallConfig.
Record t := { name : string; firewallPolicy : string; vpc : string }.
End NfwFirewallConfig.

Module CentralNetworkServicesConfig.
Record t := {
    delegatedAdminAccount : string;
    (* [route53Resolver?.queryLogs?.destinations], [None] when a link is missing *)
    queryLogDestinations : option (list string);
    (* [networkFirewall?.firewalls] *)
    firewalls : option (list NfwFirewallConfig.t) }.
End CentralNetworkServicesConfig.

Module TransitGatewayPeeringEndConfig.
Record t := { account : string; transitGatewayName : string }.
End TransitGatewayPeeringEndConfig.

Module NetworkConfig.
Record t := {
    vpcs : list VpcConfig.t;
    vpcTemplates : list VpcTemplatesConfig.t;
    transitGateways : list TransitGatewayConfig.t;
    customerGateways : list CustomerGatewayConfig.t;
    directConnectGateways : list DxGatewayConfig.t;
    prefixLists : list PrefixListConfig.t;
    vpcPeering : list VpcPeeringConfig.t;
    centralNetworkServices : option CentralNetworkServicesConfig.t }.

  (** [[...vpcs, ...(vpcTemplates ?? [])]] *)
Definition allVpcs (c : t) : list VpcItem :=
    map IsVpc (vpcs c) ++ map IsVpcTemplate (vpcTemplates c).
End NetworkConfig.

(** ** Construct properties *)

Module SsmParameterLookupProps.
Record t := {
    name : string;
    accountId : string;
    parameterRegion : string;
    roleName : string }.
End SsmParameterLookupProps.

Inductive TransitGatewayAttachmentType := VPC | VPN | PEERING.

Module TransitGatewayAttachmentLookupOptions.
Record t := {
    name : string;
    owningAccountId : string;
    transitGatewayId : string;
    type : TransitGatewayAttachmentType;
    roleName : option string }.
End TransitGatewayAttachmentLookupOptions.

Module DirectConnectGatewayAssociationProps.
Record t := {
    allowedPrefixes : list string;
    directConnectGatewayId : string;
    directConnectGatewayOwnerAccount : option string;
    gatewayId : string }.
End DirectConnectGatewayAssociationProps.

Module VpcPeeringProps.
Record t := {
    name : string;
    peerOwnerId : string;
    peerRegion : string;
    peerVpcId : string;
    peerRoleName : option string;
    vpcId : string;
    tags : list (string * string) }.
End VpcPeeringProps.

Module CrossAcctPeeringRouteProps.
Record t := {
    id : string;
    ownerAccount : string;
    ownerRegion : string;
    partition : string;
    provider : string;
    roleName : string;
    routeTableId : string;
    destination : option string;
    destinationPrefixListId : option string }.
End CrossAcctPeeringRouteProps.

Module AssociateHostedZonesProps.
Record t := {
    accountIds : list string;
    hostedZoneIds : list string;
    hostedZoneAccountId : string;
    roleName : string;
    tagFilters : list (string * string) }.
End AssociateHostedZonesProps.

Module PutSsmParameterProps.
Record t := {
    region : string;
    partition : string;
    name : string;
    accountId : string;
    roleName : string;
    value : string;
    invokingAccountID : string }.
End PutSsmParameterProps.

(** ** The environment of one stack run *)

Inductive PeeringRole := requester | accepter.

(** What the stack reads from its props and from the collaborators that are
    implemented in other packages. *)
Record Env := {
  (* [cdk.Stack.of(this).account], [cdk.Stack.of(this).region] *)
  account : string;
  region : string;
  stackName : string;
  (* [props.partition], [props.globalConfig.homeRegion] *)
  partition : string;
  homeRegion : string;
  networkConfig : NetworkConfig.t;
  (* [accountsConfig.getAccountId], over the account table resolved at startup *)
  getAccountId : string → string;
  (* helpers of the base class [AcceleratorStack] *)
  getVpcAccountIds : VpcItem → list string;
  getAccountNamesFromDeploymentTarget : DeploymentTargets.t → list string;
  getExcludedAccountIds : DeploymentTargets.t → list string;
  (* [networkConfig.getTgwPeeringRequesterAccepterConfig] *)
  getTgwPeeringRequesterAccepterConfig :
    string → PeeringRole → option TransitGatewayPeeringEndConfig.t;
  pascalCase : string → string;
  (* [StringParameter.valueForStringParameter(this, name)] *)
  valueForStringParameter : string → string;
  (* [new SsmParameterLookup(this, id, props).value] *)
  ssmParameterLookupValue : string → SsmParameterLookupProps.t → string;
  (* [TransitGatewayAttachment.fromLookup(this, id, options).transitGatewayAttachmentId] *)
  lookupTransitGatewayAttachmentId : string → TransitGatewayAttachmentLookupOptions.t → string;
  (* [getResourceShare(name, type, owner, key).resourceShareItemId] and [.resourceShareItemArn] *)
  resourceShareItemId : string → string → string → string;
  resourceShareItemArn : string → string → string → string;
  (* [new DirectConnectGatewayAssociation(this, id, props).transitGatewayAttachmentId] *)
  dxAssociationAttachmentId : string → DirectConnectGatewayAssociationProps.t → option string;
  (* [new VpcPeering(this, id, props).peeringId] *)
  vpcPeeringId : string → VpcPeeringProps.t → string;
  (* [new CrossAccountRouteFramework(this, id, props).provider] *)
  crossAccountRouteFrameworkProvider : string → string }.

(** ** The stack: instance fields and the trace of what it has requested *)

Module Peering.
Record t := {
  name : string;
  requester : VpcConfig.t;
  (* [accepterVpc[0]] is stored unchecked and is [undefined] for an unknown name *)
  accepter : option VpcConfig.t;
  tags : list (string * string) }.
End Peering.

Inductive MapName :=
| DnsFirewallMap | DxGatewayMap | QueryLogMap | ResolverRuleMap
| TransitGateways | TransitGatewayRouteTables | TransitGatewayAttachments.

#[global] Instance MapName_eq_dec : EqDecision MapName.
Proof. solve_decision. Defined.

Inductive Event :=
| SetEntry (m : MapName) (key value : string)
| CrossAccountRouteFramework (id : string)
| SsmParameterLookup (id : string) (props : SsmParameterLookupProps.t)
| TransitGatewayAttachmentLookup (id : string) (options : TransitGatewayAttachmentLookupOptions.t)
| ResourceShareLookup (name type owningAccountId : string)
| TransitGatewayRouteTableAssociation (id transitGatewayAttachmentId transitGatewayRouteTableId : string)
| TransitGatewayRouteTablePropagation (id transitGatewayAttachmentId transitGatewayRouteTableId : string)
| TransitGatewayStaticRoute (id transitGatewayRouteTableId : string) (blackhole : option bool)
    (destinationCidrBlock : string) (transitGatewayAttachmentId : option string)
| TransitGatewayPrefixListReference (id prefixListId : string) (blackhole : option bool)
    (transitGatewayAttachmentId : option string) (transitGatewayRouteTableId : string)
| AssociateHostedZones (id : string) (props : AssociateHostedZonesProps.t)
| ResolverFirewallRuleGroupAssociation (id firewallRuleGroupId : string) (priority : nat)
    (vpcId : string) (mutationProtection : bool)
| QueryLoggingConfigAssociation (id : string) (resolverQueryLogConfigId : option string)
    (vpcId partition : string)
| ResolverRuleAssociation (id resolverRuleId vpcId : string)
| VpcPeering (id : string) (props : VpcPeeringProps.t)
| SsmParameter (logicalId parameterName stringValue : string)
| PutSsmParameter (id : string) (props : PutSsmParameterProps.t)
| PeeringRoute (peering id routeTableId : string) (destination destinationPrefixListId : option string)
| CrossAcctPeeringRoute (peering : string) (props : CrossAcctPeeringRouteProps.t)
| DirectConnectGatewayAssociation (id : string) (props : DirectConnectGatewayAssociationProps.t).

Record Stack := {
  dnsFirewallMap : gmap string string;
  dxGatewayMap : gmap string string;
  peeringList : list Peering.t;
  prefixListMap : gmap string string;
  queryLogMap : gmap string string;
  resolverRuleMap : gmap string string;
  routeTableMap : gmap string string;
  transitGateways : gmap string string;
  transitGatewayRouteTables : gmap string string;
  transitGatewayAttachments : gmap string string;
  crossAcctRouteProvider : option string;
  trace : list Event }.

(** The fields as the constructor leaves them before its first step. *)
Definition newStack : Stack :=
  {| dnsFirewallMap := ∅; dxGatewayMap := ∅; peeringList := []; prefixListMap := ∅;
     queryLogMap := ∅; resolverRuleMap := ∅; routeTableMap := ∅; transitGateways := ∅;
     transitGatewayRouteTables := ∅; transitGatewayAttachments := ∅;
     crossAcctRouteProvider := None; trace := [] |}.

Definition with_trace (t : list Event) (s : Stack) : Stack :=
  {| dnsFirewallMap := dnsFirewallMap s; dxGatewayMap := dxGatewayMap s;
     peeringList := peeringList s; prefixListMap := prefixListMap s;
     queryLogMap := queryLogMap s; resolverRuleMap := resolverRuleMap s;
     routeTableMap := routeTableMap s; transitGateways := transitGateways s;
     transitGatewayRouteTables := transitGatewayRouteTables s;
     transitGatewayAttachments := transitGatewayAttachments s;
     crossAcctRouteProvider := crossAcctRouteProvider s; trace := t |}.

Definition with_peeringList (l : list Peering.t) (s : Stack) : Stack :=
  {| dnsFirewallMap := dnsFirewallMap s; dxGatewayMap := dxGatewayMap s;
     peeringList := l; prefixListMap := prefixListMap s;
     queryLogMap := queryLogMap s; resolverRuleMap := resolverRuleMap s;
     routeTableMap := routeTableMap s; transitGateways := transitGateways s;
     transitGatewayRouteTables := transitGatewayRouteTables s;
     transitGatewayAttachments := transitGatewayAttachments s;
     crossAcctRouteProvider := crossAcctRouteProvider s; trace := trace s |}.

Definition with_crossAcctRouteProvider (p : option string) (s : Stack) : Stack :=
  {| dnsFirewallMap := dnsFirewallMap s; dxGatewayMap := dxGatewayMap s;
     peeringList := peeringList s; prefixListMap := prefixListMap s;
     queryLogMap := queryLogMap s; resolverRuleMap := resolverRuleMap s;
     routeTableMap := routeTableMap s; transitGateways := transitGateways s;
     transitGatewayRouteTables := transitGatewayRouteTables s;
     transitGatewayAttachments := transitGatewayAttachments s;
     crossAcctRouteProvider := p; trace := trace s |}.

Definition with_prefixListMap (m : gmap string string) (s : Stack) : Stack :=
  {| dnsFirewallMap := dnsFirewallMap s; dxGatewayMap := dxGatewayMap s;
     peeringList := peeringList s; prefixListMap := m;
     queryLogMap := queryLogMap s; resolverRuleMap := resolverRuleMap s;
     routeTableMap := routeTableMap s; transitGateways := transitGateways s;
     transitGatewayRouteTables := transitGatewayRouteTables s;
     transitGatewayAttachments := transitGatewayAttachments s;
     crossAcctRouteProvider := crossAcctRouteProvider s; trace := trace s |}.

Definition with_routeTableMap (m : gmap string string) (s : Stack) : Stack :=
  {| dnsFirewallMap := dnsFirewallMap s; dxGatewayMap := dxGatewayMap s;
     peeringList := peeringList s; prefixListMap := prefixListMap s;
     queryLogMap := queryLogMap s; resolverRuleMap := resolverRuleMap s;
     routeTableMap := m; transitGateways := transitGateways s;
     transitGatewayRouteTables := transitGatewayRouteTables s;
     transitGatewayAttachments := transitGatewayAttachments s;
     crossAcctRouteProvider := crossAcctRouteProvider s; trace := trace s |}.

(** [this.<m>.get(key)] *)
Definition readMap (m : MapName) (s : Stack) : gmap string string :=
  match m with
  | DnsFirewallMap => dnsFirewallMap s
  | DxGatewayMap => dxGatewayMap s
  | QueryLogMap => queryLogMap s
  | ResolverRuleMap => resolverRuleMap s
  | TransitGateways => transitGateways s
  | TransitGatewayRouteTables => transitGatewayRouteTables s
  | TransitGatewayAttachments => transitGatewayAttachments s
  end.

(** [this.<m>.set(key, value)]: the entry is written and the write is traced. *)
Definition writeMap (m : MapName) (k v : string) (s : Stack) : Stack :=
  let upd (n : MapName) (old : gmap string string) : gmap string string :=
    match m, n with
    | DnsFirewallMap, DnsFirewallMap
    | DxGatewayMap, DxGatewayMap
    | QueryLogMap, QueryLogMap
    | ResolverRuleMap, ResolverRuleMap
    | TransitGateways, TransitGateways
    | TransitGatewayRouteTables, TransitGatewayRouteTables
    | TransitGatewayAttachments, TransitGatewayAttachments => <[k:=v]> old
    | _, _ => old
    end in
  {| dnsFirewallMap := upd DnsFirewallMap (dnsFirewallMap s);
     dxGatewayMap := upd DxGatewayMap (dxGatewayMap s);
     peeringList := peeringList s; prefixListMap := prefixListMap s;
     queryLogMap := upd QueryLogMap (queryLogMap s);
     resolverRuleMap := upd ResolverRuleMap (resolverRuleMap s);
     routeTableMap := routeTableMap s;
     transitGateways := upd TransitGateways (transitGateways s);
     transitGatewayRouteTables := upd TransitGatewayRouteTables (transitGatewayRouteTables s);
     transitGatewayAttachments := upd TransitGatewayAttachments (transitGatewayAttachments s);
     crossAcctRouteProvider := crossAcctRouteProvider s;
     trace := trace s ++ [SetEntry m k v] |}.

(** ** The monad of stack methods: state, trace and exceptions *)

Inductive Exn :=
| Error (message : string)
(* reading a property of [undefined] *)
| TypeError (property : string).

Inductive Outcome (A : Type) :=
| Ok (a : A) (s : Stack)
| Throw (e : Exn) (s : Stack).
Arguments Ok {A} a s.
Arguments Throw {A} e s.

Definition M (A : Type) : Type := Stack → Outcome A.

Definition ret {A} (a : A) : M A := fun s => Ok a s.

Definition bind {A B} (m : M A) (f : A → M B) : M B :=
  fun s => match m s with
           | Ok a s' => f a s'
           | Throw e s' => Throw e s'
           end.

Definition throw {A} (e : Exn) : M A := fun s => Throw e s.

Definition get : M Stack := fun s => Ok s s.

Definition modify (f : Stack → Stack) : M unit := fun s => Ok tt (f s).

(** *** Construct identifiers

    [new C(this, id, props)] and [C.fromLookup(this, id, options)] add a child
    named [id] to the stack. The construct tree replaces every path separator
    in the identifier by two dashes, refuses an empty identifier, and refuses
    an identifier that a child of the same scope already has. *)

Fixpoint sanitizeId (id : string) : string :=
  match id with
  | EmptyString => EmptyString
  | String c rest =>
      if String.eqb (String c EmptyString) "/" then "--" +:+ sanitizeId rest
      else String c (sanitizeId rest)
  end.

(** The identifier under which an event adds a child to the stack. The
    others add none: a map write; an entry pushed on [this.ssmParameters]; a
    route requested from a peering connection, which is a child of that
    connection; and [getResourceShare], a method of the base class that is
    called with a share name and no identifier. *)
Definition constructId (e : Event) : option string :=
  match e with
  | CrossAccountRouteFramework id
  | SsmParameterLookup id _
  | TransitGatewayAttachmentLookup id _
  | TransitGatewayRouteTableAssociation id _ _
  | TransitGatewayRouteTablePropagation id _ _
  | TransitGatewayStaticRoute id _ _ _ _
  | TransitGatewayPrefixListReference id _ _ _ _
  | AssociateHostedZones id _
  | ResolverFirewallRuleGroupAssociation id _ _ _ _
  | QueryLoggingConfigAssociation id _ _ _
  | ResolverRuleAssociation id _ _
  | VpcPeering id _
  | PutSsmParameter id _
  | DirectConnectGatewayAssociation id _ => Some id
  | SetEntry _ _ _
  | ResourceShareLookup _ _ _
  | SsmParameter _ _ _
  | PeeringRoute _ _ _ _ _
  | CrossAcctPeeringRoute _ _ => None
  end.

(** The two keys the constructor imports with [Key.fromKeyArn] before its
    first step are children of every stack. *)
Definition importedKeyIds : list string :=
  ["AcceleratorGetCloudWatchKey"; "AcceleratorGetLambdaKey"].

(** The names of the children of the stack after the events of [t]. *)
Definition childIds (t : list Event) : list string :=
  importedKeyIds ++ omap (fun e => sanitizeId <$> constructId e) t.

Definition emptyId : Exn := Error "Only root constructs may have an empty ID".

Definition duplicateId (id : string) : Exn :=
  Error ("There is already a Construct with name '" +:+ id +:+ "'").

(** What creating [e] in a stack with trace [t] throws, if anything. The
    message of the second error goes on with the class and the identifier
    of the stack, which are not modelled. *)
Definition refused (t : list Event) (e : Event) : option Exn :=
  match constructId e with
  | Some id =>
      if String.eqb (sanitizeId id) EmptyString then Some emptyId
      else if includes (childIds t) (sanitizeId id) then Some (duplicateId (sanitizeId id))
      else None
  | None => None
  end.

(** [new C(this, id, props)] *)
Definition emit (e : Event) : M unit :=
  fun s =>
    match refused (trace s) e with
    | Some err => Throw err s
    | None => Ok tt (with_trace (trace s ++ [e]) s)
    end.

Definition setEntry (m : MapName) (k v : string) : M unit := modify (writeMap m k v).

Notation "'let*' x ':=' m 'in' k" := (bind m (fun x => k))
  (at level 10, x name, m at level 100, k at level 200).
Notation "m '>>' k" := (bind m (fun _ => k))
  (at level 100, k at level 200, right associativity).

(** [for (const x of xs) body] *)
Fixpoint forM_ {A} (xs : list A) (body : A → M unit) : M unit :=
  match xs with
  | [] => ret tt
  | x :: xs' => body x >> forM_ xs' body
  end.

(** [if (c) body] without an else branch *)
Definition when (c : bool) (body : M unit) : M unit := if c then body else ret tt.

(** The stack a run ends in, whether it returned or threw. *)
Definition final {A} (o : Outcome A) : Stack :=
  match o with Ok _ s => s | Throw _ s => s end.

Definition threw {A} (o : Outcome A) : option Exn :=
  match o with Ok _ _ => None | Throw e _ => Some e end.

(** A local accumulator updated in a loop: [for (const x of xs) acc = body(acc, x)]. *)
Fixpoint foldM {A B} (xs : list A) (acc : B) (body : B → A → M B) : M B :=
  match xs with
  | [] => ret acc
  | x :: xs' => let* acc' := body acc x in foldM xs' acc' body
  end.

(** [this.<m>.get(k)] *)
Definition getMap (m : MapName) (k : string) : M (option string) :=
  fun s => Ok (readMap m s !! k) s.

(** [const x = ...; if (!x) throw e;] after which [x] is a non-empty string. *)
Definition orThrow (x : option string) (e : Exn) : M string :=
  if truthy x then
    match x with Some v => ret v | None => throw e end
  else throw e.

(** [map.has(k)] *)
Definition has (m : gmap string string) (k : string) : bool :=
  match m !! k with Some _ => true | None => false end.

(** A possibly undefined string inside a template literal. *)
Definition str (x : option string) : string := default "undefined" x.

(** [b] for an optional boolean used as a condition. *)
Definition isTrue (b : option bool) : bool := default false b.

(** ** The methods of [NetworkAssociationsStack] *)

Section NetworkAssociationsStack.

Variable E : Env.

(** The test repeated on every VPC route table entry:
    [entry.type && entry.type === 'vpcPeering' && entry.target === peeringName]. *)
Definition isPeeringRoute (entry : RouteTableEntryConfig.t) (peeringName : string) : bool :=
  truthy (RouteTableEntryConfig.type entry)
  && opt_eqb (RouteTableEntryConfig.type entry) (Some "vpcPeering")
  && opt_eqb (RouteTableEntryConfig.target entry) (Some peeringName).

(** [setPeeringList]: [requesterVpc[0].account] is read without a check, and
    [accepterVpc[0]] is stored without a check. *)
Definition setPeeringList : M (list Peering.t) :=
  foldM (NetworkConfig.vpcPeering (networkConfig E)) []
    (fun (peeringList : list Peering.t) peering =>
       let requesterVpc :=
         List.filter (fun item => opt_eqb (Some (VpcConfig.name item))
                                    (VpcPeeringConfig.vpcs peering !! 0%nat))
           (NetworkConfig.vpcs (networkConfig E)) in
       let accepterVpc :=
         List.filter (fun item => opt_eqb (Some (VpcConfig.name item))
                                    (VpcPeeringConfig.vpcs peering !! 1%nat))
           (NetworkConfig.vpcs (networkConfig E)) in
       match requesterVpc with
       | [] => throw (TypeError "account")
       | requesterVpc0 :: _ =>
           let requesterAccountId := getAccountId E (VpcConfig.account requesterVpc0) in
           if String.eqb (account E) requesterAccountId
              && String.eqb (region E) (VpcConfig.region requesterVpc0)
           then ret (peeringList ++
                       [ {| Peering.name := VpcPeeringConfig.name peering;
                            Peering.requester := requesterVpc0;
                            Peering.accepter := head accepterVpc;
                            Peering.tags := VpcPeeringConfig.tags peering |} ])%list
           else ret peeringList
       end).

(** The accepter-side routes of a peering that target it:
    the entries of the two inner loops that pass [isPeeringRoute]. *)
Definition accepterPeeringRoutes (accepterVpc : VpcConfig.t) (peeringName : string)
  : list (RouteTableConfig.t * RouteTableEntryConfig.t) :=
  flat_map (fun routeTable =>
              map (fun entry => (routeTable, entry))
                (List.filter (fun entry => isPeeringRoute entry peeringName)
                   (RouteTableConfig.routes routeTable)))
    (VpcConfig.routeTables accepterVpc).

(** [createCrossAcctRouteProvider]; the cdk-nag suppressions are not traced. *)
Definition createCrossAcctRouteProvider : M (option string) :=
  let* s := get in
  let* createFramework :=
    foldM (peeringList s) false
      (fun createFramework peering =>
         match Peering.accepter peering with
         | None => throw (TypeError "routeTables")
         | Some accepterVpc =>
             ret (fold_left
                    (fun createFramework routeTable =>
                       fold_left
                         (fun createFramework routeTableEntry =>
                            if isPeeringRoute routeTableEntry (Peering.name peering)
                               && (negb (String.eqb (VpcConfig.account accepterVpc)
                                           (VpcConfig.account (Peering.requester peering)))
                                   || negb (String.eqb (VpcConfig.region accepterVpc)
                                              (VpcConfig.region (Peering.requester peering))))
                            then true else createFramework)
                         (RouteTableConfig.routes routeTable) createFramework)
                    (VpcConfig.routeTables accepterVpc) createFramework)
         end) in
  if createFramework then
    emit (CrossAccountRouteFramework "CrossAccountRouteFramework") >>
    ret (Some (crossAccountRouteFrameworkProvider E "CrossAccountRouteFramework"))
  else ret None.

(** [setCrossAcctPrefixLists] *)
Definition setCrossAcctPrefixLists : M (gmap string string) :=
  let* s := get in
  foldM (peeringList s) (∅ : gmap string string)
    (fun prefixListMap peering =>
       match Peering.accepter peering with
       | None => throw (TypeError "account")
       | Some accepterVpc =>
           let requesterAccountId := getAccountId E (VpcConfig.account (Peering.requester peering)) in
           let accepterAccountId := getAccountId E (VpcConfig.account accepterVpc) in
           let crossAccountCondition :=
             negb (String.eqb accepterAccountId requesterAccountId)
             || negb (String.eqb (VpcConfig.region accepterVpc)
                        (VpcConfig.region (Peering.requester peering))) in
           foldM (VpcConfig.routeTables accepterVpc) prefixListMap
             (fun prefixListMap routeTable =>
                foldM (RouteTableConfig.routes routeTable) prefixListMap
                  (fun prefixListMap routeTableEntry =>
                     let destinationPrefixList :=
                       RouteTableEntryConfig.destinationPrefixList routeTableEntry in
                     let mapKey := VpcConfig.account accepterVpc +:+ "_"
                                   +:+ VpcConfig.region accepterVpc +:+ "_"
                                   +:+ str destinationPrefixList in
                     if isPeeringRoute routeTableEntry (Peering.name peering)
                        && crossAccountCondition
                        && truthy destinationPrefixList
                        && negb (has prefixListMap mapKey)
                     then
                       let id := pascalCase E ("SsmParamLookup" +:+ str destinationPrefixList) in
                       let props :=
                         {| SsmParameterLookupProps.name :=
                              "/accelerator/network/prefixList/" +:+ str destinationPrefixList +:+ "/id";
                            SsmParameterLookupProps.accountId := accepterAccountId;
                            SsmParameterLookupProps.parameterRegion := VpcConfig.region accepterVpc;
                            SsmParameterLookupProps.roleName :=
                              "AWSAccelerator-VpcPeeringRole-" +:+ VpcConfig.region accepterVpc |} in
                       emit (SsmParameterLookup id props) >>
                       ret (<[mapKey := ssmParameterLookupValue E id props]> prefixListMap)
                     else ret prefixListMap))
       end).

(** [setPrefixListMap]; the final [forEach] writes every cross-account entry
    over the local ones, which is the union that prefers the cross-account map. *)
Definition setPrefixListMap : M (gmap string string) :=
  let prefixListMap :=
    fold_left
      (fun (prefixListMap : gmap string string) prefixListItem =>
         let accountIds := map (getAccountId E) (PrefixListConfig.accounts prefixListItem) in
         let regions := PrefixListConfig.regions prefixListItem in
         if includes accountIds (account E) && includes regions (region E)
         then <[PrefixListConfig.name prefixListItem :=
                  valueForStringParameter E
                    ("/accelerator/network/prefixList/"
                     +:+ PrefixListConfig.name prefixListItem +:+ "/id")]> prefixListMap
         else prefixListMap)
      (NetworkConfig.prefixLists (networkConfig E)) ∅ in
  let* crossAcctPrefixLists := setCrossAcctPrefixLists in
  ret (crossAcctPrefixLists ∪ prefixListMap).

(** [setCrossAcctRouteTables] *)
Definition setCrossAcctRouteTables : M (gmap string string) :=
  let* s := get in
  foldM (peeringList s) (∅ : gmap string string)
    (fun routeTableMap peering =>
       match Peering.accepter peering with
       | None => throw (TypeError "account")
       | Some accepterVpc =>
           let requesterAccountId := getAccountId E (VpcConfig.account (Peering.requester peering)) in
           let accepterAccountId := getAccountId E (VpcConfig.account accepterVpc) in
           let crossAccountCondition :=
             negb (String.eqb accepterAccountId requesterAccountId)
             || negb (String.eqb (VpcConfig.region accepterVpc)
                        (VpcConfig.region (Peering.requester peering))) in
           foldM (VpcConfig.routeTables accepterVpc) routeTableMap
             (fun routeTableMap routeTable =>
                foldM (RouteTableConfig.routes routeTable) routeTableMap
                  (fun routeTableMap routeTableEntry =>
                     let mapKey := VpcConfig.name accepterVpc +:+ "_"
                                   +:+ RouteTableConfig.name routeTable in
                     if isPeeringRoute routeTableEntry (Peering.name peering)
                        && crossAccountCondition
                        && negb (has routeTableMap mapKey)
                     then
                       let id := pascalCase E ("SsmParamLookup" +:+ RouteTableConfig.name routeTable) in
                       let props :=
                         {| SsmParameterLookupProps.name :=
                              "/accelerator/network/vpc/" +:+ VpcConfig.name accepterVpc
                              +:+ "/routeTable/" +:+ RouteTableConfig.name routeTable +:+ "/id";
                            SsmParameterLookupProps.accountId := accepterAccountId;
                            SsmParameterLookupProps.parameterRegion := VpcConfig.region accepterVpc;
                            SsmParameterLookupProps.roleName :=
                              "AWSAccelerator-VpcPeeringRole-" +:+ VpcConfig.region accepterVpc |} in
                       emit (SsmParameterLookup id props) >>
                       ret (<[mapKey := ssmParameterLookupValue E id props]> routeTableMap)
                     else ret routeTableMap))
       end).

(** [setRouteTableMap] *)
Definition setRouteTableMap : M (gmap string string) :=
  let routeTableMap :=
    fold_left
      (fun (routeTableMap : gmap string string) vpcItem =>
         let vpcAccountIds := getVpcAccountIds E vpcItem in
         if includes vpcAccountIds (account E) && String.eqb (VpcItem.region vpcItem) (region E)
         then
           fold_left
             (fun (routeTableMap : gmap string string) routeTableItem =>
                <[VpcItem.name vpcItem +:+ "_" +:+ RouteTableConfig.name routeTableItem :=
                    valueForStringParameter E
                      ("/accelerator/network/vpc/" +:+ VpcItem.name vpcItem +:+ "/routeTable/"
                       +:+ RouteTableConfig.name routeTableItem +:+ "/id")]> routeTableMap)
             (VpcItem.routeTables vpcItem) routeTableMap
         else routeTableMap)
      (NetworkConfig.allVpcs (networkConfig E)) ∅ in
  let* crossAcctRouteTables := setCrossAcctRouteTables in
  ret (crossAcctRouteTables ∪ routeTableMap).

(** [setTransitGatewayMap] *)
Definition setTransitGatewayMap (tgwItem : TransitGatewayConfig.t) : M unit :=
  let accountId := getAccountId E (TransitGatewayConfig.account tgwItem) in
  when (String.eqb accountId (account E)
        && String.eqb (TransitGatewayConfig.region tgwItem) (region E))
    (let transitGatewayId :=
       valueForStringParameter E
         ("/accelerator/network/transitGateways/" +:+ TransitGatewayConfig.name tgwItem +:+ "/id") in
     setEntry TransitGateways (TransitGatewayConfig.name tgwItem) transitGatewayId).

(** [setTransitGatewayRouteTableMap] *)
Definition setTransitGatewayRouteTableMap (tgwItem : TransitGatewayConfig.t) : M unit :=
  let accountId := getAccountId E (TransitGatewayConfig.account tgwItem) in
  when (String.eqb accountId (account E)
        && String.eqb (TransitGatewayConfig.region tgwItem) (region E))
    (forM_ (TransitGatewayConfig.routeTables tgwItem)
       (fun routeTableItem =>
          let transitGatewayRouteTableId :=
            valueForStringParameter E
              ("/accelerator/network/transitGateways/" +:+ TransitGatewayConfig.name tgwItem
               +:+ "/routeTables/" +:+ TransitGatewayRouteTableConfig.name routeTableItem +:+ "/id") in
          let key := TransitGatewayConfig.name tgwItem +:+ "_"
                     +:+ TransitGatewayRouteTableConfig.name routeTableItem in
          setEntry TransitGatewayRouteTables key transitGatewayRouteTableId)).

(** [getTransitGatewayAttachmentAccounts] *)
Definition getTransitGatewayAttachmentAccounts (vpcItem : VpcItem) : list string * list string :=
  match vpcItem with
  | IsVpc v => ([VpcConfig.account v], [])
  | IsVpcTemplate v =>
      (getAccountNamesFromDeploymentTarget E (VpcTemplatesConfig.deploymentTargets v),
       getExcludedAccountIds E (VpcTemplatesConfig.deploymentTargets v))
  end.

(** The key under which a VPC attachment is stored:
    [`${owningAccount}_${vpcItem.name}`]. *)
Definition attachmentKey (owningAccount vpcName : string) : string :=
  owningAccount +:+ "_" +:+ vpcName.

(** [setTransitGatewayVpcAttachmentsMap] *)
Definition setTransitGatewayVpcAttachmentsMap (vpcItem : VpcItem) : M unit :=
  let '(accountNames, excludedAccountIds) := getTransitGatewayAttachmentAccounts vpcItem in
  when (String.eqb (VpcItem.region vpcItem) (region E))
    (forM_ (VpcItem.transitGatewayAttachments vpcItem)
       (fun tgwAttachmentItem =>
          let tgwRef := TransitGatewayAttachmentConfig.transitGateway tgwAttachmentItem in
          let accountId := getAccountId E (TransitGatewayAttachmentTargetConfig.account tgwRef) in
          when (String.eqb accountId (account E))
            (let* found := getMap TransitGateways (TransitGatewayAttachmentTargetConfig.name tgwRef) in
             let* transitGatewayId :=
               orThrow found
                 (Error ("Transit Gateway " +:+ TransitGatewayAttachmentTargetConfig.name tgwRef
                         +:+ " not found")) in
             forM_ accountNames
               (fun owningAccount =>
                  let owningAccountId := getAccountId E owningAccount in
                  let attachmentKey := attachmentKey owningAccount (VpcItem.name vpcItem) in
                  if includes excludedAccountIds owningAccountId then ret tt
                  else if String.eqb accountId owningAccountId then
                    let transitGatewayAttachmentId :=
                      valueForStringParameter E
                        ("/accelerator/network/vpc/" +:+ VpcItem.name vpcItem
                         +:+ "/transitGatewayAttachment/"
                         +:+ TransitGatewayAttachmentConfig.name tgwAttachmentItem +:+ "/id") in
                    setEntry TransitGatewayAttachments attachmentKey transitGatewayAttachmentId
                  else
                    let id :=
                      pascalCase E (TransitGatewayAttachmentConfig.name tgwAttachmentItem
                                    +:+ owningAccount +:+ "VpcTransitGatewayAttachment") in
                    let options :=
                      {| TransitGatewayAttachmentLookupOptions.name :=
                           TransitGatewayAttachmentConfig.name tgwAttachmentItem;
                         TransitGatewayAttachmentLookupOptions.owningAccountId := owningAccountId;
                         TransitGatewayAttachmentLookupOptions.transitGatewayId := transitGatewayId;
                         TransitGatewayAttachmentLookupOptions.type := VPC;
                         TransitGatewayAttachmentLookupOptions.roleName :=
                           Some ("AWSAccelerator-DescribeTgwAttachRole-" +:+ region E) |} in
                    emit (TransitGatewayAttachmentLookup id options) >>
                    setEntry TransitGatewayAttachments attachmentKey
                      (lookupTransitGatewayAttachmentId E id options))))).

(** [createVpcTransitGatewayAssociations] *)
Definition createVpcTransitGatewayAssociations (vpcItem : VpcItem) : M unit :=
  let '(accountNames, excludedAccountIds) := getTransitGatewayAttachmentAccounts vpcItem in
  when (String.eqb (VpcItem.region vpcItem) (region E))
    (forM_ (VpcItem.transitGatewayAttachments vpcItem)
       (fun tgwAttachmentItem =>
          let tgwRef := TransitGatewayAttachmentConfig.transitGateway tgwAttachmentItem in
          let accountId := getAccountId E (TransitGatewayAttachmentTargetConfig.account tgwRef) in
          when (String.eqb accountId (account E))
            (forM_ accountNames
               (fun owningAccount =>
                  let owningAccountId := getAccountId E owningAccount in
                  let attachmentKey := attachmentKey owningAccount (VpcItem.name vpcItem) in
                  if includes excludedAccountIds owningAccountId then ret tt
                  else
                    let* found := getMap TransitGatewayAttachments attachmentKey in
                    let* transitGatewayAttachmentId :=
                      orThrow found
                        (Error ("Transit Gateway attachment " +:+ attachmentKey +:+ " not found")) in
                    forM_ (TransitGatewayAttachmentConfig.routeTableAssociations tgwAttachmentItem)
                      (fun routeTableItem =>
                         let associationsKey :=
                           TransitGatewayAttachmentTargetConfig.name tgwRef +:+ "_" +:+ routeTableItem in
                         let associationId :=
                           match vpcItem with
                           | IsVpc _ =>
                               pascalCase E (TransitGatewayAttachmentConfig.name tgwAttachmentItem)
                               +:+ pascalCase E routeTableItem +:+ "Association"
                           | IsVpcTemplate _ =>
                               pascalCase E (TransitGatewayAttachmentConfig.name tgwAttachmentItem)
                               +:+ pascalCase E routeTableItem +:+ pascalCase E owningAccount
                               +:+ "Association"
                           end in
                         let* routeTable := getMap TransitGatewayRouteTables associationsKey in
                         match routeTable with
                         | None =>
                             throw (Error ("Transit Gateway Route Table " +:+ associationsKey
                                           +:+ " not found"))
                         | Some transitGatewayRouteTableId =>
                             emit (TransitGatewayRouteTableAssociation associationId
                                     transitGatewayAttachmentId transitGatewayRouteTableId)
                         end))))).

(** [createVpcTransitGatewayPropagations] *)
Definition createVpcTransitGatewayPropagations (vpcItem : VpcItem) : M unit :=
  let '(accountNames, excludedAccountIds) := getTransitGatewayAttachmentAccounts vpcItem in
  when (String.eqb (VpcItem.region vpcItem) (region E))
    (forM_ (VpcItem.transitGatewayAttachments vpcItem)
       (fun tgwAttachmentItem =>
          let tgwRef := TransitGatewayAttachmentConfig.transitGateway tgwAttachmentItem in
          let accountId := getAccountId E (TransitGatewayAttachmentTargetConfig.account tgwRef) in
          when (String.eqb accountId (account E))
            (forM_ accountNames
               (fun owningAccount =>
                  let owningAccountId := getAccountId E owningAccount in
                  let attachmentKey := attachmentKey owningAccount (VpcItem.name vpcItem) in
                  if includes excludedAccountIds owningAccountId then ret tt
                  else
                    let* found := getMap TransitGatewayAttachments attachmentKey in
                    let* transitGatewayAttachmentId :=
                      orThrow found
                        (Error ("Transit Gateway attachment " +:+ attachmentKey +:+ " not found")) in
                    forM_ (TransitGatewayAttachmentConfig.routeTablePropagations tgwAttachmentItem)
                      (fun routeTableItem =>
                         let propagationsKey :=
                           TransitGatewayAttachmentTargetConfig.name tgwRef +:+ "_" +:+ routeTableItem in
                         let propagationId :=
                           match vpcItem with
                           | IsVpc _ =>
                               pascalCase E (TransitGatewayAttachmentConfig.name tgwAttachmentItem)
                               +:+ pascalCase E routeTableItem +:+ "Propagation"
                           | IsVpcTemplate _ =>
                               pascalCase E (TransitGatewayAttachmentConfig.name tgwAttachmentItem)
                               +:+ pascalCase E routeTableItem +:+ pascalCase E owningAccount
                               +:+ "Propagation"
                           end in
                         let* routeTable := getMap TransitGatewayRouteTables propagationsKey in
                         let* transitGatewayRouteTableId :=
                           orThrow routeTable
                             (Error ("Transit Gateway Route Table " +:+ propagationsKey
                                     +:+ " not found")) in
                         emit (TransitGatewayRouteTablePropagation propagationId
                                 transitGatewayAttachmentId transitGatewayRouteTableId)))))).

(** [setTransitGatewayVpnAttachmentsMap] *)
Definition setTransitGatewayVpnAttachmentsMap
    (cgwItem : CustomerGatewayConfig.t) (vpnItem : VpnConnectionConfig.t) : M unit :=
  let accountId := getAccountId E (CustomerGatewayConfig.account cgwItem) in
  when (String.eqb accountId (account E)
        && String.eqb (CustomerGatewayConfig.region cgwItem) (region E)
        && truthy (VpnConnectionConfig.transitGateway vpnItem))
    (match List.find (fun tgwItem => opt_eqb (Some (TransitGatewayConfig.name tgwItem))
                                       (VpnConnectionConfig.transitGateway vpnItem))
             (NetworkConfig.transitGateways (networkConfig E)) with
     | None => throw (TypeError "name")
     | Some tgw =>
         let* found := getMap TransitGateways (TransitGatewayConfig.name tgw) in
         let* transitGatewayId :=
           orThrow found
             (Error ("Transit Gateway " +:+ TransitGatewayConfig.name tgw +:+ " not found")) in
         let id := pascalCase E (VpnConnectionConfig.name vpnItem +:+ "VpnTransitGatewayAttachment") in
         let options :=
           {| TransitGatewayAttachmentLookupOptions.name := VpnConnectionConfig.name vpnItem;
              TransitGatewayAttachmentLookupOptions.owningAccountId := accountId;
              TransitGatewayAttachmentLookupOptions.transitGatewayId := transitGatewayId;
              TransitGatewayAttachmentLookupOptions.type := VPN;
              TransitGatewayAttachmentLookupOptions.roleName := None |} in
         emit (TransitGatewayAttachmentLookup id options) >>
         setEntry TransitGatewayAttachments
           (VpnConnectionConfig.name vpnItem +:+ "_" +:+ TransitGatewayConfig.name tgw)
           (lookupTransitGatewayAttachmentId E id options)
     end).

(** [createVpnTransitGatewayAssociations] *)
Definition createVpnTransitGatewayAssociations
    (cgwItem : CustomerGatewayConfig.t) (vpnItem : VpnConnectionConfig.t) : M unit :=
  let accountId := getAccountId E (CustomerGatewayConfig.account cgwItem) in
  match VpnConnectionConfig.routeTableAssociations vpnItem with
  | Some routeTableAssociations =>
      when (String.eqb accountId (account E)
            && String.eqb (CustomerGatewayConfig.region cgwItem) (region E))
        (let attachmentKey :=
           VpnConnectionConfig.name vpnItem +:+ "_"
           +:+ str (VpnConnectionConfig.transitGateway vpnItem) in
         let* found := getMap TransitGatewayAttachments attachmentKey in
         let* transitGatewayAttachmentId :=
           orThrow found (Error ("Transit Gateway attachment " +:+ attachmentKey +:+ " not found")) in
         forM_ routeTableAssociations
           (fun routeTableItem =>
              let routeTableKey :=
                str (VpnConnectionConfig.transitGateway vpnItem) +:+ "_" +:+ routeTableItem in
              let* routeTable := getMap TransitGatewayRouteTables routeTableKey in
              let* transitGatewayRouteTableId :=
                orThrow routeTable
                  (Error ("Transit Gateway Route Table " +:+ routeTableKey +:+ " not found")) in
              emit (TransitGatewayRouteTableAssociation
                      (pascalCase E (VpnConnectionConfig.name vpnItem)
                       +:+ pascalCase E routeTableItem +:+ "Association")
                      transitGatewayAttachmentId transitGatewayRouteTableId)))
  | None => ret tt
  end.

(** [createVpnTransitGatewayPropagations] *)
Definition createVpnTransitGatewayPropagations
    (cgwItem : CustomerGatewayConfig.t) (vpnItem : VpnConnectionConfig.t) : M unit :=
  let accountId := getAccountId E (CustomerGatewayConfig.account cgwItem) in
  match VpnConnectionConfig.routeTablePropagations vpnItem with
  | Some routeTablePropagations =>
      when (String.eqb accountId (account E)
            && String.eqb (CustomerGatewayConfig.region cgwItem) (region E))
        (let attachmentKey :=
           VpnConnectionConfig.name vpnItem +:+ "_"
           +:+ str (VpnConnectionConfig.transitGateway vpnItem) in
         let* found := getMap TransitGatewayAttachments attachmentKey in
         let* transitGatewayAttachmentId :=
           orThrow found (Error ("Transit Gateway attachment " +:+ attachmentKey +:+ " not found")) in
         forM_ routeTablePropagations
           (fun routeTableItem =>
              let routeTableKey :=
                str (VpnConnectionConfig.transitGateway vpnItem) +:+ "_" +:+ routeTableItem in
              let* routeTable := getMap TransitGatewayRouteTables routeTableKey in
              let* transitGatewayRouteTableId :=
                orThrow routeTable
                  (Error ("Transit Gateway Route Table " +:+ routeTableKey +:+ " not found")) in
              emit (TransitGatewayRouteTablePropagation
                      (pascalCase E (VpnConnectionConfig.name vpnItem)
                       +:+ pascalCase E routeTableItem +:+ "Propagation")
                      transitGatewayAttachmentId transitGatewayRouteTableId)))
  | None => ret tt
  end.

(** [createTransitGatewayResources] *)
Definition createTransitGatewayResources : M unit :=
  forM_ (NetworkConfig.transitGateways (networkConfig E))
    (fun tgwItem =>
       setTransitGatewayMap tgwItem >>
       setTransitGatewayRouteTableMap tgwItem) >>
  forM_ (NetworkConfig.allVpcs (networkConfig E))
    (fun vpcItem =>
       setTransitGatewayVpcAttachmentsMap vpcItem >>
       createVpcTransitGatewayAssociations vpcItem >>
       createVpcTransitGatewayPropagations vpcItem) >>
  forM_ (NetworkConfig.customerGateways (networkConfig E))
    (fun cgwItem =>
       forM_ (CustomerGatewayConfig.vpnConnections cgwItem)
         (fun vpnItem =>
            setTransitGatewayVpnAttachmentsMap cgwItem vpnItem >>
            createVpnTransitGatewayAssociations cgwItem vpnItem >>
            createVpnTransitGatewayPropagations cgwItem vpnItem)).

(** The filter of [createHostedZoneAssociations]: the VPCs of this account and
    region whose [interfaceEndpoints?.central] is set. *)
Definition centralEndpointVpcs : list VpcConfig.t :=
  List.filter
    (fun item =>
       match VpcConfig.interfaceEndpoints item with
       | Some endpoints => InterfaceEndpointConfig.central endpoints
       | None => false
       end
       && String.eqb (getAccountId E (VpcConfig.account item)) (account E)
       && String.eqb (VpcConfig.region item) (region E))
    (NetworkConfig.vpcs (networkConfig E)).

(** [createHostedZoneAssociations] *)
Definition createHostedZoneAssociations : M unit :=
  let centralEndpointVpcs := centralEndpointVpcs in
  if negb (String.eqb (partition E) "aws") && negb (String.eqb (partition E) "aws-cn")
     && (0 <? length centralEndpointVpcs)%nat
  then throw (Error "Central Endpoint VPC is only possible in commercial regions")
  else if (1 <? length centralEndpointVpcs)%nat
  then throw (Error ("multiple (" +:+ pretty (length centralEndpointVpcs)
                     +:+ ") central endpoint vpcs detected, should only be one"))
  else
    match head centralEndpointVpcs with
    | Some centralEndpointVpc =>
        let zoneAssociationAccountIds :=
          fold_left
            (fun (zoneAssociationAccountIds : list string) vpcItem =>
               let vpcAccountIds := getVpcAccountIds E vpcItem in
               if String.eqb (VpcItem.region vpcItem) (region E)
                  && VpcItem.useCentralEndpoints vpcItem
               then
                 fold_left
                   (fun (zoneAssociationAccountIds : list string) accountId =>
                      if negb (includes zoneAssociationAccountIds accountId)
                      then (zoneAssociationAccountIds ++ [accountId])%list
                      else zoneAssociationAccountIds)
                   vpcAccountIds zoneAssociationAccountIds
               else zoneAssociationAccountIds)
            (NetworkConfig.allVpcs (networkConfig E)) [] in
        let hostedZoneIds :=
          map (fun service =>
                 valueForStringParameter E
                   ("/accelerator/network/vpc/" +:+ VpcConfig.name centralEndpointVpc
                    +:+ "/route53/hostedZone/" +:+ service +:+ "/id"))
            (match VpcConfig.interfaceEndpoints centralEndpointVpc with
             | Some endpoints => InterfaceEndpointConfig.endpoints endpoints
             | None => []
             end) in
        emit (AssociateHostedZones "AssociateHostedZones"
                {| AssociateHostedZonesProps.accountIds := zoneAssociationAccountIds;
                   AssociateHostedZonesProps.hostedZoneIds := hostedZoneIds;
                   AssociateHostedZonesProps.hostedZoneAccountId := account E;
                   AssociateHostedZonesProps.roleName :=
                     "AWSAccelerator-EnableCentralEndpointsRole-" +:+ region E;
                   AssociateHostedZonesProps.tagFilters :=
                     [ ("accelerator:use-central-endpoints", "true");
                       ("accelerator:central-endpoints-account-id",
                        getAccountId E (VpcConfig.account centralEndpointVpc)) ] |})
    | None => ret tt
    end.

(** [createDnsFirewallAssociations] *)
Definition createDnsFirewallAssociations (vpcItem : VpcItem) (owningAccountId : string) : M unit :=
  forM_ (VpcItem.dnsFirewallRuleGroups vpcItem)
    (fun firewallItem =>
       let name := VpcDnsFirewallAssociationConfig.name firewallItem in
       let vpcId :=
         valueForStringParameter E ("/accelerator/network/vpc/" +:+ VpcItem.name vpcItem +:+ "/id") in
       let* s := get in
       when (negb (has (dnsFirewallMap s) name))
         (if String.eqb owningAccountId (account E) then
            let ruleId :=
              valueForStringParameter E
                ("/accelerator/network/route53Resolver/firewall/ruleGroups/" +:+ name +:+ "/id") in
            setEntry DnsFirewallMap name ruleId
          else
            emit (ResourceShareLookup (name +:+ "_ResolverFirewallRuleGroupShare")
                    "route53resolver:FirewallRuleGroup" owningAccountId) >>
            setEntry DnsFirewallMap name
              (resourceShareItemId E (name +:+ "_ResolverFirewallRuleGroupShare")
                 "route53resolver:FirewallRuleGroup" owningAccountId)) >>
       let* found := getMap DnsFirewallMap name in
       let* firewallRuleGroupId :=
         orThrow found
           (Error ("[network-associations-stack] Could not find existing DNS firewall rule group "
                   +:+ name)) in
       emit (ResolverFirewallRuleGroupAssociation
               (pascalCase E (VpcItem.name vpcItem +:+ name +:+ "RuleGroupAssociation"))
               firewallRuleGroupId
               (VpcDnsFirewallAssociationConfig.priority firewallItem)
               vpcId
               (VpcDnsFirewallAssociationConfig.mutationProtection firewallItem))).

(** The names of the query log configurations of [configItem], as the two
    [if (...destinations.includes(...)) configNames.push(...)] blocks of
    [createQueryLogConfigAssociations] collect them. *)
Definition queryLogConfigNames (centralNetworkConfig : CentralNetworkServicesConfig.t)
    (configItem : string) : list string :=
  let destinations :=
    default [] (CentralNetworkServicesConfig.queryLogDestinations centralNetworkConfig) in
  ((if includes destinations "s3" then [configItem +:+ "-s3"] else [])
   ++ (if includes destinations "cloud-watch-logs" then [configItem +:+ "-cwl"] else []))%list.

(** [createQueryLogConfigAssociations] *)
Definition createQueryLogConfigAssociations (vpcItem : VpcItem) (owningAccountId : string) : M unit :=
  forM_ (VpcItem.queryLogs vpcItem)
    (fun configItem =>
       let vpcId :=
         valueForStringParameter E ("/accelerator/network/vpc/" +:+ VpcItem.name vpcItem +:+ "/id") in
       match NetworkConfig.centralNetworkServices (networkConfig E) with
       | None => throw (TypeError "route53Resolver")
       | Some centralNetworkConfig =>
           let configNames := queryLogConfigNames centralNetworkConfig configItem in
           forM_ configNames
             (fun nameItem =>
                let* s := get in
                when (negb (has (queryLogMap s) nameItem))
                  (if String.eqb owningAccountId (account E) then
                     let configId :=
                       valueForStringParameter E
                         ("/accelerator/network/route53Resolver/queryLogConfigs/" +:+ nameItem +:+ "/id") in
                     setEntry QueryLogMap nameItem configId
                   else
                     emit (ResourceShareLookup (nameItem +:+ "_QueryLogConfigShare")
                             "route53resolver:ResolverQueryLogConfig" owningAccountId) >>
                     setEntry QueryLogMap nameItem
                       (resourceShareItemId E (nameItem +:+ "_QueryLogConfigShare")
                          "route53resolver:ResolverQueryLogConfig" owningAccountId))) >>
           forM_ configNames
             (fun nameItem =>
                let* found := getMap QueryLogMap nameItem in
                if negb (truthy found) then
                  throw (Error ("[network-associations-stack] Could not find existing DNS query log config "
                                +:+ nameItem))
                else
                  emit (QueryLoggingConfigAssociation
                          (pascalCase E (VpcItem.name vpcItem +:+ nameItem +:+ "QueryLogAssociation"))
                          found vpcId (partition E)))
       end).

(** [createResolverRuleAssociations] *)
Definition createResolverRuleAssociations (vpcItem : VpcItem) (owningAccountId : string) : M unit :=
  forM_ (VpcItem.resolverRules vpcItem)
    (fun ruleItem =>
       let vpcId :=
         valueForStringParameter E ("/accelerator/network/vpc/" +:+ VpcItem.name vpcItem +:+ "/id") in
       let* s := get in
       when (negb (has (resolverRuleMap s) ruleItem))
         (if String.eqb owningAccountId (account E) then
            let ruleId :=
              valueForStringParameter E
                ("/accelerator/network/route53Resolver/rules/" +:+ ruleItem +:+ "/id") in
            setEntry ResolverRuleMap ruleItem ruleId
          else
            emit (ResourceShareLookup (ruleItem +:+ "_ResolverRule")
                    "route53resolver:ResolverRule" owningAccountId) >>
            setEntry ResolverRuleMap ruleItem
              (resourceShareItemId E (ruleItem +:+ "_ResolverRule")
                 "route53resolver:ResolverRule" owningAccountId)) >>
       let* found := getMap ResolverRuleMap ruleItem in
       let* resolverRuleId :=
         orThrow found
           (Error ("[network-associations-stack] Could not find existing Route 53 Resolver rule "
                   +:+ ruleItem)) in
       emit (ResolverRuleAssociation
               (pascalCase E (VpcItem.name vpcItem +:+ ruleItem +:+ "RuleAssociation"))
               resolverRuleId vpcId)).

(** [createCentralNetworkAssociations] *)
Definition createCentralNetworkAssociations : M unit :=
  match NetworkConfig.centralNetworkServices (networkConfig E) with
  | Some centralNetworkServices =>
      forM_ (NetworkConfig.allVpcs (networkConfig E))
        (fun vpcItem =>
           let vpcAccountIds := getVpcAccountIds E vpcItem in
           let delegatedAdminAccountId :=
             getAccountId E (CentralNetworkServicesConfig.delegatedAdminAccount centralNetworkServices) in
           when (includes vpcAccountIds (account E)
                 && String.eqb (VpcItem.region vpcItem) (region E))
             (createDnsFirewallAssociations vpcItem delegatedAdminAccountId >>
              createQueryLogConfigAssociations vpcItem delegatedAdminAccountId >>
              createResolverRuleAssociations vpcItem delegatedAdminAccountId))
  | None => ret tt
  end.

(** [createRequesterVpcPeeringRoutes]; [peeringName] is the [name] of the
    [VpcPeering] construct. *)
Definition createRequesterVpcPeeringRoutes (requesterVpc : VpcConfig.t) (peeringName : string) : M unit :=
  forM_ (VpcConfig.routeTables requesterVpc)
    (fun routeTable =>
       forM_ (RouteTableConfig.routes routeTable)
         (fun routeTableEntry =>
            when (isPeeringRoute routeTableEntry peeringName)
              (let* s := get in
               let found :=
                 routeTableMap s !! (VpcConfig.name requesterVpc +:+ "_" +:+ RouteTableConfig.name routeTable) in
               let routeId :=
                 pascalCase E (VpcConfig.name requesterVpc +:+ "Vpc")
                 +:+ pascalCase E (RouteTableConfig.name routeTable +:+ "RouteTable")
                 +:+ pascalCase E (RouteTableEntryConfig.name routeTableEntry) in
               let* routeTableId :=
                 orThrow found
                   (Error ("Route Table " +:+ RouteTableConfig.name routeTable +:+ " not found")) in
               let destinationPrefixList := RouteTableEntryConfig.destinationPrefixList routeTableEntry in
               let* target :=
                 if truthy destinationPrefixList then
                   let* destinationPrefixListId :=
                     orThrow (prefixListMap s !! str destinationPrefixList)
                       (Error ("[network-associations-stack] Prefix list "
                               +:+ str destinationPrefixList +:+ " not found")) in
                   ret (None, Some destinationPrefixListId)
                 else ret (RouteTableEntryConfig.destination routeTableEntry, None) in
               emit (PeeringRoute peeringName routeId routeTableId (fst target) (snd target))))).

(** [createAccepterVpcPeeringRoutes] *)
Definition createAccepterVpcPeeringRoutes
    (accepterAccountId : string) (accepterVpc requesterVpc : VpcConfig.t) (peeringName : string) : M unit :=
  forM_ (VpcConfig.routeTables accepterVpc)
    (fun routeTable =>
       forM_ (RouteTableConfig.routes routeTable)
         (fun routeTableEntry =>
            when (isPeeringRoute routeTableEntry peeringName)
              (let* s := get in
               let routeId :=
                 pascalCase E (VpcConfig.name accepterVpc +:+ "Vpc")
                 +:+ pascalCase E (RouteTableConfig.name routeTable +:+ "RouteTable")
                 +:+ pascalCase E (RouteTableEntryConfig.name routeTableEntry) in
               let found :=
                 routeTableMap s !! (VpcConfig.name accepterVpc +:+ "_" +:+ RouteTableConfig.name routeTable) in
               let* routeTableId :=
                 orThrow found
                   (Error ("[network-associations-stack] Route Table "
                           +:+ RouteTableConfig.name routeTable +:+ " not found")) in
               let destinationPrefixList := RouteTableEntryConfig.destinationPrefixList routeTableEntry in
               if String.eqb (VpcConfig.account requesterVpc) (VpcConfig.account accepterVpc)
                  && String.eqb (VpcConfig.region requesterVpc) (VpcConfig.region accepterVpc)
               then
                 let* target :=
                   if truthy destinationPrefixList then
                     let* destinationPrefixListId :=
                       orThrow (prefixListMap s !! str destinationPrefixList)
                         (Error ("[network-associations-stack] Prefix list "
                                 +:+ str destinationPrefixList +:+ " not found")) in
                     ret (None, Some destinationPrefixListId)
                   else ret (RouteTableEntryConfig.destination routeTableEntry, None) in
                 emit (PeeringRoute peeringName routeId routeTableId (fst target) (snd target))
               else
                 let target :=
                   if truthy destinationPrefixList then
                     (None,
                      prefixListMap s !! (VpcConfig.account accepterVpc +:+ "_"
                                          +:+ VpcConfig.region accepterVpc +:+ "_"
                                          +:+ str destinationPrefixList))
                   else (RouteTableEntryConfig.destination routeTableEntry, None) in
                 match crossAcctRouteProvider s with
                 | None =>
                     throw (Error ("[network-associations-stack] Cross-account route provider not created but required for "
                                   +:+ RouteTableEntryConfig.name routeTableEntry))
                 | Some provider =>
                     emit (CrossAcctPeeringRoute peeringName
                             {| CrossAcctPeeringRouteProps.id := routeId;
                                CrossAcctPeeringRouteProps.ownerAccount := accepterAccountId;
                                CrossAcctPeeringRouteProps.ownerRegion := VpcConfig.region accepterVpc;
                                CrossAcctPeeringRouteProps.partition := partition E;
                                CrossAcctPeeringRouteProps.provider := provider;
                                CrossAcctPeeringRouteProps.roleName :=
                                  "AWSAccelerator-VpcPeeringRole-" +:+ VpcConfig.region accepterVpc;
                                CrossAcctPeeringRouteProps.routeTableId := routeTableId;
                                CrossAcctPeeringRouteProps.destination := fst target;
                                CrossAcctPeeringRouteProps.destinationPrefixListId := snd target |})
                 end))).

(** [createVpcPeeringRoutes] *)
Definition createVpcPeeringRoutes
    (accepterAccountId : string) (requesterVpc accepterVpc : VpcConfig.t) (peeringName : string) : M unit :=
  createRequesterVpcPeeringRoutes requesterVpc peeringName >>
  createAccepterVpcPeeringRoutes accepterAccountId accepterVpc requesterVpc peeringName.

(** [createVpcPeeringConnections] *)
Definition createVpcPeeringConnections : M unit :=
  let* s := get in
  forM_ (peeringList s)
    (fun peering =>
       let requesterVpc := Peering.requester peering in
       let requesterAccountId := getAccountId E (VpcConfig.account requesterVpc) in
       match Peering.accepter peering with
       | None => throw (TypeError "account")
       | Some accepterVpc =>
           let accepterAccountId := getAccountId E (VpcConfig.account accepterVpc) in
           let crossAccountCondition :=
             negb (String.eqb accepterAccountId requesterAccountId)
             || negb (String.eqb (VpcConfig.region accepterVpc) (VpcConfig.region requesterVpc)) in
           let requesterVpcId :=
             valueForStringParameter E
               ("/accelerator/network/vpc/" +:+ VpcConfig.name requesterVpc +:+ "/id") in
           let accepterRole := "AWSAccelerator-VpcPeeringRole-" +:+ VpcConfig.region accepterVpc in
           let* accepterSide :=
             if crossAccountCondition then
               let id := pascalCase E ("SsmParamLookup" +:+ Peering.name peering) in
               let props :=
                 {| SsmParameterLookupProps.name :=
                      "/accelerator/network/vpc/" +:+ VpcConfig.name accepterVpc +:+ "/id";
                    SsmParameterLookupProps.accountId := accepterAccountId;
                    SsmParameterLookupProps.parameterRegion := VpcConfig.region accepterVpc;
                    SsmParameterLookupProps.roleName := accepterRole |} in
               emit (SsmParameterLookup id props) >>
               ret (ssmParameterLookupValue E id props, Some accepterRole)
             else
               ret (valueForStringParameter E
                      ("/accelerator/network/vpc/" +:+ VpcConfig.name accepterVpc +:+ "/id"),
                    None) in
           let vpcPeeringLogicalId := Peering.name peering +:+ "VpcPeering" in
           let vpcPeeringProps :=
             {| VpcPeeringProps.name := Peering.name peering;
                VpcPeeringProps.peerOwnerId := accepterAccountId;
                VpcPeeringProps.peerRegion := VpcConfig.region accepterVpc;
                VpcPeeringProps.peerVpcId := fst accepterSide;
                VpcPeeringProps.peerRoleName := snd accepterSide;
                VpcPeeringProps.vpcId := requesterVpcId;
                VpcPeeringProps.tags := Peering.tags peering |} in
           let peeringId := vpcPeeringId E vpcPeeringLogicalId vpcPeeringProps in
           emit (VpcPeering vpcPeeringLogicalId vpcPeeringProps) >>
           emit (SsmParameter
                   (pascalCase E ("SsmParam" +:+ pascalCase E (Peering.name peering) +:+ "VpcPeering"))
                   ("/accelerator/network/vpcPeering/" +:+ Peering.name peering +:+ "/id")
                   peeringId) >>
           when crossAccountCondition
             (emit (PutSsmParameter
                      (pascalCase E ("CrossAcctSsmParam" +:+ pascalCase E (Peering.name peering)
                                     +:+ "VpcPeering"))
                      {| PutSsmParameterProps.region := VpcConfig.region accepterVpc;
                         PutSsmParameterProps.partition := partition E;
                         PutSsmParameterProps.name :=
                           "/accelerator/network/vpcPeering/" +:+ Peering.name peering +:+ "/id";
                         PutSsmParameterProps.accountId := accepterAccountId;
                         PutSsmParameterProps.roleName := accepterRole;
                         PutSsmParameterProps.value := peeringId;
                         PutSsmParameterProps.invokingAccountID := account E |})) >>
           createVpcPeeringRoutes accepterAccountId requesterVpc accepterVpc (Peering.name peering)
       end).

(** Whether the transit gateway belongs to this stack:
    [tgwAccountId === cdk.Stack.of(this).account && tgw.region === cdk.Stack.of(this).region]. *)
Definition tgwInScope (tgw : TransitGatewayConfig.t) (tgwAccountId : string) : bool :=
  String.eqb tgwAccountId (account E) && String.eqb (TransitGatewayConfig.region tgw) (region E).

(** The [SsmParameterLookup] props of [setDxGatewayMap]. *)
Definition dxGatewayLookupProps (dxgwItem : DxGatewayConfig.t) (accountId : string)
  : SsmParameterLookupProps.t :=
  {| SsmParameterLookupProps.name :=
       "/accelerator/network/directConnectGateways/" +:+ DxGatewayConfig.name dxgwItem +:+ "/id";
     SsmParameterLookupProps.accountId := accountId;
     SsmParameterLookupProps.parameterRegion := homeRegion E;
     SsmParameterLookupProps.roleName :=
       "AWSAccelerator-Get" +:+ pascalCase E (DxGatewayConfig.name dxgwItem)
       +:+ "SsmParamRole-" +:+ homeRegion E |}.

(** [setDxGatewayMap] *)
Definition setDxGatewayMap
    (dxgwItem : DxGatewayConfig.t) (tgw : TransitGatewayConfig.t) (tgwAccountId : string) : M unit :=
  let sameAccount := String.eqb (DxGatewayConfig.account dxgwItem) (TransitGatewayConfig.account tgw) in
  let lookupId := pascalCase E ("SsmParamLookup" +:+ DxGatewayConfig.name dxgwItem) in
  when (negb sameAccount && tgwInScope tgw tgwAccountId)
    (let directConnectGatewayOwnerAccount := getAccountId E (DxGatewayConfig.account dxgwItem) in
     let props := dxGatewayLookupProps dxgwItem directConnectGatewayOwnerAccount in
     emit (SsmParameterLookup lookupId props) >>
     setEntry DxGatewayMap (DxGatewayConfig.name dxgwItem) (ssmParameterLookupValue E lookupId props)) >>
  when (sameAccount && tgwInScope tgw tgwAccountId)
    (if String.eqb (TransitGatewayConfig.region tgw) (homeRegion E) then
       setEntry DxGatewayMap (DxGatewayConfig.name dxgwItem)
         (valueForStringParameter E
            ("/accelerator/network/directConnectGateways/" +:+ DxGatewayConfig.name dxgwItem +:+ "/id"))
     else
       let props := dxGatewayLookupProps dxgwItem (account E) in
       emit (SsmParameterLookup lookupId props) >>
       setEntry DxGatewayMap (DxGatewayConfig.name dxgwItem)
         (ssmParameterLookupValue E lookupId props)).

(** The two identifiers both branches of [createDxGatewayTgwAssociations] read
    and check, in the order of the source. *)
Definition dxAssociationIds (dxgwItem : DxGatewayConfig.t) (tgw : TransitGatewayConfig.t)
  : M (string * string) :=
  let* foundDx := getMap DxGatewayMap (DxGatewayConfig.name dxgwItem) in
  let* foundTgw := getMap TransitGateways (TransitGatewayConfig.name tgw) in
  let* directConnectGatewayId :=
    orThrow foundDx
      (Error ("[network-associations-stack] Create DX Gateway associations: unable to locate DX Gateway ID for "
              +:+ DxGatewayConfig.name dxgwItem)) in
  let* gatewayId :=
    orThrow foundTgw
      (Error ("[network-associations-stack] Create DX Gateway associations: unable to locate transit gateway ID for "
              +:+ TransitGatewayConfig.name tgw)) in
  ret (directConnectGatewayId, gatewayId).

(** [createDxGatewayTgwAssociations]: the two conditional blocks fill
    [associationLogicalId] and [associationProps]; the last block creates the
    association and publishes its attachment identifier when it has one. *)
Definition createDxGatewayTgwAssociations
    (dxgwItem : DxGatewayConfig.t) (tgw : TransitGatewayConfig.t)
    (associationItem : DxTransitGatewayAssociationConfig.t) (tgwAccountId : string) : M unit :=
  let sameAccount := String.eqb (DxGatewayConfig.account dxgwItem) (TransitGatewayConfig.account tgw) in
  let* proposal :=
    if negb sameAccount && tgwInScope tgw tgwAccountId then
      let* ids := dxAssociationIds dxgwItem tgw in
      ret (Some
             (pascalCase E (DxGatewayConfig.name dxgwItem +:+ TransitGatewayConfig.name tgw
                            +:+ "DxGatewayAssociationProposal"),
              {| DirectConnectGatewayAssociationProps.allowedPrefixes :=
                   DxTransitGatewayAssociationConfig.allowedPrefixes associationItem;
                 DirectConnectGatewayAssociationProps.directConnectGatewayId := fst ids;
                 DirectConnectGatewayAssociationProps.directConnectGatewayOwnerAccount :=
                   Some (getAccountId E (DxGatewayConfig.account dxgwItem));
                 DirectConnectGatewayAssociationProps.gatewayId := snd ids |}))
    else ret None in
  let* association :=
    if sameAccount && tgwInScope tgw tgwAccountId then
      let* ids := dxAssociationIds dxgwItem tgw in
      ret (Some
             (pascalCase E (DxGatewayConfig.name dxgwItem +:+ TransitGatewayConfig.name tgw
                            +:+ "DxGatewayAssociation"),
              {| DirectConnectGatewayAssociationProps.allowedPrefixes :=
                   DxTransitGatewayAssociationConfig.allowedPrefixes associationItem;
                 DirectConnectGatewayAssociationProps.directConnectGatewayId := fst ids;
                 DirectConnectGatewayAssociationProps.directConnectGatewayOwnerAccount := None;
                 DirectConnectGatewayAssociationProps.gatewayId := snd ids |}))
    else ret proposal in
  match association with
  | Some (associationLogicalId, associationProps) =>
      if negb (truthy (Some associationLogicalId)) then
        throw (Error ("[network-associations-stack] Create DX Gateway associations: unable to process properties for association between DX Gateway "
                      +:+ DxGatewayConfig.name dxgwItem +:+ " and transit gateway "
                      +:+ TransitGatewayConfig.name tgw))
      else
        emit (DirectConnectGatewayAssociation associationLogicalId associationProps) >>
        let published := dxAssociationAttachmentId E associationLogicalId associationProps in
        when (truthy published)
          (setEntry TransitGatewayAttachments
             (DxGatewayConfig.name dxgwItem +:+ "_" +:+ TransitGatewayConfig.name tgw)
             (str published))
  | None => ret tt
  end.

(** [createDxTgwRouteTableAssociations] *)
Definition createDxTgwRouteTableAssociations
    (dxgwItem : DxGatewayConfig.t) (tgw : TransitGatewayConfig.t)
    (tgwRouteTableName tgwAccountId : string) : M unit :=
  when (tgwInScope tgw tgwAccountId)
    (let attachmentKey := DxGatewayConfig.name dxgwItem +:+ "_" +:+ TransitGatewayConfig.name tgw in
     let routeTableKey := TransitGatewayConfig.name tgw +:+ "_" +:+ tgwRouteTableName in
     let* foundAttachment := getMap TransitGatewayAttachments attachmentKey in
     let* foundRouteTable := getMap TransitGatewayRouteTables routeTableKey in
     let* transitGatewayAttachmentId :=
       orThrow foundAttachment
         (Error ("[network-associations-stack] Create DX TGW route table associations: unable to locate attachment "
                 +:+ attachmentKey)) in
     let* transitGatewayRouteTableId :=
       orThrow foundRouteTable
         (Error ("[network-associations-stack] Create DX TGW route table associations: unable to locate route table "
                 +:+ routeTableKey)) in
     emit (TransitGatewayRouteTableAssociation
             (pascalCase E (DxGatewayConfig.name dxgwItem +:+ tgwRouteTableName +:+ "Association"))
             transitGatewayAttachmentId transitGatewayRouteTableId)).

(** [createDxTgwRouteTablePropagations] *)
Definition createDxTgwRouteTablePropagations
    (dxgwItem : DxGatewayConfig.t) (tgw : TransitGatewayConfig.t)
    (tgwRouteTableName tgwAccountId : string) : M unit :=
  when (tgwInScope tgw tgwAccountId)
    (let attachmentKey := DxGatewayConfig.name dxgwItem +:+ "_" +:+ TransitGatewayConfig.name tgw in
     let routeTableKey := TransitGatewayConfig.name tgw +:+ "_" +:+ tgwRouteTableName in
     let* foundAttachment := getMap TransitGatewayAttachments attachmentKey in
     let* foundRouteTable := getMap TransitGatewayRouteTables routeTableKey in
     let* transitGatewayAttachmentId :=
       orThrow foundAttachment
         (Error ("[network-associations-stack] Create DX TGW route table associations: unable to locate attachment "
                 +:+ attachmentKey)) in
     let* transitGatewayRouteTableId :=
       orThrow foundRouteTable
         (Error ("[network-associations-stack] Create DX TGW route table associations: unable to locate route table "
                 +:+ routeTableKey)) in
     emit (TransitGatewayRouteTablePropagation
             (pascalCase E (DxGatewayConfig.name dxgwItem +:+ tgwRouteTableName +:+ "Propagation"))
             transitGatewayAttachmentId transitGatewayRouteTableId)).

(** [createDirectConnectResources] *)
Definition createDirectConnectResources : M unit :=
  forM_ (NetworkConfig.directConnectGateways (networkConfig E))
    (fun dxgwItem =>
       forM_ (DxGatewayConfig.transitGatewayAssociations dxgwItem)
         (fun associationItem =>
            match List.find
                    (fun item =>
                       String.eqb (TransitGatewayConfig.name item)
                         (DxTransitGatewayAssociationConfig.name associationItem)
                       && String.eqb (TransitGatewayConfig.account item)
                            (DxTransitGatewayAssociationConfig.account associationItem))
                    (NetworkConfig.transitGateways (networkConfig E)) with
            | None =>
                throw (Error ("[network-associations-stack] Unable to locate transit gateway "
                              +:+ DxTransitGatewayAssociationConfig.name associationItem))
            | Some tgw =>
                let tgwAccountId := getAccountId E (TransitGatewayConfig.account tgw) in
                setDxGatewayMap dxgwItem tgw tgwAccountId >>
                createDxGatewayTgwAssociations dxgwItem tgw associationItem tgwAccountId >>
                forM_ (DxTransitGatewayAssociationConfig.routeTableAssociations associationItem)
                  (fun routeTableAssociationItem =>
                     createDxTgwRouteTableAssociations dxgwItem tgw routeTableAssociationItem tgwAccountId) >>
                forM_ (DxTransitGatewayAssociationConfig.routeTablePropagations associationItem)
                  (fun routeTablePropagationItem =>
                     createDxTgwRouteTablePropagations dxgwItem tgw routeTablePropagationItem tgwAccountId)
            end)).

(** [getTgwPeeringAttachmentId] *)
Definition getTgwPeeringAttachmentId
    (transitGatewayPeeringName : string) (tgwItem : TransitGatewayConfig.t) : M string :=
  match getTgwPeeringRequesterAccepterConfig E transitGatewayPeeringName requester,
        getTgwPeeringRequesterAccepterConfig E transitGatewayPeeringName accepter with
  | Some requesterConfig, Some accepterConfig =>
      if String.eqb (getAccountId E (TransitGatewayPeeringEndConfig.account requesterConfig)) (account E)
      then
        ret (valueForStringParameter E
               ("/accelerator/network/transitGateways/" +:+ TransitGatewayConfig.name tgwItem
                +:+ "/peering/" +:+ transitGatewayPeeringName +:+ "/id"))
      else if String.eqb (getAccountId E (TransitGatewayPeeringEndConfig.account accepterConfig))
                (account E)
      then
        let* found :=
          getMap TransitGateways (TransitGatewayPeeringEndConfig.transitGatewayName accepterConfig) in
        let* transitGatewayId :=
          orThrow found
            (Error ("Transit Gateway "
                    +:+ TransitGatewayPeeringEndConfig.transitGatewayName accepterConfig
                    +:+ " not found")) in
        let id :=
          pascalCase E (TransitGatewayPeeringEndConfig.account accepterConfig
                        +:+ transitGatewayPeeringName +:+ "TransitGatewayPeeringAttachment") in
        let options :=
          {| TransitGatewayAttachmentLookupOptions.name := transitGatewayPeeringName;
             TransitGatewayAttachmentLookupOptions.owningAccountId := account E;
             TransitGatewayAttachmentLookupOptions.transitGatewayId := transitGatewayId;
             TransitGatewayAttachmentLookupOptions.type := PEERING;
             TransitGatewayAttachmentLookupOptions.roleName := None |} in
        emit (TransitGatewayAttachmentLookup id options) >>
        ret (lookupTransitGatewayAttachmentId E id options)
      else
        throw (Error ("Transit Gateway attachment id not found for " +:+ transitGatewayPeeringName))
  | _, _ =>
      throw (Error ("Transit gateway peering " +:+ transitGatewayPeeringName +:+ " not found !!!"))
  end.

(** The attachment identifier of a route entry: the four
    [if (routeItem.attachment && <shape>.is(routeItem.attachment))] blocks of
    [createTransitGatewayStaticRouteItem], of which the shape of the
    attachment selects at most one. *)
Definition routeAttachmentId
    (tgwItem : TransitGatewayConfig.t)
    (attachment : option TransitGatewayRouteTableEntryAttachment) : M (option string) :=
  match attachment with
  | Some (VpcEntry account vpcName) =>
      getMap TransitGatewayAttachments (account +:+ "_" +:+ vpcName)
  | Some (DxGatewayEntry directConnectGatewayName) =>
      getMap TransitGatewayAttachments
        (directConnectGatewayName +:+ "_" +:+ TransitGatewayConfig.name tgwItem)
  | Some (VpnEntry vpnConnectionName) =>
      getMap TransitGatewayAttachments
        (vpnConnectionName +:+ "_" +:+ TransitGatewayConfig.name tgwItem)
  | Some (TgwPeeringEntry transitGatewayPeeringName) =>
      let* id := getTgwPeeringAttachmentId transitGatewayPeeringName tgwItem in
      ret (Some id)
  | None => ret None
  end.

(** [routeId] of a static route, as the same blocks leave it. *)
Definition staticRouteId
    (routeTableName cidr : string) (blackhole : option bool)
    (attachment : option TransitGatewayRouteTableEntryAttachment) : string :=
  match attachment with
  | Some (VpcEntry account vpcName) =>
      routeTableName +:+ "-" +:+ cidr +:+ "-" +:+ vpcName +:+ "-" +:+ account
  | Some (DxGatewayEntry name) | Some (VpnEntry name) | Some (TgwPeeringEntry name) =>
      routeTableName +:+ "-" +:+ cidr +:+ "-" +:+ name
  | None =>
      if isTrue blackhole then routeTableName +:+ "-" +:+ cidr +:+ "-blackhole" else EmptyString
  end.

(** [plRouteId] of a prefix list reference. *)
Definition prefixListRouteId
    (routeTableName prefixList : string) (blackhole : option bool)
    (attachment : option TransitGatewayRouteTableEntryAttachment) : string :=
  match attachment with
  | Some (VpcEntry account vpcName) =>
      pascalCase E (routeTableName +:+ prefixList +:+ vpcName +:+ account)
  | Some (DxGatewayEntry name) | Some (VpnEntry name) | Some (TgwPeeringEntry name) =>
      pascalCase E (routeTableName +:+ prefixList +:+ name)
  | None =>
      if isTrue blackhole then pascalCase E (routeTableName +:+ prefixList +:+ "Blackhole")
      else EmptyString
  end.

(** The message of the error thrown for a route whose attachment has no identifier. *)
Definition attachmentNotFound (routeTableItem : TransitGatewayRouteTableConfig.t) : Exn :=
  Error ("[network-associations-stack] Unable to locate transit gateway attachment ID for route table item "
         +:+ TransitGatewayRouteTableConfig.name routeTableItem).

(** [createTransitGatewayStaticRouteItem] *)
Definition createTransitGatewayStaticRouteItem
    (tgwItem : TransitGatewayConfig.t) (routeTableItem : TransitGatewayRouteTableConfig.t)
    (routeItem : TransitGatewayRouteEntryConfig.t) (transitGatewayRouteTableId : string) : M unit :=
  let attachment := TransitGatewayRouteEntryConfig.attachment routeItem in
  let blackhole := TransitGatewayRouteEntryConfig.blackhole routeItem in
  let routeTableName := TransitGatewayRouteTableConfig.name routeTableItem in
  when (truthy (TransitGatewayRouteEntryConfig.destinationCidrBlock routeItem))
    (let cidr := str (TransitGatewayRouteEntryConfig.destinationCidrBlock routeItem) in
     let routeId := staticRouteId routeTableName cidr blackhole attachment in
     let* transitGatewayAttachmentId := routeAttachmentId tgwItem attachment in
     if bool_decide (is_Some attachment) && negb (truthy transitGatewayAttachmentId)
     then throw (attachmentNotFound routeTableItem)
     else emit (TransitGatewayStaticRoute routeId transitGatewayRouteTableId blackhole cidr
                  transitGatewayAttachmentId)) >>
  when (truthy (TransitGatewayRouteEntryConfig.destinationPrefixList routeItem))
    (let prefixList := str (TransitGatewayRouteEntryConfig.destinationPrefixList routeItem) in
     let* s := get in
     let* prefixListId :=
       orThrow (prefixListMap s !! prefixList)
         (Error ("[network-associations-stack] Prefix list " +:+ prefixList +:+ " not found")) in
     let plRouteId := prefixListRouteId routeTableName prefixList blackhole attachment in
     let* transitGatewayAttachmentId := routeAttachmentId tgwItem attachment in
     if bool_decide (is_Some attachment) && negb (truthy transitGatewayAttachmentId)
     then throw (attachmentNotFound routeTableItem)
     else emit (TransitGatewayPrefixListReference plRouteId prefixListId blackhole
                  transitGatewayAttachmentId transitGatewayRouteTableId)).

(** [createTransitGatewayStaticRoutes] *)
Definition createTransitGatewayStaticRoutes : M unit :=
  forM_ (NetworkConfig.transitGateways (networkConfig E))
    (fun tgwItem =>
       let accountId := getAccountId E (TransitGatewayConfig.account tgwItem) in
       when (String.eqb accountId (account E)
             && String.eqb (TransitGatewayConfig.region tgwItem) (region E))
         (forM_ (TransitGatewayConfig.routeTables tgwItem)
            (fun routeTableItem =>
               let routeTableKey :=
                 TransitGatewayConfig.name tgwItem +:+ "_"
                 +:+ TransitGatewayRouteTableConfig.name routeTableItem in
               let* found := getMap TransitGatewayRouteTables routeTableKey in
               let* transitGatewayRouteTableId :=
                 orThrow found
                   (Error ("[network-associations-stack] Transit Gateway route table "
                           +:+ routeTableKey +:+ " not found")) in
               forM_ (TransitGatewayRouteTableConfig.routes routeTableItem)
                 (fun routeItem =>
                    createTransitGatewayStaticRouteItem tgwItem routeTableItem routeItem
                      transitGatewayRouteTableId)))).

(** The constructor, up to and including the transit gateway static routes.
    The steps after them (load balancer target groups and listeners, subnet
    tags, SSM parameters, managed directories) read none of the maps above. *)
Definition construct : M unit :=
  let* peeringList := setPeeringList in
  modify (with_peeringList peeringList) >>
  let* provider := createCrossAcctRouteProvider in
  modify (with_crossAcctRouteProvider provider) >>
  let* prefixListMap := setPrefixListMap in
  modify (with_prefixListMap prefixListMap) >>
  let* routeTableMap := setRouteTableMap in
  modify (with_routeTableMap routeTableMap) >>
  createTransitGatewayResources >>
  createHostedZoneAssociations >>
  createCentralNetworkAssociations >>
  createVpcPeeringConnections >>
  createDirectConnectResources >>
  createTransitGatewayStaticRoutes.

End NetworkAssociationsStack.

(** ** [NetworkVpcEndpointsStack.setNfwPolicyMap] *)

Section NetworkVpcEndpointsStack.

Variable E : Env.

(** [setNfwPolicyMap]: the policy map is a local of the method. *)
Definition setNfwPolicyMap : M (gmap string string) :=
  match NetworkConfig.centralNetworkServices (networkConfig E) with
  | Some centralNetworkServices =>
      match CentralNetworkServicesConfig.firewalls centralNetworkServices with
      | Some firewalls =>
          let delegatedAdminAccountId :=
            getAccountId E (CentralNetworkServicesConfig.delegatedAdminAccount centralNetworkServices) in
          foldM (NetworkConfig.allVpcs (networkConfig E)) (∅ : gmap string string)
            (fun policyMap vpcItem =>
               let vpcAccountIds := getVpcAccountIds E vpcItem in
               if includes vpcAccountIds (account E)
                  && String.eqb (VpcItem.region vpcItem) (region E)
               then
                 foldM firewalls policyMap
                   (fun policyMap firewallItem =>
                      let firewallPolicy := NfwFirewallConfig.firewallPolicy firewallItem in
                      if String.eqb (NfwFirewallConfig.vpc firewallItem) (VpcItem.name vpcItem)
                         && negb (has policyMap firewallPolicy)
                      then
                        if String.eqb delegatedAdminAccountId (account E) then
                          ret (<[firewallPolicy :=
                                   valueForStringParameter E
                                     ("/accelerator/network/networkFirewall/policies/"
                                      +:+ firewallPolicy +:+ "/arn")]> policyMap)
                        else
                          emit (ResourceShareLookup (firewallPolicy +:+ "_NetworkFirewallPolicyShare")
                                  "network-firewall:FirewallPolicy" delegatedAdminAccountId) >>
                          ret (<[firewallPolicy :=
                                   resourceShareItemArn E
                                     (firewallPolicy +:+ "_NetworkFirewallPolicyShare")
                                     "network-firewall:FirewallPolicy" delegatedAdminAccountId]> policyMap)
                      else ret policyMap)
               else ret policyMap)
      | None => ret ∅
      end
  | None => ret ∅
  end.

End NetworkVpcEndpointsStack.

(** * Sample configurations

    A small organization used for the concrete runs below: a few accounts
    (two of the names, Network and Network-Legacy, denote the same account),
    and collaborators that return a readable rendering of what they were
    asked for. *)

Module Sample.

Definition accountIds (name : string) : string :=
  if String.eqb name "Network" then "111111111111"
  else if String.eqb name "Workload" then "222222222222"
  else if String.eqb name "Shared" then "333333333333"
  else if String.eqb name "Network_Dev" then "444444444444"
  else if String.eqb name "Network-Legacy" then "111111111111"
  else "000000000000".

Definition network : NetworkConfig.t :=
  {| NetworkConfig.vpcs := []; NetworkConfig.vpcTemplates := [];
     NetworkConfig.transitGateways := []; NetworkConfig.customerGateways := [];
     NetworkConfig.directConnectGateways := []; NetworkConfig.prefixLists := [];
     NetworkConfig.vpcPeering := []; NetworkConfig.centralNetworkServices := None |}.

Definition vpc (name account region : string) : VpcConfig.t :=
  {| VpcConfig.name := name; VpcConfig.account := account; VpcConfig.region := region;
     VpcConfig.routeTables := []; VpcConfig.transitGatewayAttachments := [];
     VpcConfig.interfaceEndpoints := None; VpcConfig.useCentralEndpoints := false;
     VpcConfig.dnsFirewallRuleGroups := []; VpcConfig.queryLogs := [];
     VpcConfig.resolverRules := [] |}.

(** The stack of account [ownAccount] in [ownRegion], over the network [cfg];
    [peerings] lists the transit gateway peerings as
    (name, requester end, accepter end). *)
Definition env (ownAccount ownRegion ownPartition : string) (cfg : NetworkConfig.t)
    (peerings : list (string * TransitGatewayPeeringEndConfig.t * TransitGatewayPeeringEndConfig.t))
  : Env :=
  {| account := accountIds ownAccount;
     region := ownRegion;
     stackName := "AWSAccelerator-NetworkAssociationsStack";
     partition := ownPartition;
     homeRegion := "us-east-1";
     networkConfig := cfg;
     getAccountId := accountIds;
     getVpcAccountIds := fun item =>
       match item with
       | IsVpc v => [accountIds (VpcConfig.account v)]
       | IsVpcTemplate v =>
           map accountIds (DeploymentTargets.accounts (VpcTemplatesConfig.deploymentTargets v))
       end;
     getAccountNamesFromDeploymentTarget := DeploymentTargets.accounts;
     getExcludedAccountIds := fun targets => map accountIds (DeploymentTargets.excludedAccounts targets);
     getTgwPeeringRequesterAccepterConfig := fun name role =>
       match List.find (fun p => String.eqb (fst (fst p)) name) peerings with
       | Some p => Some (match role with requester => snd (fst p) | accepter => snd p end)
       | None => None
       end;
     pascalCase := fun x => x;
     valueForStringParameter := fun name => "ssm:" +:+ name;
     ssmParameterLookupValue := fun id props =>
       "lookup:" +:+ SsmParameterLookupProps.accountId props +:+ ":"
       +:+ SsmParameterLookupProps.name props;
     lookupTransitGatewayAttachmentId := fun id options =>
       "tgw-attach:" +:+ TransitGatewayAttachmentLookupOptions.owningAccountId options +:+ ":"
       +:+ TransitGatewayAttachmentLookupOptions.name options;
     resourceShareItemId := fun name type owner => "share:" +:+ owner +:+ ":" +:+ name;
     resourceShareItemArn := fun name type owner => "share-arn:" +:+ owner +:+ ":" +:+ name;
     dxAssociationAttachmentId := fun id props =>
       match DirectConnectGatewayAssociationProps.directConnectGatewayOwnerAccount props with
       | Some _ => None
       | None => Some ("tgw-attach:dx:" +:+ id)
       end;
     vpcPeeringId := fun id props => "pcx:" +:+ id;
     crossAccountRouteFrameworkProvider := fun id => "provider:" +:+ id |}.

(** Two VPCs of the Network account in us-east-1 are both marked as the
    central interface endpoints VPC. *)
Definition centralVpc (name : string) : VpcConfig.t :=
  {| VpcConfig.name := name; VpcConfig.account := "Network"; VpcConfig.region := "us-east-1";
     VpcConfig.routeTables := []; VpcConfig.transitGatewayAttachments := [];
     VpcConfig.interfaceEndpoints :=
       Some {| InterfaceEndpointConfig.central := true;
               InterfaceEndpointConfig.endpoints := ["ec2"; "ssm"] |};
     VpcConfig.useCentralEndpoints := false;
     VpcConfig.dnsFirewallRuleGroups := []; VpcConfig.queryLogs := [];
     VpcConfig.resolverRules := [] |}.

Definition twoCentralVpcs : Env :=
  env "Network" "us-east-1" "aws"
    {| NetworkConfig.vpcs := [centralVpc "Network-Endpoints"; centralVpc "Network-Endpoints-2"];
       NetworkConfig.vpcTemplates := [];
       NetworkConfig.transitGateways := []; NetworkConfig.customerGateways := [];
       NetworkConfig.directConnectGateways := []; NetworkConfig.prefixLists := [];
       NetworkConfig.vpcPeering := []; NetworkConfig.centralNetworkServices := None |} [].

(** The central endpoints VPC of the Network account, and two VPCs of the
    Workload account that use it. *)
Definition memberVpc (name : string) : VpcConfig.t :=
  {| VpcConfig.name := name; VpcConfig.account := "Workload"; VpcConfig.region := "us-east-1";
     VpcConfig.routeTables := []; VpcConfig.transitGatewayAttachments := [];
     VpcConfig.interfaceEndpoints := None; VpcConfig.useCentralEndpoints := true;
     VpcConfig.dnsFirewallRuleGroups := []; VpcConfig.queryLogs := [];
     VpcConfig.resolverRules := [] |}.

Definition centralEndpoints : Env :=
  env "Network" "us-east-1" "aws"
    {| NetworkConfig.vpcs :=
         [centralVpc "Network-Endpoints"; memberVpc "Workload-Main"; memberVpc "Workload-Dev"];
       NetworkConfig.vpcTemplates := [];
       NetworkConfig.transitGateways := []; NetworkConfig.customerGateways := [];
       NetworkConfig.directConnectGateways := []; NetworkConfig.prefixLists := [];
       NetworkConfig.vpcPeering := []; NetworkConfig.centralNetworkServices := None |} [].

(** A transit gateway of the Network account with one route table. *)
Definition mainTgw (routes : list TransitGatewayRouteEntryConfig.t) : TransitGatewayConfig.t :=
  {| TransitGatewayConfig.name := "Network-Main";
     TransitGatewayConfig.account := "Network";
     TransitGatewayConfig.region := "us-east-1";
     TransitGatewayConfig.routeTables :=
       [ {| TransitGatewayRouteTableConfig.name := "core";
            TransitGatewayRouteTableConfig.routes := routes |} ] |}.

(** An attachment to [mainTgw], associated with and propagated to its route table. *)
Definition mainAttachment (name : string) : TransitGatewayAttachmentConfig.t :=
  {| TransitGatewayAttachmentConfig.name := name;
     TransitGatewayAttachmentConfig.transitGateway :=
       {| TransitGatewayAttachmentTargetConfig.name := "Network-Main";
          TransitGatewayAttachmentTargetConfig.account := "Network" |};
     TransitGatewayAttachmentConfig.routeTableAssociations := ["core"];
     TransitGatewayAttachmentConfig.routeTablePropagations := ["core"] |}.

Definition attachedVpc (name account : string) (attachments : list TransitGatewayAttachmentConfig.t)
  : VpcConfig.t :=
  {| VpcConfig.name := name; VpcConfig.account := account; VpcConfig.region := "us-east-1";
     VpcConfig.routeTables := []; VpcConfig.transitGatewayAttachments := attachments;
     VpcConfig.interfaceEndpoints := None; VpcConfig.useCentralEndpoints := false;
     VpcConfig.dnsFirewallRuleGroups := []; VpcConfig.queryLogs := [];
     VpcConfig.resolverRules := [] |}.

Definition tgwNetwork (vpcs : list VpcConfig.t) (routes : list TransitGatewayRouteEntryConfig.t)
  : NetworkConfig.t :=
  {| NetworkConfig.vpcs := vpcs; NetworkConfig.vpcTemplates := [];
     NetworkConfig.transitGateways := [mainTgw routes]; NetworkConfig.customerGateways := [];
     NetworkConfig.directConnectGateways := []; NetworkConfig.prefixLists := [];
     NetworkConfig.vpcPeering := []; NetworkConfig.centralNetworkServices := None |}.

(** VPC [Main] of account [Network_Dev] and VPC [Dev_Main] of account
    [Network], both attached to the transit gateway of the Network account,
    and a static route to the first of them. *)
Definition separatorInNames : Env :=
  env "Network" "us-east-1" "aws"
    (tgwNetwork [ attachedVpc "Main" "Network_Dev" [mainAttachment "Main-Attach"];
                  attachedVpc "Dev_Main" "Network" [mainAttachment "DevMain-Attach"] ]
       [ {| TransitGatewayRouteEntryConfig.destinationCidrBlock := Some "10.1.0.0/16";
            TransitGatewayRouteEntryConfig.destinationPrefixList := None;
            TransitGatewayRouteEntryConfig.blackhole := None;
            TransitGatewayRouteEntryConfig.attachment := Some (VpcEntry "Network_Dev" "Main") |} ])
    [].

(** A peering whose accepter names a VPC that is not configured. *)
Definition peeringNetwork (vpcs : list VpcConfig.t) (members : list string) : NetworkConfig.t :=
  {| NetworkConfig.vpcs := vpcs; NetworkConfig.vpcTemplates := [];
     NetworkConfig.transitGateways := []; NetworkConfig.customerGateways := [];
     NetworkConfig.directConnectGateways := [];
     NetworkConfig.prefixLists :=
       [ {| PrefixListConfig.name := "pl-shared";
            PrefixListConfig.accounts := ["Network"];
            PrefixListConfig.regions := ["us-east-1"] |} ];
     NetworkConfig.vpcPeering :=
       [ {| VpcPeeringConfig.name := "A-to-B"; VpcPeeringConfig.vpcs := members;
            VpcPeeringConfig.tags := [] |} ];
     NetworkConfig.centralNetworkServices := None |}.

Definition unknownAccepter : Env :=
  env "Network" "us-east-1" "aws"
    (peeringNetwork [vpc "VPC-A" "Network" "us-east-1"] ["VPC-A"; "VPC-Missing"]) [].

Definition unknownRequester : Env :=
  env "Network" "us-east-1" "aws"
    (peeringNetwork [vpc "VPC-A" "Network" "us-east-1"] ["VPC-Missing"; "VPC-A"]) [].

(** A VPC with one route table holding one route to the peering [A-to-B],
    by prefix list or by CIDR. *)
Definition peeredVpc (name account region : string) (destination prefixList : option string)
  : VpcConfig.t :=
  {| VpcConfig.name := name; VpcConfig.account := account; VpcConfig.region := region;
     VpcConfig.routeTables :=
       [ {| RouteTableConfig.name := name +:+ "-rtb";
            RouteTableConfig.routes :=
              [ {| RouteTableEntryConfig.name := "to-peer";
                   RouteTableEntryConfig.type := Some "vpcPeering";
                   RouteTableEntryConfig.target := Some "A-to-B";
                   RouteTableEntryConfig.destination := destination;
                   RouteTableEntryConfig.destinationPrefixList := prefixList |} ] |} ];
     VpcConfig.transitGatewayAttachments := [];
     VpcConfig.interfaceEndpoints := None; VpcConfig.useCentralEndpoints := false;
     VpcConfig.dnsFirewallRuleGroups := []; VpcConfig.queryLogs := [];
     VpcConfig.resolverRules := [] |}.

(** The accepter is declared under a second name of the requester's account,
    and its route to the peering goes by a configured prefix list. *)
Definition prefixListAcrossNames : Env :=
  env "Network" "us-east-1" "aws"
    (peeringNetwork
       [ vpc "VPC-A" "Network" "us-east-1";
         peeredVpc "VPC-B" "Network-Legacy" "us-east-1" None (Some "pl-shared") ]
       ["VPC-A"; "VPC-B"]) [].

(** VPC-A of the Network account peered with VPC-C of the Workload account
    and with VPC-D of the Shared account, all in us-east-1. Each accepter has
    a route table named [Private] with one route to its peering. *)
Definition accepterVpc (name account peering : string) : VpcConfig.t :=
  {| VpcConfig.name := name; VpcConfig.account := account; VpcConfig.region := "us-east-1";
     VpcConfig.routeTables :=
       [ {| RouteTableConfig.name := "Private";
            RouteTableConfig.routes :=
              [ {| RouteTableEntryConfig.name := "to-requester";
                   RouteTableEntryConfig.type := Some "vpcPeering";
                   RouteTableEntryConfig.target := Some peering;
                   RouteTableEntryConfig.destination := Some "10.3.0.0/16";
                   RouteTableEntryConfig.destinationPrefixList := None |} ] |} ];
     VpcConfig.transitGatewayAttachments := [];
     VpcConfig.interfaceEndpoints := None; VpcConfig.useCentralEndpoints := false;
     VpcConfig.dnsFirewallRuleGroups := []; VpcConfig.queryLogs := [];
     VpcConfig.resolverRules := [] |}.

Definition twoAccepters : Env :=
  env "Network" "us-east-1" "aws"
    {| NetworkConfig.vpcs :=
         [ vpc "VPC-A" "Network" "us-east-1";
           accepterVpc "VPC-C" "Workload" "A-to-C";
           accepterVpc "VPC-D" "Shared" "A-to-D" ];
       NetworkConfig.vpcTemplates := [];
       NetworkConfig.transitGateways := []; NetworkConfig.customerGateways := [];
       NetworkConfig.directConnectGateways := []; NetworkConfig.prefixLists := [];
       NetworkConfig.vpcPeering :=
         [ {| VpcPeeringConfig.name := "A-to-C"; VpcPeeringConfig.vpcs := ["VPC-A"; "VPC-C"];
              VpcPeeringConfig.tags := [] |};
           {| VpcPeeringConfig.name := "A-to-D"; VpcPeeringConfig.vpcs := ["VPC-A"; "VPC-D"];
              VpcPeeringConfig.tags := [] |} ];
       NetworkConfig.centralNetworkServices := None |} [].

(** The accepter is declared under a second name of the requester's account,
    in the requester's region, with a route by CIDR to the peering. *)
Definition accepterUnderSecondName : Env :=
  env "Network" "us-east-1" "aws"
    (peeringNetwork
       [ vpc "VPC-A" "Network" "us-east-1";
         peeredVpc "VPC-B" "Network-Legacy" "us-east-1" (Some "10.3.0.0/16") None ]
       ["VPC-A"; "VPC-B"]) [].



Definition coreRouteTable (routes : list TransitGatewayRouteEntryConfig.t)
  : TransitGatewayRouteTableConfig.t :=
  {| TransitGatewayRouteTableConfig.name := "core";
     TransitGatewayRouteTableConfig.routes := routes |}.


(** A Direct Connect gateway of the Shared account associated with the
    transit gateway of the Network account. *)
Definition sharedDxGateway : DxGatewayConfig.t :=
  {| DxGatewayConfig.name := "Shared-DXGW";
     DxGatewayConfig.account := "Shared";
     DxGatewayConfig.transitGatewayAssociations :=
       [ {| DxTransitGatewayAssociationConfig.name := "Network-Main";
            DxTransitGatewayAssociationConfig.account := "Network";
            DxTransitGatewayAssociationConfig.allowedPrefixes := ["10.0.0.0/8"];
            DxTransitGatewayAssociationConfig.routeTableAssociations := ["core"];
            DxTransitGatewayAssociationConfig.routeTablePropagations := ["core"] |} ] |}.

Definition directConnect : Env :=
  env "Network" "us-east-1" "aws"
    {| NetworkConfig.vpcs := []; NetworkConfig.vpcTemplates := [];
       NetworkConfig.transitGateways := [mainTgw []]; NetworkConfig.customerGateways := [];
       NetworkConfig.directConnectGateways := [sharedDxGateway]; NetworkConfig.prefixLists := [];
       NetworkConfig.vpcPeering := []; NetworkConfig.centralNetworkServices := None |} [].

(** VPC-A of the Network account in us-east-1 peered with VPC-C of the
    Workload account in us-west-2; each has a route by CIDR to the peering. *)
Definition vpcA : VpcConfig.t := peeredVpc "VPC-A" "Network" "us-east-1" (Some "10.3.0.0/16") None.

Definition vpcC : VpcConfig.t := peeredVpc "VPC-C" "Workload" "us-west-2" (Some "10.1.0.0/16") None.

Definition crossScopePeering : Env :=
  env "Network" "us-east-1" "aws" (peeringNetwork [vpcA; vpcC] ["VPC-A"; "VPC-C"]) [].

(** The stack as the constructor has it when it reaches the transit gateway
    resources: peering list, provider and the two maps are set. *)
Definition prepared (E : Env) : Stack :=
  final ((let* peeringList := setPeeringList E in
          modify (with_peeringList peeringList) >>
          let* provider := createCrossAcctRouteProvider E in
          modify (with_crossAcctRouteProvider provider) >>
          let* prefixListMap := setPrefixListMap E in
          modify (with_prefixListMap prefixListMap) >>
          let* routeTableMap := setRouteTableMap E in
          modify (with_routeTableMap routeTableMap)) newStack).

(** A static route of the transit gateway to a peering with the transit
    gateway of the Shared account; no VPC is attached. *)
Definition peeringRoute : TransitGatewayRouteEntryConfig.t :=
  {| TransitGatewayRouteEntryConfig.destinationCidrBlock := Some "10.9.0.0/16";
     TransitGatewayRouteEntryConfig.destinationPrefixList := None;
     TransitGatewayRouteEntryConfig.blackhole := None;
     TransitGatewayRouteEntryConfig.attachment := Some (TgwPeeringEntry "Network-Shared") |}.

Definition routeToPeering : Env :=
  env "Network" "us-east-1" "aws" (tgwNetwork [] [peeringRoute])
    [ ("Network-Shared",
       {| TransitGatewayPeeringEndConfig.account := "Network";
          TransitGatewayPeeringEndConfig.transitGatewayName := "Network-Main" |},
       {| TransitGatewayPeeringEndConfig.account := "Shared";
          TransitGatewayPeeringEndConfig.transitGatewayName := "Shared-Main" |}) ].

(** A second transit gateway of the Network account. *)
Definition inspectionTgw : TransitGatewayConfig.t :=
  {| TransitGatewayConfig.name := "Network-Inspection";
     TransitGatewayConfig.account := "Network";
     TransitGatewayConfig.region := "us-east-1";
     TransitGatewayConfig.routeTables :=
       [ {| TransitGatewayRouteTableConfig.name := "core";
            TransitGatewayRouteTableConfig.routes := [] |} ] |}.

Definition inspectionAttachment (name : string) : TransitGatewayAttachmentConfig.t :=
  {| TransitGatewayAttachmentConfig.name := name;
     TransitGatewayAttachmentConfig.transitGateway :=
       {| TransitGatewayAttachmentTargetConfig.name := "Network-Inspection";
          TransitGatewayAttachmentTargetConfig.account := "Network" |};
     TransitGatewayAttachmentConfig.routeTableAssociations := ["core"];
     TransitGatewayAttachmentConfig.routeTablePropagations := [] |}.

(** One VPC of the Workload account attached to both transit gateways. *)
Definition twoAttachments : Env :=
  env "Network" "us-east-1" "aws"
    {| NetworkConfig.vpcs :=
         [ attachedVpc "Workload-Main" "Workload"
             [mainAttachment "Main-Attach"; inspectionAttachment "Inspection-Attach"] ];
       NetworkConfig.vpcTemplates := [];
       NetworkConfig.transitGateways := [mainTgw []; inspectionTgw];
       NetworkConfig.customerGateways := [];
       NetworkConfig.directConnectGateways := []; NetworkConfig.prefixLists := [];
       NetworkConfig.vpcPeering := []; NetworkConfig.centralNetworkServices := None |} [].

(** The Direct Connect gateway of the Shared account associated with both
    transit gateways of the Network account. *)
Definition dxAssociation (tgwName : string) : DxTransitGatewayAssociationConfig.t :=
  {| DxTransitGatewayAssociationConfig.name := tgwName;
     DxTransitGatewayAssociationConfig.account := "Network";
     DxTransitGatewayAssociationConfig.allowedPrefixes := ["10.0.0.0/8"];
     DxTransitGatewayAssociationConfig.routeTableAssociations := [];
     DxTransitGatewayAssociationConfig.routeTablePropagations := [] |}.

Definition dxNetwork (dxName dxAccount : string) (tgws : list TransitGatewayConfig.t)
  : NetworkConfig.t :=
  {| NetworkConfig.vpcs := []; NetworkConfig.vpcTemplates := [];
     NetworkConfig.transitGateways := tgws; NetworkConfig.customerGateways := [];
     NetworkConfig.directConnectGateways :=
       [ {| DxGatewayConfig.name := dxName;
            DxGatewayConfig.account := dxAccount;
            DxGatewayConfig.transitGatewayAssociations :=
              map (fun tgw => dxAssociation (TransitGatewayConfig.name tgw)) tgws |} ];
     NetworkConfig.prefixLists := [];
     NetworkConfig.vpcPeering := []; NetworkConfig.centralNetworkServices := None |}.

Definition twoDxAssociations : Env :=
  env "Network" "us-east-1" "aws" (dxNetwork "Shared-DXGW" "Shared" [mainTgw []; inspectionTgw]) [].

(** The same with the gateway in the Network account itself and the transit
    gateways, and the stack, in a region other than the home region. *)
Definition westTgw (name : string) : TransitGatewayConfig.t :=
  {| TransitGatewayConfig.name := name;
     TransitGatewayConfig.account := "Network";
     TransitGatewayConfig.region := "us-west-2";
     TransitGatewayConfig.routeTables := [] |}.

Definition twoDxAssociationsWest : Env :=
  env "Network" "us-west-2" "aws"
    (dxNetwork "Network-DXGW" "Network" [westTgw "West-Main"; westTgw "West-Inspection"]) [].

(** A VPC of the Workload account that uses the central network services
    of the Network account: a DNS firewall rule group, a query log
    configuration with both destinations, a resolver rule, and a network
    firewall with its policy. *)
Definition centralServices : Env :=
  env "Workload" "us-east-1" "aws"
    {| NetworkConfig.vpcs :=
         [ {| VpcConfig.name := "Workload-Main"; VpcConfig.account := "Workload";
              VpcConfig.region := "us-east-1";
              VpcConfig.routeTables := []; VpcConfig.transitGatewayAttachments := [];
              VpcConfig.interfaceEndpoints := None; VpcConfig.useCentralEndpoints := false;
              VpcConfig.dnsFirewallRuleGroups :=
                [ {| VpcDnsFirewallAssociationConfig.name := "block-list";
                     VpcDnsFirewallAssociationConfig.priority := 101;
                     VpcDnsFirewallAssociationConfig.mutationProtection := false |} ];
              VpcConfig.queryLogs := ["central-logs"];
              VpcConfig.resolverRules := ["on-prem"] |} ];
       NetworkConfig.vpcTemplates := [];
       NetworkConfig.transitGateways := []; NetworkConfig.customerGateways := [];
       NetworkConfig.directConnectGateways := []; NetworkConfig.prefixLists := [];
       NetworkConfig.vpcPeering := [];
       NetworkConfig.centralNetworkServices :=
         Some {| CentralNetworkServicesConfig.delegatedAdminAccount := "Network";
                 CentralNetworkServicesConfig.queryLogDestinations :=
                   Some ["s3"; "cloud-watch-logs"];
                 CentralNetworkServicesConfig.firewalls :=
                   Some [ {| NfwFirewallConfig.name := "inspection";
                             NfwFirewallConfig.firewallPolicy := "inspection-policy";
                             NfwFirewallConfig.vpc := "Workload-Main" |} ] |} |} [].

End Sample.

(** * Properties of runs *)

(** [preserves I m]: every run of [m] from a stack satisfying [I] ends,
    whether it returns or throws, in a stack satisfying [I]. *)
Definition preserves {A} (I : Stack → Prop) (m : M A) : Prop :=
  ∀ s, I s → I (final (m s)).

(** [extends C t0 s]: the trace of [s] is [t0] followed by events of class [C]. *)
Definition extends (C : Event → Prop) (t0 : list Event) (s : Stack) : Prop :=
  ∃ new, trace s = t0 ++ new ∧ Forall C new.

(** Events other than the request of a hosted zone association. *)
Definition notHostedZoneAssociation (e : Event) : Prop :=
  match e with AssociateHostedZones _ _ => False | _ => True end.

(** The condition under which the hosted zone step refuses the scope: more
    than one central endpoints VPC, or one outside the two partitions. *)
Definition centralEndpointViolation (E : Env) : Prop :=
  1 < length (centralEndpointVpcs E)
  ∨ (partition E ≠ "aws" ∧ partition E ≠ "aws-cn" ∧ 0 < length (centralEndpointVpcs E)).

(** The account has, among [vpcs], a VPC of the region of the stack that uses
    the central endpoints. *)
Definition usesCentralEndpoints (E : Env) (vpcs : list VpcItem) (accountId : string) : Prop :=
  ∃ vpcItem,
    In vpcItem vpcs
    ∧ VpcItem.region vpcItem = region E
    ∧ VpcItem.useCentralEndpoints vpcItem = true
    ∧ In accountId (getVpcAccountIds E vpcItem).

(** The writes to one of the maps that a trace records, in order. *)
Definition writesTo (m : MapName) (t : list Event) : list (string * string) :=
  omap (fun e => match e with
                 | SetEntry n k v => if decide (n = m) then Some (k, v) else None
                 | _ => None
                 end) t.

(** ** Classes of events *)












(** ** Static routes *)






(** ** Direct Connect *)

(** The key of the attachment of a Direct Connect gateway to a transit gateway. *)
Definition dxAttachmentKey (dxgwItem : DxGatewayConfig.t) (tgw : TransitGatewayConfig.t) : string :=
  DxGatewayConfig.name dxgwItem +:+ "_" +:+ TransitGatewayConfig.name tgw.

(** [setDxGatewayMap] looks the gateway up: the transit gateway is one of the
    stack, and either the two are declared under different account names or
    the transit gateway is outside the home region. *)
Definition dxLookupNeeded (E : Env) (dxgwItem : DxGatewayConfig.t) (tgw : TransitGatewayConfig.t)
    (tgwAccountId : string) : bool :=
  tgwInScope E tgw tgwAccountId
  && (negb (String.eqb (DxGatewayConfig.account dxgwItem) (TransitGatewayConfig.account tgw))
      || negb (String.eqb (TransitGatewayConfig.region tgw) (homeRegion E))).

(** The association that an event creates: its identifier and the owner
    account it names, which only a proposal has. *)
Definition dxAssociationOf (e : Event) : option (string * option string) :=
  match e with
  | DirectConnectGatewayAssociation id props =>
      Some (id, DirectConnectGatewayAssociationProps.directConnectGatewayOwnerAccount props)
  | _ => None
  end.

(** The stack after an association has been created: its attachment
    identifier is written to the attachments map when it has one. *)
Definition published (E : Env) (dxgwItem : DxGatewayConfig.t) (tgw : TransitGatewayConfig.t)
    (id : string) (props : DirectConnectGatewayAssociationProps.t) (s : Stack) : Stack :=
  let s' := with_trace (trace s ++ [DirectConnectGatewayAssociation id props]) s in
  if truthy (dxAssociationAttachmentId E id props)
  then writeMap TransitGatewayAttachments (dxAttachmentKey dxgwItem tgw)
         (str (dxAssociationAttachmentId E id props)) s'
  else s'.

(** ** Peering routes *)

(** The peering route that an event requests: the peering, and the account in
    which the route is requested through the provider, if it is. *)
Definition peeringRouteOf (e : Event) : option (string * option string) :=
  match e with
  | PeeringRoute peering _ _ _ _ => Some (peering, None)
  | CrossAcctPeeringRoute peering props =>
      Some (peering, Some (CrossAcctPeeringRouteProps.ownerAccount props))
  | _ => None
  end.

(** The test of [createAccepterVpcPeeringRoutes] for creating the accepter's
    routes directly: requester and accepter are declared in the same account
    and region. *)
Definition sameScope (requesterVpc accepterVpc : VpcConfig.t) : bool :=
  String.eqb (VpcConfig.account requesterVpc) (VpcConfig.account accepterVpc)
  && String.eqb (VpcConfig.region requesterVpc) (VpcConfig.region accepterVpc).

(** The construct identifier of the route of a VPC route table entry. *)
Definition peeringRouteId (E : Env) (vpc : VpcConfig.t)
    (route : RouteTableConfig.t * RouteTableEntryConfig.t) : string :=
  pascalCase E (VpcConfig.name vpc +:+ "Vpc")
  +:+ pascalCase E (RouteTableConfig.name (fst route) +:+ "RouteTable")
  +:+ pascalCase E (RouteTableEntryConfig.name (snd route)).

(** [e] is the direct creation, on the peering, of the accepter-side [route]. *)
Definition directRouteFor (E : Env) (s : Stack) (accepterVpc : VpcConfig.t) (peeringName : string)
    (route : RouteTableConfig.t * RouteTableEntryConfig.t) (e : Event) : Prop :=
  ∃ routeTableId destination destinationPrefixListId,
    routeTableMap s !! (VpcConfig.name accepterVpc +:+ "_" +:+ RouteTableConfig.name (fst route))
    = Some routeTableId
    ∧ e = PeeringRoute peeringName (peeringRouteId E accepterVpc route) routeTableId
            destination destinationPrefixListId.

(** [e] is the request, through the provider of the stack, of the
    accepter-side [route] in the accepter's account. *)
Definition crossAccountRouteFor (E : Env) (s : Stack) (accepterAccountId : string)
    (accepterVpc : VpcConfig.t) (peeringName : string)
    (route : RouteTableConfig.t * RouteTableEntryConfig.t) (e : Event) : Prop :=
  ∃ provider routeTableId destination destinationPrefixListId,
    crossAcctRouteProvider s = Some provider
    ∧ routeTableMap s !! (VpcConfig.name accepterVpc +:+ "_" +:+ RouteTableConfig.name (fst route))
      = Some routeTableId
    ∧ e = CrossAcctPeeringRoute peeringName
            {| CrossAcctPeeringRouteProps.id := peeringRouteId E accepterVpc route;
               CrossAcctPeeringRouteProps.ownerAccount := accepterAccountId;
               CrossAcctPeeringRouteProps.ownerRegion := VpcConfig.region accepterVpc;
               CrossAcctPeeringRouteProps.partition := partition E;
               CrossAcctPeeringRouteProps.provider := provider;
               CrossAcctPeeringRouteProps.roleName :=
                 "AWSAccelerator-VpcPeeringRole-" +:+ VpcConfig.region accepterVpc;
               CrossAcctPeeringRouteProps.routeTableId := routeTableId;
               CrossAcctPeeringRouteProps.destination := destination;
               CrossAcctPeeringRouteProps.destinationPrefixListId := destinationPrefixListId |}.

(** A peering of the list needs the cross-account route provider: its
    accepter is declared in another account or region than its requester and
    has a route to the peering. *)
Definition needsProvider (peering : Peering.t) : bool :=
  match Peering.accepter peering with
  | Some accepterVpc =>
      negb (sameScope (Peering.requester peering) accepterVpc)
      && bool_decide (accepterPeeringRoutes accepterVpc (Peering.name peering) ≠ [])
  | None => false
  end.

(** The fields that the route methods read are those of [s0]. *)
Definition sameRouting (s0 s : Stack) : Prop :=
  routeTableMap s = routeTableMap s0
  ∧ prefixListMap s = prefixListMap s0
  ∧ crossAcctRouteProvider s = crossAcctRouteProvider s0.

(** The part of the trace that [createVpcPeeringConnections] leaves for one
    peering of the list: the peering connection and what goes with it, with
    no route among them; then one route per route of the requester to the
    peering; then one route per route of the accepter to the peering, direct
    when the two VPCs are declared in the same account and region, and
    through the provider otherwise. The maps are those of [s]. *)
Definition peeringPart (E : Env) (s : Stack) (peering : Peering.t) (part : list Event) : Prop :=
  ∃ accepterVpc connection requesterRoutes accepterRoutes,
    Peering.accepter peering = Some accepterVpc
    ∧ part = connection ++ requesterRoutes ++ accepterRoutes
    ∧ (∃ props,
         In (VpcPeering (Peering.name peering +:+ "VpcPeering") props) connection
         ∧ VpcPeeringProps.name props = Peering.name peering)
    ∧ Forall (fun e => peeringRouteOf e = None) connection
    ∧ Forall2 (directRouteFor E s (Peering.requester peering) (Peering.name peering))
        (accepterPeeringRoutes (Peering.requester peering) (Peering.name peering))
        requesterRoutes
    ∧ Forall2 (if sameScope (Peering.requester peering) accepterVpc
               then directRouteFor E s accepterVpc (Peering.name peering)
               else crossAccountRouteFor E s
                      (getAccountId E (VpcConfig.account accepterVpc)) accepterVpc
                      (Peering.name peering))
        (accepterPeeringRoutes accepterVpc (Peering.name peering)) accepterRoutes.

(** The construct of the cross-account route provider, and the events other than it. *)
Definition routeFramework : Event := CrossAccountRouteFramework "CrossAccountRouteFramework".

Definition notRouteFramework (e : Event) : Prop :=
  match e with CrossAccountRouteFramework _ => False | _ => True end.

(** ** Shared resources *)

Inductive SharedResource := FirewallRuleGroup | QueryLogConfig | ResolverRule | FirewallPolicy.

(** The local key of a shared resource in the account that owns it. *)
Definition localKey (r : SharedResource) (name : string) : string :=
  match r with
  | FirewallRuleGroup => "/accelerator/network/route53Resolver/firewall/ruleGroups/" +:+ name +:+ "/id"
  | QueryLogConfig => "/accelerator/network/route53Resolver/queryLogConfigs/" +:+ name +:+ "/id"
  | ResolverRule => "/accelerator/network/route53Resolver/rules/" +:+ name +:+ "/id"
  | FirewallPolicy => "/accelerator/network/networkFirewall/policies/" +:+ name +:+ "/arn"
  end.

(** The name of its resource share and the resource type it is looked up by. *)
Definition shareName (r : SharedResource) (name : string) : string :=
  match r with
  | FirewallRuleGroup => name +:+ "_ResolverFirewallRuleGroupShare"
  | QueryLogConfig => name +:+ "_QueryLogConfigShare"
  | ResolverRule => name +:+ "_ResolverRule"
  | FirewallPolicy => name +:+ "_NetworkFirewallPolicyShare"
  end.

Definition resourceType (r : SharedResource) : string :=
  match r with
  | FirewallRuleGroup => "route53resolver:FirewallRuleGroup"
  | QueryLogConfig => "route53resolver:ResolverQueryLogConfig"
  | ResolverRule => "route53resolver:ResolverRule"
  | FirewallPolicy => "network-firewall:FirewallPolicy"
  end.

(** The third branch of resolution: the local key in the owning account, the
    item of the resource share everywhere else. *)
Definition sharedIdentifier (E : Env) (r : SharedResource) (owningAccountId name : string) : string :=
  if String.eqb owningAccountId (account E)
  then valueForStringParameter E (localKey r name)
  else match r with
       | FirewallPolicy => resourceShareItemArn E (shareName r name) (resourceType r) owningAccountId
       | _ => resourceShareItemId E (shareName r name) (resourceType r) owningAccountId
       end.

(** A run from [s] to [s'] that has added [new] to the trace has resolved
    shared resources of kind [r] into the map [m]: the map has lost or
    changed no entry, and every entry it has gained holds the shared
    identifier of its name and, outside the owning account, has been looked
    up in the resource share. *)
Definition resolvesShared (E : Env) (r : SharedResource) (m : MapName) (owningAccountId : string)
    (s s' : Stack) (new : list Event) : Prop :=
  readMap m s ⊆ readMap m s'
  ∧ trace s' = trace s ++ new
  ∧ ∀ name id,
      readMap m s !! name = None → readMap m s' !! name = Some id →
      id = sharedIdentifier E r owningAccountId name
      ∧ (owningAccountId ≠ account E →
         In (ResourceShareLookup (shareName r name) (resourceType r) owningAccountId) new).

(** Every name of [names] has an identifier in the map [m] of [s], and
    [new] holds the association [uses] that consumes it. *)
Definition associatedFrom (m : MapName) (names : list string) (uses : string → string → Event)
    (s : Stack) (new : list Event) : Prop :=
  ∀ name, In name names → ∃ id, readMap m s !! name = Some id ∧ In (uses name id) new.

(** The associations that the three methods create for a VPC. *)
Definition ruleGroupAssociation (E : Env) (vpcItem : VpcItem)
    (firewallItem : VpcDnsFirewallAssociationConfig.t) (name id : string) : Event :=
  ResolverFirewallRuleGroupAssociation
    (pascalCase E (VpcItem.name vpcItem +:+ name +:+ "RuleGroupAssociation")) id
    (VpcDnsFirewallAssociationConfig.priority firewallItem)
    (valueForStringParameter E ("/accelerator/network/vpc/" +:+ VpcItem.name vpcItem +:+ "/id"))
    (VpcDnsFirewallAssociationConfig.mutationProtection firewallItem).

Definition queryLogAssociation (E : Env) (vpcItem : VpcItem) (name id : string) : Event :=
  QueryLoggingConfigAssociation
    (pascalCase E (VpcItem.name vpcItem +:+ name +:+ "QueryLogAssociation")) (Some id)
    (valueForStringParameter E ("/accelerator/network/vpc/" +:+ VpcItem.name vpcItem +:+ "/id"))
    (partition E).

Definition resolverRuleAssociation (E : Env) (vpcItem : VpcItem) (name id : string) : Event :=
  ResolverRuleAssociation
    (pascalCase E (VpcItem.name vpcItem +:+ name +:+ "RuleAssociation")) id
    (valueForStringParameter E ("/accelerator/network/vpc/" +:+ VpcItem.name vpcItem +:+ "/id")).

(** Every rule group, query log configuration and resolver rule of the VPC
    has an identifier in its map, and [new] holds its association. *)
Definition vpcAssociated (E : Env) (centralNetworkConfig : CentralNetworkServicesConfig.t)
    (vpcItem : VpcItem) (s : Stack) (new : list Event) : Prop :=
  (∀ firewallItem,
     In firewallItem (VpcItem.dnsFirewallRuleGroups vpcItem) →
     associatedFrom DnsFirewallMap [VpcDnsFirewallAssociationConfig.name firewallItem]
       (ruleGroupAssociation E vpcItem firewallItem) s new)
  ∧ (∀ configItem,
       In configItem (VpcItem.queryLogs vpcItem) →
       associatedFrom QueryLogMap (queryLogConfigNames centralNetworkConfig configItem)
         (queryLogAssociation E vpcItem) s new)
  ∧ (∀ ruleItem,
       In ruleItem (VpcItem.resolverRules vpcItem) →
       associatedFrom ResolverRuleMap [ruleItem] (resolverRuleAssociation E vpcItem) s new).

(** The VPC is one of the stack. *)
Definition vpcInScope (E : Env) (vpcItem : VpcItem) : bool :=
  includes (getVpcAccountIds E vpcItem) (account E)
  && String.eqb (VpcItem.region vpcItem) (region E).

(** The events other than the remote fetches: the cross-account parameter
    lookup and the cross-account attachment lookup. *)
Definition notRemoteFetch (e : Event) : Prop :=
  match e with
  | SsmParameterLookup _ _ | TransitGatewayAttachmentLookup _ _ => False
  | _ => True
  end.

(** The events other than the queries of the resource share. *)
Definition notShareLookup (e : Event) : Prop :=
  match e with ResourceShareLookup _ _ _ => False | _ => True end.

(** Every entry of [m] that [m0] did not have holds the shared identifier of its name. *)
Definition resolvedAsShared (E : Env) (r : SharedResource) (owningAccountId : string)
    (m0 m : gmap string string) : Prop :=
  ∀ name v, m0 !! name = None → m !! name = Some v → v = sharedIdentifier E r owningAccountId name.

(** ** Attachments of associations, propagations and routes *)

(** The attachment identifier that a request refers to. *)
Definition attachmentOf (e : Event) : option string :=
  match e with
  | TransitGatewayRouteTableAssociation _ a _ | TransitGatewayRouteTablePropagation _ a _ => Some a
  | TransitGatewayStaticRoute _ _ _ _ a | TransitGatewayPrefixListReference _ _ _ a _ => a
  | _ => None
  end.

(** The attachment that [e] refers to, if any, is stored in the map [m]. *)
Definition fromAttachmentsMap (m : gmap string string) (e : Event) : Prop :=
  ∀ a, attachmentOf e = Some a → ∃ k, m !! k = Some a.

(** The attachments map is [m0] and the trace is [t0] followed by requests
    on attachments of [m0]. *)
Definition readsFrom (m0 : gmap string string) (t0 : list Event) (s : Stack) : Prop :=
  transitGatewayAttachments s = m0 ∧ extends (fromAttachmentsMap m0) t0 s.

(** Every run of [m] leaves the attachments map as it found it, and every
    request it makes refers to an attachment that the map held when the run
    started. *)
Definition readsAttachments (m : M unit) : Prop :=
  ∀ s, readsFrom (transitGatewayAttachments s) (trace s) (final (m s)).

(** ** Cached resolutions *)

(** A map is populated at most once per key: the keys of the writes that the
    trace records are distinct. *)
Definition populatedOnce (m : MapName) (t : list Event) : Prop :=
  NoDup (writesTo m t).*1.

(** The identifier that an association request takes from one of the
    resolver maps. *)
Definition consumedFrom (m : MapName) (e : Event) : option string :=
  match m, e with
  | DnsFirewallMap, ResolverFirewallRuleGroupAssociation _ id _ _ _ => Some id
  | QueryLogMap, QueryLoggingConfigAssociation _ id _ _ => id
  | ResolverRuleMap, ResolverRuleAssociation _ id _ => Some id
  | _, _ => None
  end.

(** Since the map was [m0] and the trace [t0]: no entry of [m0] has been
    changed; each key has been written at most once, was not in [m0], and
    still holds what was written; and every identifier consumed since is the
    value of an entry of the map. *)
Definition cached (m : MapName) (m0 : gmap string string) (t0 : list Event) (s : Stack) : Prop :=
  m0 ⊆ readMap m s
  ∧ ∃ new,
      trace s = t0 ++ new
      ∧ populatedOnce m new
      ∧ (∀ k v, (k, v) ∈ writesTo m new → m0 !! k = None ∧ readMap m s !! k = Some v)
      ∧ Forall (fun e => ∀ id, consumedFrom m e = Some id → ∃ k, readMap m s !! k = Some id) new.

(** Every run of [c] caches its resolutions in the map [m]. *)
Definition cachesResolutions (m : MapName) (c : M unit) : Prop :=
  ∀ s, cached m (readMap m s) (trace s) (final (c s)).

(** The name contains the separator of the composite keys. *)
Fixpoint hasSeparator (name : string) : bool :=
  match name with
  | EmptyString => false
  | String c rest => String.eqb (String c EmptyString) "_" || hasSeparator rest
  end.

(** * Reasoning about runs *)

(** ** JavaScript values *)

Lemma truthy_Some (x : option string) :
  truthy x = true → ∃ v, x = Some v ∧ v ≠ EmptyString.
Proof.
  destruct x as [v|]; simpl; [|discriminate].
  intros H. exists v. split; [reflexivity|].
  intros ->. discriminate.
Qed.

Lemma includes_In (xs : list string) (x : string) :
  includes xs x = true ↔ In x xs.
Proof.
  unfold includes. rewrite existsb_exists. split.
  - intros (y & Hy & Heq). apply String.eqb_eq in Heq. by subst.
  - intros H. exists x. split; [done|]. apply String.eqb_refl.
Qed.

Lemma has_true (m : gmap string string) (k : string) :
  has m k = true ↔ is_Some (m !! k).
Proof.
  unfold has. destruct (m !! k); split; intros H;
    first [done | by eexists | by destruct H].
Qed.

Lemma has_false (m : gmap string string) (k : string) :
  has m k = false ↔ m !! k = None.
Proof. unfold has. destruct (m !! k); split; intros H; done. Qed.

Lemma eqb_false_ne (a b : string) : a ≠ b → String.eqb a b = false.
Proof. intros H. by apply String.eqb_neq. Qed.

Lemma truthy_Some_ne (v : string) : v ≠ EmptyString → truthy (Some v) = true.
Proof. intros H. simpl. by rewrite (eqb_false_ne _ _ H). Qed.

Lemma orThrow_found (v : string) (e : Exn) (s : Stack) :
  v ≠ EmptyString → orThrow (Some v) e s = Ok v s.
Proof. intros H. unfold orThrow. by rewrite (truthy_Some_ne _ H). Qed.

Lemma orThrow_missing (x : option string) (e : Exn) (s : Stack) :
  truthy x = false → orThrow x e s = Throw e s.
Proof. intros H. unfold orThrow. by rewrite H. Qed.

Lemma orThrow_Ok (x : option string) (e : Exn) (s s' : Stack) (v : string) :
  orThrow x e s = Ok v s' → x = Some v ∧ v ≠ EmptyString ∧ s' = s.
Proof.
  unfold orThrow. destruct (truthy x) eqn:Ht; [|discriminate].
  destruct (truthy_Some _ Ht) as (w & -> & Hw). intros [= <- <-]. done.
Qed.

(** ** Stack updates *)

Lemma readMap_writeMap (m n : MapName) (k v : string) (s : Stack) :
  readMap n (writeMap m k v s) = if decide (m = n) then <[k:=v]> (readMap n s) else readMap n s.
Proof. destruct m, n; reflexivity. Qed.

Lemma trace_writeMap (m : MapName) (k v : string) (s : Stack) :
  trace (writeMap m k v s) = trace s ++ [SetEntry m k v].
Proof. reflexivity. Qed.

(** ** Invariants of runs *)

Section Preserves.

Context (I : Stack → Prop).

Lemma preserves_ret {A} (a : A) : preserves I (ret a).
Proof. intros s H. exact H. Qed.

Lemma preserves_throw {A} (e : Exn) : preserves I (@throw A e).
Proof. intros s H. exact H. Qed.

Lemma preserves_get : preserves I get.
Proof. intros s H. exact H. Qed.

Lemma preserves_getMap (m : MapName) (k : string) : preserves I (getMap m k).
Proof. intros s H. exact H. Qed.

Lemma preserves_orThrow (x : option string) (e : Exn) : preserves I (orThrow x e).
Proof. intros s H. unfold orThrow. destruct (truthy x), x; exact H. Qed.

(** The rule for sequencing keeps the run of the first part at hand, so
    that what it read from the stack is known in the second. *)
Lemma preserves_bind_at {A B} (m : M A) (f : A → M B) (s : Stack) :
  I (final (m s)) →
  (∀ a s', m s = Ok a s' → I s' → I (final (f a s'))) →
  I (final (bind m f s)).
Proof.
  unfold bind. intros Hm Hf. destruct (m s) as [a s'|e s'] eqn:Heq; simpl in *.
  - by apply Hf.
  - exact Hm.
Qed.

Lemma preserves_bind {A B} (m : M A) (f : A → M B) :
  preserves I m → (∀ a, preserves I (f a)) → preserves I (bind m f).
Proof.
  intros Hm Hf s H. apply preserves_bind_at; [by apply Hm|].
  intros a s' _ H'. by apply Hf.
Qed.

Lemma preserves_when (c : bool) (m : M unit) :
  (c = true → preserves I m) → preserves I (when c m).
Proof. intros Hm s H. destruct c; simpl; [by apply Hm|exact H]. Qed.

Lemma preserves_forM_ {A} (xs : list A) (body : A → M unit) :
  (∀ x, In x xs → preserves I (body x)) → preserves I (forM_ xs body).
Proof.
  induction xs as [|x xs IH]; intros Hbody; simpl.
  - apply preserves_ret.
  - apply preserves_bind.
    + apply Hbody. by left.
    + intros _. apply IH. intros y Hy. apply Hbody. by right.
Qed.

Lemma preserves_foldM {A B} (xs : list A) (body : B → A → M B) :
  (∀ acc x, In x xs → preserves I (body acc x)) → ∀ acc, preserves I (foldM xs acc body).
Proof.
  induction xs as [|x xs IH]; intros Hbody acc; simpl.
  - apply preserves_ret.
  - apply preserves_bind.
    + apply Hbody. by left.
    + intros acc'. apply IH. intros acc'' y Hy. apply Hbody. by right.
Qed.

End Preserves.

(** A loop throws as soon as one of its iterations does: if [I] is an
    invariant of every iteration and the iteration for [x] throws from every
    stack satisfying [I], the loop throws. *)
Lemma forM__throws {A} (I : Stack → Prop) (xs : list A) (body : A → M unit) (x : A) :
  In x xs →
  (∀ y, preserves I (body y)) →
  (∀ s, I s → is_Some (threw (body x s))) →
  ∀ s, I s → is_Some (threw (forM_ xs body s)).
Proof.
  intros Hin Hinv Hthrow. induction xs as [|y xs IH]; [done|].
  intros s Hs. simpl. unfold bind.
  destruct (body y s) as [[] s'|e s'] eqn:Heq.
  - destruct Hin as [->|Hin].
    + specialize (Hthrow s Hs). rewrite Heq in Hthrow. by destruct Hthrow.
    + apply IH; [done|]. specialize (Hinv y s Hs). by rewrite Heq in Hinv.
  - simpl. by eexists.
Qed.

(** ** Traces that only grow *)

Lemma extends_refl (C : Event → Prop) (s : Stack) : extends C (trace s) s.
Proof. exists []. split; [by rewrite app_nil_r|constructor]. Qed.

(** Creating a construct either adds it to the trace or throws from the
    stack as it is. *)
Lemma emit_cases (e : Event) (s : Stack) :
  (refused (trace s) e = None ∧ emit e s = Ok tt (with_trace (trace s ++ [e]) s))
  ∨ (∃ err, refused (trace s) e = Some err ∧ emit e s = Throw err s).
Proof. unfold emit. destruct (refused (trace s) e); [right; by eexists|by left]. Qed.

Lemma emit_Ok (e : Event) (s s' : Stack) (u : unit) :
  emit e s = Ok u s' → s' = with_trace (trace s ++ [e]) s.
Proof. unfold emit. destruct (refused (trace s) e); congruence. Qed.

Lemma emit_final (e : Event) (s : Stack) :
  final (emit e s) = s ∨ final (emit e s) = with_trace (trace s ++ [e]) s.
Proof. destruct (emit_cases e s) as [[_ ->]|(err & _ & ->)]; [by right|by left]. Qed.

(** An invariant kept by adding [e] to the trace is kept by creating [e]. *)
Lemma preserves_emit (I : Stack → Prop) (e : Event) :
  (∀ s, I s → I (with_trace (trace s ++ [e]) s)) → preserves I (emit e).
Proof. intros H s Hs. destruct (emit_final e s) as [-> | ->]; auto. Qed.

Lemma extends_emit (C : Event → Prop) (t0 : list Event) (e : Event) :
  C e → preserves (extends C t0) (emit e).
Proof.
  intros He s (new & Hnew & Hall).
  destruct (emit_final e s) as [->| ->]; [by exists new|].
  exists (new ++ [e]). simpl. split.
  - rewrite Hnew. by rewrite app_assoc.
  - apply Forall_app. split; [done|]. by constructor.
Qed.

Lemma extends_setEntry (C : Event → Prop) (t0 : list Event) (m : MapName) (k v : string) :
  C (SetEntry m k v) → preserves (extends C t0) (setEntry m k v).
Proof.
  intros He s (new & Hnew & Hall). exists (new ++ [SetEntry m k v]). simpl. split.
  - rewrite Hnew. by rewrite app_assoc.
  - apply Forall_app. split; [done|]. by constructor.
Qed.

Lemma extends_modify_same_trace (C : Event → Prop) (t0 : list Event) (f : Stack → Stack) :
  (∀ s, trace (f s) = trace s) → preserves (extends C t0) (modify f).
Proof. intros Hf s (new & Hnew & Hall). exists new. simpl. by rewrite Hf. Qed.

(** Syntax-directed proof of [preserves I m]: the rules above are applied
    along the structure of [m] and methods are unfolded; [leaf] proves the
    steps that change the stack. For [extends C t0] the class of each emitted
    event is checked by computation. *)
Ltac head_of t :=
  lazymatch t with
  | ?f _ => head_of f
  | _ => t
  end.

Ltac preserves_step leaf :=
  cbv beta zeta;
  lazymatch goal with
  | |- preserves _ (ret _) => apply preserves_ret
  | |- preserves _ (throw _) => apply preserves_throw
  | |- preserves _ get => apply preserves_get
  | |- preserves _ (getMap _ _) => apply preserves_getMap
  | |- preserves _ (orThrow _ _) => apply preserves_orThrow
  | |- preserves _ (bind _ _) => apply preserves_bind; [|intros ?]
  | |- preserves _ (when _ _) => apply preserves_when; intros _
  | |- preserves _ (forM_ _ _) => apply preserves_forM_; intros ? _
  | |- preserves _ (foldM _ _ _) => apply preserves_foldM; intros ? ? _
  | |- preserves _ (emit _) => leaf
  | |- preserves _ (setEntry _ _ _) => leaf
  | |- preserves _ (modify _) => leaf
  | |- preserves _ (if ?c then _ else _) => destruct c eqn:?
  | |- preserves _ (match ?x with _ => _ end) => destruct x eqn:?
  | |- preserves _ ?m => let h := head_of m in unfold h
  end.

Ltac extends_leaf :=
  idtac;
  lazymatch goal with
  | |- preserves _ (emit _) => apply extends_emit; exact I
  | |- preserves _ (setEntry _ _ _) => apply extends_setEntry; exact I
  | |- preserves _ (modify _) => apply extends_modify_same_trace; intros []; reflexivity
  end.

Ltac extends_step := preserves_step extends_leaf.

Ltac solve_extends := solve [repeat extends_step].

(** The same for an invariant that the trace does not enter: a step that
    only extends the trace keeps it by computation. *)
Ltac untouched_leaf :=
  idtac; let s := fresh in let H := fresh in
  try apply preserves_emit; intros s H; exact H.

Ltac solve_untouched := solve [repeat preserves_step untouched_leaf].


(** * Hosted zone associations *)

Lemma createHostedZoneAssociations_refuses (E : Env) (s : Stack) :
  centralEndpointViolation E → ∃ e, createHostedZoneAssociations E s = Throw e s.
Proof.
  intros Hviol. unfold createHostedZoneAssociations. cbv zeta.
  destruct (negb (String.eqb (partition E) "aws") && negb (String.eqb (partition E) "aws-cn")
            && (0 <? length (centralEndpointVpcs E))%nat) eqn:Hpart.
  - by eexists.
  - destruct (1 <? length (centralEndpointVpcs E))%nat eqn:Hmany.
    + by eexists.
    + exfalso. apply Nat.ltb_ge in Hmany.
      destruct Hviol as [Hlen|(Haws & Hcn & Hlen)]; [lia|].
      rewrite (eqb_false_ne _ _ Haws), (eqb_false_ne _ _ Hcn) in Hpart. simpl in Hpart.
      apply Nat.ltb_ge in Hpart. lia.
Qed.

(** If every run of [m] keeps [I] and every continuation throws within [I],
    the sequence throws within [I]. *)
Lemma bind_throws_within {A B} (I : Stack → Prop) (m : M A) (f : A → M B) (s : Stack) :
  I s →
  preserves I m →
  (∀ a s', I s' → is_Some (threw (f a s')) ∧ I (final (f a s'))) →
  is_Some (threw (bind m f s)) ∧ I (final (bind m f s)).
Proof.
  intros Hs Hm Hf. unfold bind. specialize (Hm s Hs).
  destruct (m s) as [a s'|e s']; simpl in *.
  - by apply Hf.
  - split; [by eexists|done].
Qed.

(** C10: at most one VPC of the scope may be marked as the central interface
    endpoints VPC, and only in the partitions aws and aws-cn. When more than
    one such VPC exists, or one exists in another partition,
    [createHostedZoneAssociations] throws from every stack and leaves it as it
    was, and the constructor ends in an error without having requested any
    hosted zone association. *)
Theorem central_endpoint_vpcs_guarded (E : Env) :
  centralEndpointViolation E →
  (∀ s, ∃ e, createHostedZoneAssociations E s = Throw e s)
  ∧ is_Some (threw (construct E newStack))
  ∧ Forall notHostedZoneAssociation (trace (final (construct E newStack))).
Proof.
  intros Hviol. split; [intros s; by apply createHostedZoneAssociations_refuses|].
  assert (Hrun : is_Some (threw (construct E newStack))
                 ∧ extends notHostedZoneAssociation [] (final (construct E newStack))).
  { unfold construct.
    repeat (apply bind_throws_within;
            [first [apply (extends_refl notHostedZoneAssociation newStack) | assumption]
            |solve_extends
            |intros ? ? ?]).
    lazymatch goal with
    | Hs : extends _ [] ?st |- context [bind (createHostedZoneAssociations E) _ ?st] =>
        destruct (createHostedZoneAssociations_refuses E st Hviol) as [e He];
        unfold bind; rewrite He; simpl; split; [by eexists|exact Hs]
    end. }
  destruct Hrun as [Hthrow (new & Hnew & Hall)]. split; [done|].
  rewrite Hnew. exact Hall.
Qed.

(** The guard fires on the sample with two central endpoints VPCs. *)
Lemma central_endpoint_vpcs_guarded_witness :
  centralEndpointViolation Sample.twoCentralVpcs
  ∧ ((∀ s, ∃ e, createHostedZoneAssociations Sample.twoCentralVpcs s = Throw e s)
     ∧ is_Some (threw (construct Sample.twoCentralVpcs newStack))
     ∧ Forall notHostedZoneAssociation (trace (final (construct Sample.twoCentralVpcs newStack)))).
Proof.
  assert (H : centralEndpointViolation Sample.twoCentralVpcs).
  { left. vm_compute. lia. }
  split; [exact H|].
  apply (central_endpoint_vpcs_guarded Sample.twoCentralVpcs H).
Defined.

(** * Unresolved references in the peering graph *)

(** C1: a reference to a name absent from the configuration is meant to end
    in an error that names it. The peering methods miss this in three places,
    shown here on concrete runs.
    - A peering whose accepter VPC is not configured: [setPeeringList] returns
      normally and stores an undefined accepter; the constructor then dies on a
      [TypeError] raised by the next step, which names nothing.
    - A peering whose requester VPC is not configured: [setPeeringList] itself
      dies on a [TypeError].
    - A cross-account accepter route by prefix list whose key is absent from
      the prefix list map: the constructor succeeds and the route is requested
      with neither a destination nor a prefix list identifier. *)
Theorem peering_references_unchecked :
  (∃ p, setPeeringList Sample.unknownAccepter newStack = Ok [p] newStack
        ∧ Peering.accepter p = None)
  ∧ threw (construct Sample.unknownAccepter newStack) = Some (TypeError "routeTables")
  ∧ threw (setPeeringList Sample.unknownRequester newStack) = Some (TypeError "account")
  ∧ threw (construct Sample.prefixListAcrossNames newStack) = None
  ∧ prefixListMap (final (construct Sample.prefixListAcrossNames newStack))
      !! "Network-Legacy_us-east-1_pl-shared" = None
  ∧ ∃ props,
      last (trace (final (construct Sample.prefixListAcrossNames newStack)))
      = Some (CrossAcctPeeringRoute "A-to-B" props)
      ∧ CrossAcctPeeringRouteProps.destination props = None
      ∧ CrossAcctPeeringRouteProps.destinationPrefixListId props = None.
Proof.
  split; [eexists; split; vm_compute; reflexivity|].
  repeat (split; [vm_compute; reflexivity|]).
  eexists. split; [vm_compute; reflexivity|]. split; reflexivity.
Qed.

(** * Attachment keys *)

(** What the key does achieve: attachments whose owning accounts have no
    underscore in their names get distinct keys. *)
Lemma attachmentKey_injective (owner1 vpc1 owner2 vpc2 : string) :
  hasSeparator owner1 = false → hasSeparator owner2 = false →
  attachmentKey owner1 vpc1 = attachmentKey owner2 vpc2 →
  owner1 = owner2 ∧ vpc1 = vpc2.
Proof.
  unfold attachmentKey. revert owner2.
  induction owner1 as [|c1 rest1 IH]; intros [|c2 rest2] H1 H2 Heq; simpl in *.
  - injection Heq as Heq. split; [done|exact Heq].
  - injection Heq as <- _. discriminate.
  - injection Heq as -> _. discriminate.
  - injection Heq as -> Heq.
    apply orb_false_iff in H1 as [_ H1]. apply orb_false_iff in H2 as [_ H2].
    destruct (IH rest2 H1 H2 Heq) as [-> ->]. done.
Qed.

Lemma attachmentKey_injective_witness :
  hasSeparator "Network" = false
  ∧ (attachmentKey "Network" "Dev_Main" = attachmentKey "Network" "Dev_Main" →
     "Network" = "Network" ∧ "Dev_Main" = "Dev_Main").
Proof.
  split; [reflexivity|].
  exact (attachmentKey_injective "Network" "Dev_Main" "Network" "Dev_Main" eq_refl eq_refl).
Defined.

(** C9: the attachment key is meant to identify an attachment of a transit
    gateway uniquely. It is the two names joined by an underscore, and the
    names are not checked for underscores: the attachment of VPC [Main] of
    account [Network_Dev] and that of VPC [Dev_Main] of account [Network] get
    the same key. In the run of the constructor the second attachment
    overwrites the entry of the first, one entry is left for two attachments,
    and the static route to the first VPC is created on the attachment of the
    second. *)
Theorem attachment_key_collision :
  ("Network_Dev", "Main") ≠ ("Network", "Dev_Main")
  ∧ attachmentKey "Network_Dev" "Main" = attachmentKey "Network" "Dev_Main"
  ∧ writesTo TransitGatewayAttachments
      (trace (final (construct Sample.separatorInNames newStack)))
    = [ ("Network_Dev_Main", "tgw-attach:444444444444:Main-Attach");
        ("Network_Dev_Main",
         "ssm:/accelerator/network/vpc/Dev_Main/transitGatewayAttachment/DevMain-Attach/id") ]
  ∧ map_to_list (transitGatewayAttachments (final (construct Sample.separatorInNames newStack)))
    = [ ("Network_Dev_Main",
         "ssm:/accelerator/network/vpc/Dev_Main/transitGatewayAttachment/DevMain-Attach/id") ]
  ∧ last (trace (final (construct Sample.separatorInNames newStack)))
    = Some (TransitGatewayStaticRoute "core-10.1.0.0/16-Main-Network_Dev"
              "ssm:/accelerator/network/transitGateways/Network-Main/routeTables/core/id"
              None "10.1.0.0/16"
              (Some "ssm:/accelerator/network/vpc/Dev_Main/transitGatewayAttachment/DevMain-Attach/id")).
Proof.
  split; [discriminate|].
  repeat split; vm_compute; reflexivity.
Qed.

(** * Order of the transit gateway graph *)









(** * Static routes and their attachments *)






(** * Direct Connect gateway associations *)

Lemma dxAssociationIds_found (dxgwItem : DxGatewayConfig.t) (tgw : TransitGatewayConfig.t)
    (dxId gwId : string) (s : Stack) :
  dxGatewayMap s !! DxGatewayConfig.name dxgwItem = Some dxId → dxId ≠ EmptyString →
  transitGateways s !! TransitGatewayConfig.name tgw = Some gwId → gwId ≠ EmptyString →
  dxAssociationIds dxgwItem tgw s = Ok (dxId, gwId) s.
Proof.
  intros Hdx Hdx' Htgw Htgw'. unfold dxAssociationIds, bind, getMap. simpl readMap.
  rewrite Hdx, Htgw, (orThrow_found _ _ _ Hdx'), (orThrow_found _ _ _ Htgw'). reflexivity.
Qed.

Lemma dxAssociationIds_state (dxgwItem : DxGatewayConfig.t) (tgw : TransitGatewayConfig.t)
    (s s' : Stack) (ids : string * string) :
  dxAssociationIds dxgwItem tgw s = Ok ids s' → s' = s.
Proof.
  unfold dxAssociationIds, bind, getMap.
  destruct (orThrow (readMap DxGatewayMap s !! _) _ s) as [a s1|] eqn:H1; [|discriminate].
  destruct (orThrow_Ok _ _ _ _ _ H1) as (_ & _ & ->).
  destruct (orThrow (readMap TransitGateways s !! _) _ s) as [b s2|] eqn:H2; [|discriminate].
  destruct (orThrow_Ok _ _ _ _ _ H2) as (_ & _ & ->).
  by intros [= <- <-].
Qed.

(** The association step changes the attachments map only by publishing,
    under the key of the pair, the attachment identifier of an association. *)
Lemma createDxGatewayTgwAssociations_publishes
    (E : Env) (dxgwItem : DxGatewayConfig.t) (tgw : TransitGatewayConfig.t)
    (associationItem : DxTransitGatewayAssociationConfig.t) (tgwAccountId : string)
    (s s' : Stack) :
  createDxGatewayTgwAssociations E dxgwItem tgw associationItem tgwAccountId s = Ok tt s' →
  transitGatewayAttachments s' = transitGatewayAttachments s
  ∨ ∃ id props attachmentId,
      last (trace s')
      = Some (SetEntry TransitGatewayAttachments (dxAttachmentKey dxgwItem tgw) attachmentId)
      ∧ dxAssociationAttachmentId E id props = Some attachmentId
      ∧ transitGatewayAttachments s'
        = <[dxAttachmentKey dxgwItem tgw := attachmentId]> (transitGatewayAttachments s).
Proof.
  unfold createDxGatewayTgwAssociations. cbv zeta.
  assert (Hfinish : ∀ e id props s',
            (if negb (truthy (Some id)) then throw e
             else emit (DirectConnectGatewayAssociation id props) >>
                  when (truthy (dxAssociationAttachmentId E id props))
                    (setEntry TransitGatewayAttachments
                       (DxGatewayConfig.name dxgwItem +:+ "_" +:+ TransitGatewayConfig.name tgw)
                       (str (dxAssociationAttachmentId E id props)))) s = Ok tt s' →
            transitGatewayAttachments s' = transitGatewayAttachments s
            ∨ ∃ id props attachmentId,
                last (trace s')
                = Some (SetEntry TransitGatewayAttachments (dxAttachmentKey dxgwItem tgw)
                          attachmentId)
                ∧ dxAssociationAttachmentId E id props = Some attachmentId
                ∧ transitGatewayAttachments s'
                  = <[dxAttachmentKey dxgwItem tgw := attachmentId]> (transitGatewayAttachments s)).
  { intros e id props s1. destruct (negb (truthy (Some id))); [discriminate|].
    unfold bind. destruct (emit _ s) as [[] s2|] eqn:Hemit; [|discriminate].
    apply emit_Ok in Hemit as ->.
    unfold when, setEntry, modify, ret.
    destruct (dxAssociationAttachmentId E id props) as [a|] eqn:Hpub.
    - destruct (truthy (Some a)); cbv beta iota; intros [= <-]; [|by left].
      right. exists id, props, a. split; [|split; [done|reflexivity]].
      simpl. by rewrite last_snoc.
    - cbv beta iota. intros [= <-]. by left. }
  unfold bind.
  destruct (negb _ && _) eqn:Hfirst.
  - destruct (dxAssociationIds dxgwItem tgw s) as [ids s1|] eqn:Hids; [|discriminate].
    apply dxAssociationIds_state in Hids as ->. unfold ret at 1.
    destruct (String.eqb _ _ && _) eqn:Hsecond.
    + destruct (dxAssociationIds dxgwItem tgw s) as [ids' s1|] eqn:Hids'; [|discriminate].
      apply dxAssociationIds_state in Hids' as ->. unfold ret at 1. apply Hfinish.
    + unfold ret at 1. apply Hfinish.
  - unfold ret at 1.
    destruct (String.eqb _ _ && _) eqn:Hsecond.
    + destruct (dxAssociationIds dxgwItem tgw s) as [ids' s1|] eqn:Hids'; [|discriminate].
      apply dxAssociationIds_state in Hids' as ->. unfold ret at 1. apply Hfinish.
    + unfold ret. intros [= <-]. by left.
Qed.

(** Without an identifier under the key of the pair, the route table steps
    of a Direct Connect attachment throw and leave the stack as it was. *)
Lemma dx_attachment_absent_key
    (E : Env) (dxgwItem : DxGatewayConfig.t) (tgw : TransitGatewayConfig.t)
    (tgwRouteTableName tgwAccountId : string) (s : Stack) :
  tgwInScope E tgw tgwAccountId = true →
  truthy (transitGatewayAttachments s !! dxAttachmentKey dxgwItem tgw) = false →
  let e := Error ("[network-associations-stack] Create DX TGW route table associations: unable to locate attachment "
                  +:+ dxAttachmentKey dxgwItem tgw) in
  createDxTgwRouteTableAssociations E dxgwItem tgw tgwRouteTableName tgwAccountId s = Throw e s
  ∧ createDxTgwRouteTablePropagations E dxgwItem tgw tgwRouteTableName tgwAccountId s = Throw e s.
Proof.
  intros Hscope Hkey e. subst e. split.
  - unfold createDxTgwRouteTableAssociations. rewrite Hscope. unfold when, bind, getMap.
    simpl readMap. fold (dxAttachmentKey dxgwItem tgw).
    by rewrite (orThrow_missing _ _ _ Hkey).
  - unfold createDxTgwRouteTablePropagations. rewrite Hscope. unfold when, bind, getMap.
    simpl readMap. fold (dxAttachmentKey dxgwItem tgw).
    by rewrite (orThrow_missing _ _ _ Hkey).
Qed.

(** The steps of one association of a Direct Connect gateway with a transit
    gateway of this stack, from a stack in which the identifiers they use
    are free:
    - when the two are declared under different account names, the gateway
      identifier is fetched from the account of the Direct Connect gateway
      and an association proposal is created, naming that account as the
      owner;
    - when they are declared under the same account name, a direct
      association is created;
    - in both cases the attachment identifier of the association, when it has
      one, is written under the key of the pair, and the association step
      writes nothing else to the attachments map;
    - the route table associations and propagations of the pair throw, from
      the stack as it was, when no identifier is stored under that key, and
      when they return they have used the stored identifier. *)
Theorem direct_connect_association_steps
    (E : Env) (dxgwItem : DxGatewayConfig.t) (tgw : TransitGatewayConfig.t)
    (associationItem : DxTransitGatewayAssociationConfig.t) :
  let tgwAccountId := getAccountId E (TransitGatewayConfig.account tgw) in
  let name := DxGatewayConfig.name dxgwItem in
  let owner := getAccountId E (DxGatewayConfig.account dxgwItem) in
  let props (owner : option string) (dxId gwId : string) :=
    {| DirectConnectGatewayAssociationProps.allowedPrefixes :=
         DxTransitGatewayAssociationConfig.allowedPrefixes associationItem;
       DirectConnectGatewayAssociationProps.directConnectGatewayId := dxId;
       DirectConnectGatewayAssociationProps.directConnectGatewayOwnerAccount := owner;
       DirectConnectGatewayAssociationProps.gatewayId := gwId |} in
  let proposalId :=
    pascalCase E (name +:+ TransitGatewayConfig.name tgw +:+ "DxGatewayAssociationProposal") in
  let associationId :=
    pascalCase E (name +:+ TransitGatewayConfig.name tgw +:+ "DxGatewayAssociation") in
  tgwInScope E tgw tgwAccountId = true →
  (DxGatewayConfig.account dxgwItem ≠ TransitGatewayConfig.account tgw →
   ∀ s,
     let lookupId := pascalCase E ("SsmParamLookup" +:+ name) in
     let lookup := dxGatewayLookupProps E dxgwItem owner in
     refused (trace s) (SsmParameterLookup lookupId lookup) = None →
     setDxGatewayMap E dxgwItem tgw tgwAccountId s
     = Ok tt (writeMap DxGatewayMap name (ssmParameterLookupValue E lookupId lookup)
                (with_trace (trace s ++ [SsmParameterLookup lookupId lookup]) s)))
  ∧ (DxGatewayConfig.account dxgwItem ≠ TransitGatewayConfig.account tgw →
     ∀ s dxId gwId,
       dxGatewayMap s !! name = Some dxId → dxId ≠ EmptyString →
       transitGateways s !! TransitGatewayConfig.name tgw = Some gwId → gwId ≠ EmptyString →
       proposalId ≠ EmptyString →
       refused (trace s) (DirectConnectGatewayAssociation proposalId (props (Some owner) dxId gwId))
       = None →
       createDxGatewayTgwAssociations E dxgwItem tgw associationItem tgwAccountId s
       = Ok tt (published E dxgwItem tgw proposalId (props (Some owner) dxId gwId) s))
  ∧ (DxGatewayConfig.account dxgwItem = TransitGatewayConfig.account tgw →
     ∀ s dxId gwId,
       dxGatewayMap s !! name = Some dxId → dxId ≠ EmptyString →
       transitGateways s !! TransitGatewayConfig.name tgw = Some gwId → gwId ≠ EmptyString →
       associationId ≠ EmptyString →
       refused (trace s) (DirectConnectGatewayAssociation associationId (props None dxId gwId))
       = None →
       createDxGatewayTgwAssociations E dxgwItem tgw associationItem tgwAccountId s
       = Ok tt (published E dxgwItem tgw associationId (props None dxId gwId) s))
  ∧ (∀ s tgwRouteTableName,
       truthy (transitGatewayAttachments s !! dxAttachmentKey dxgwItem tgw) = false →
       let e := Error ("[network-associations-stack] Create DX TGW route table associations: unable to locate attachment "
                       +:+ dxAttachmentKey dxgwItem tgw) in
       createDxTgwRouteTableAssociations E dxgwItem tgw tgwRouteTableName tgwAccountId s = Throw e s
       ∧ createDxTgwRouteTablePropagations E dxgwItem tgw tgwRouteTableName tgwAccountId s = Throw e s)
  ∧ (∀ s s' tgwRouteTableName,
       createDxTgwRouteTableAssociations E dxgwItem tgw tgwRouteTableName tgwAccountId s = Ok tt s' →
       ∃ attachmentId routeTableId,
         transitGatewayAttachments s !! dxAttachmentKey dxgwItem tgw = Some attachmentId
         ∧ trace s' = trace s ++
             [TransitGatewayRouteTableAssociation
                (pascalCase E (name +:+ tgwRouteTableName +:+ "Association"))
                attachmentId routeTableId])
  ∧ (∀ s s' tgwRouteTableName,
       createDxTgwRouteTablePropagations E dxgwItem tgw tgwRouteTableName tgwAccountId s = Ok tt s' →
       ∃ attachmentId routeTableId,
         transitGatewayAttachments s !! dxAttachmentKey dxgwItem tgw = Some attachmentId
         ∧ trace s' = trace s ++
             [TransitGatewayRouteTablePropagation
                (pascalCase E (name +:+ tgwRouteTableName +:+ "Propagation"))
                attachmentId routeTableId])
  ∧ (∀ s s',
       createDxGatewayTgwAssociations E dxgwItem tgw associationItem tgwAccountId s = Ok tt s' →
       transitGatewayAttachments s' = transitGatewayAttachments s
       ∨ ∃ id props attachmentId,
           last (trace s')
           = Some (SetEntry TransitGatewayAttachments (dxAttachmentKey dxgwItem tgw) attachmentId)
           ∧ dxAssociationAttachmentId E id props = Some attachmentId
           ∧ transitGatewayAttachments s'
             = <[dxAttachmentKey dxgwItem tgw := attachmentId]> (transitGatewayAttachments s)).
Proof.
  intros tgwAccountId name owner props proposalId associationId Hscope.
  subst name owner props proposalId associationId. cbv beta.
  repeat split.
  - intros Hne s lookupId lookup Hfresh. unfold setDxGatewayMap. cbv zeta.
    rewrite (eqb_false_ne _ _ Hne), Hscope. cbn [negb andb when]. unfold bind, emit.
    fold lookupId. fold lookup. rewrite Hfresh. reflexivity.
  - intros Hne s dxId gwId Hdx Hdx' Htgw Htgw' Hid Hfresh.
    unfold createDxGatewayTgwAssociations. cbv zeta.
    rewrite (eqb_false_ne _ _ Hne), Hscope. cbn [negb andb].
    unfold bind. rewrite (dxAssociationIds_found _ _ _ _ s Hdx Hdx' Htgw Htgw').
    unfold ret. cbn [fst snd truthy]. rewrite (eqb_false_ne _ _ Hid). cbn [negb].
    unfold published, bind, emit. rewrite Hfresh.
    unfold when, setEntry, modify, dxAttachmentKey.
    match goal with |- context [truthy ?x] => destruct (truthy x) end; reflexivity.
  - intros Heq s dxId gwId Hdx Hdx' Htgw Htgw' Hid Hfresh.
    unfold createDxGatewayTgwAssociations. cbv zeta.
    rewrite Heq, String.eqb_refl, Hscope. cbn [negb andb].
    unfold bind, ret. cbv beta iota.
    rewrite (dxAssociationIds_found _ _ _ _ s Hdx Hdx' Htgw Htgw').
    cbn [fst snd truthy]. rewrite (eqb_false_ne _ _ Hid). cbn [negb].
    unfold published, emit. rewrite Hfresh.
    unfold when, setEntry, modify, dxAttachmentKey.
    match goal with |- context [truthy ?x] => destruct (truthy x) end; reflexivity.
  - by apply dx_attachment_absent_key.
  - by apply dx_attachment_absent_key.
  - intros s s' rt. unfold createDxTgwRouteTableAssociations. rewrite Hscope.
    unfold when, bind, getMap. simpl readMap. fold (dxAttachmentKey dxgwItem tgw).
    destruct (orThrow (transitGatewayAttachments s !! _) _ s) as [a s1|] eqn:Ha; [|discriminate].
    destruct (orThrow_Ok _ _ _ _ _ Ha) as (Hfound & _ & ->).
    destruct (orThrow (transitGatewayRouteTables s !! _) _ s) as [r s2|] eqn:Hr; [|discriminate].
    destruct (orThrow_Ok _ _ _ _ _ Hr) as (_ & _ & ->).
    intros Hemit. apply emit_Ok in Hemit as ->. by exists a, r.
  - intros s s' rt. unfold createDxTgwRouteTablePropagations. rewrite Hscope.
    unfold when, bind, getMap. simpl readMap. fold (dxAttachmentKey dxgwItem tgw).
    destruct (orThrow (transitGatewayAttachments s !! _) _ s) as [a s1|] eqn:Ha; [|discriminate].
    destruct (orThrow_Ok _ _ _ _ _ Ha) as (Hfound & _ & ->).
    destruct (orThrow (transitGatewayRouteTables s !! _) _ s) as [r s2|] eqn:Hr; [|discriminate].
    destruct (orThrow_Ok _ _ _ _ _ Hr) as (_ & _ & ->).
    intros Hemit. apply emit_Ok in Hemit as ->. by exists a, r.
  - intros s s'. apply createDxGatewayTgwAssociations_publishes.
Qed.

Lemma direct_connect_association_steps_witness :
  let lookup :=
    SsmParameterLookup "SsmParamLookupShared-DXGW"
      (dxGatewayLookupProps Sample.directConnect Sample.sharedDxGateway "333333333333") in
  tgwInScope Sample.directConnect (Sample.mainTgw []) "111111111111" = true
  ∧ refused (trace newStack) lookup = None
  ∧ threw (setDxGatewayMap Sample.directConnect Sample.sharedDxGateway (Sample.mainTgw [])
             "111111111111" newStack) = None
  ∧ trace (final (setDxGatewayMap Sample.directConnect Sample.sharedDxGateway (Sample.mainTgw [])
                    "111111111111" newStack))
    = [ lookup;
        SetEntry DxGatewayMap "Shared-DXGW"
          "lookup:333333333333:/accelerator/network/directConnectGateways/Shared-DXGW/id" ]
  ∧ createDxTgwRouteTableAssociations Sample.directConnect Sample.sharedDxGateway
      (Sample.mainTgw []) "core" "111111111111" newStack
    = Throw
        (Error "[network-associations-stack] Create DX TGW route table associations: unable to locate attachment Shared-DXGW_Network-Main")
        newStack.
Proof.
  cbv zeta.
  pose proof (direct_connect_association_steps Sample.directConnect Sample.sharedDxGateway
                (Sample.mainTgw [])
                {| DxTransitGatewayAssociationConfig.name := "Network-Main";
                   DxTransitGatewayAssociationConfig.account := "Network";
                   DxTransitGatewayAssociationConfig.allowedPrefixes := ["10.0.0.0/8"];
                   DxTransitGatewayAssociationConfig.routeTableAssociations := ["core"];
                   DxTransitGatewayAssociationConfig.routeTablePropagations := ["core"] |}
                eq_refl) as H.
  destruct H as (Hlookup & _ & _ & Hthrow & _).
  split; [reflexivity|]. split; [reflexivity|].
  pose proof (Hlookup ltac:(discriminate) newStack eq_refl) as Hrun. cbv zeta in Hrun.
  change "111111111111"
    with (getAccountId Sample.directConnect (TransitGatewayConfig.account (Sample.mainTgw []))).
  rewrite Hrun. split; [reflexivity|]. split; [vm_compute; reflexivity|].
  apply (Hthrow newStack "core"). reflexivity.
Defined.

(** C8: every association of a Direct Connect gateway with a transit gateway
    of the stack is meant to get its gateway identifier and its association
    or proposal. [setDxGatewayMap] runs once per association and creates the
    parameter lookup under an identifier made of the name of the gateway
    only, without looking at the map it fills. In the run of the constructor
    for a gateway of another account associated with two transit gateways of
    the stack, the first association gets its lookup and its proposal, and
    the second dies on the identifier of the lookup, which is taken: its
    proposal is never created. The same happens, outside the home region,
    to a gateway of the account of the stack. *)
Theorem dx_gateway_lookup_repeated :
  let run := construct Sample.twoDxAssociations newStack in
  let runWest := construct Sample.twoDxAssociationsWest newStack in
  threw run = Some (Error "There is already a Construct with name 'SsmParamLookupShared-DXGW'")
  ∧ omap dxAssociationOf (trace (final run))
    = [ ("Shared-DXGWNetwork-MainDxGatewayAssociationProposal", Some "333333333333") ]
  ∧ threw runWest = Some (Error "There is already a Construct with name 'SsmParamLookupNetwork-DXGW'")
  ∧ omap dxAssociationOf (trace (final runWest))
    = [ ("Network-DXGWWest-MainDxGatewayAssociation", None) ].
Proof. cbv zeta. repeat split; vm_compute; reflexivity. Qed.

(** * VPC peering routes *)

(** A loop in which every iteration that returns leaves one event per item
    of the iteration leaves one event per item overall, in order. *)
Lemma forM__Forall2 {A X} (I : Stack → Prop) (R : X → Event → Prop)
    (items : A → list X) (xs : list A) (body : A → M unit) :
  (∀ x s s', I s → body x s = Ok tt s' →
             I s' ∧ ∃ evs, trace s' = trace s ++ evs ∧ Forall2 R (items x) evs) →
  ∀ s s', I s → forM_ xs body s = Ok tt s' →
          I s' ∧ ∃ evs, trace s' = trace s ++ evs ∧ Forall2 R (flat_map items xs) evs.
Proof.
  intros Hbody. induction xs as [|x xs IH]; simpl; intros s s' Hs.
  - intros [= <-]. split; [done|]. exists []. rewrite app_nil_r. split; [done|constructor].
  - unfold bind. destruct (body x s) as [[] s1|] eqn:Hb; [|discriminate].
    intros Hrest.
    destruct (Hbody _ _ _ Hs Hb) as (Hs1 & evs1 & Ht1 & HR1).
    destruct (IH _ _ Hs1 Hrest) as (Hs' & evs2 & Ht2 & HR2).
    split; [done|]. exists (evs1 ++ evs2). rewrite Ht2, Ht1, app_assoc.
    split; [done|]. by apply Forall2_app.
Qed.

Lemma flat_map_filter_pair {A B} (f : B → bool) (a : A) (xs : list B) :
  flat_map (fun x => if f x then [(a, x)] else []) xs = map (pair a) (List.filter f xs).
Proof.
  induction xs as [|x xs IH]; simpl; [done|].
  destruct (f x); simpl; by rewrite IH.
Qed.

Lemma sameRouting_refl (s : Stack) : sameRouting s s.
Proof. by repeat split. Qed.

Lemma sameRouting_emit (s0 s : Stack) (e : Event) :
  sameRouting s0 s → sameRouting s0 (with_trace (trace s ++ [e]) s).
Proof. intros H. exact H. Qed.

(** The accepter-side routes that [createAccepterVpcPeeringRoutes] creates
    when it returns: one event per route to the peering, in order, direct in
    the same scope and through the provider otherwise. *)
Lemma createAccepterVpcPeeringRoutes_trace
    (E : Env) (accepterAccountId : string) (accepterVpc requesterVpc : VpcConfig.t)
    (peeringName : string) (s s' : Stack) :
  createAccepterVpcPeeringRoutes E accepterAccountId accepterVpc requesterVpc peeringName s
  = Ok tt s' →
  ∃ evs,
    trace s' = trace s ++ evs
    ∧ Forall2 (if sameScope requesterVpc accepterVpc
               then directRouteFor E s accepterVpc peeringName
               else crossAccountRouteFor E s accepterAccountId accepterVpc peeringName)
        (accepterPeeringRoutes accepterVpc peeringName) evs.
Proof.
  intros Hrun.
  set (R := if sameScope requesterVpc accepterVpc
            then directRouteFor E s accepterVpc peeringName
            else crossAccountRouteFor E s accepterAccountId accepterVpc peeringName).
  cut (sameRouting s s' ∧ ∃ evs, trace s' = trace s ++ evs
                                 ∧ Forall2 R (accepterPeeringRoutes accepterVpc peeringName) evs).
  { intros [_ H]. exact H. }
  revert Hrun. unfold createAccepterVpcPeeringRoutes, accepterPeeringRoutes.
  generalize (sameRouting_refl s). generalize s at 2 3 5 as s1. intros s1 Hs1.
  revert s1 s' Hs1.
  apply (forM__Forall2 (sameRouting s) R).
  intros routeTable s1 s2 Hs1. rewrite <- flat_map_filter_pair.
  revert s1 s2 Hs1.
  apply (forM__Forall2 (sameRouting s) R).
  intros entry s1 s2 Hs1.
  destruct (isPeeringRoute entry peeringName); simpl when.
  2:{ intros [= <-]. split; [done|]. exists []. rewrite app_nil_r. split; [done|constructor]. }
  unfold bind, get.
  destruct Hs1 as (Hrt & Hpl & Hprov).
  destruct (orThrow (routeTableMap s1 !! _) _ s1) as [routeTableId s3|] eqn:Hfound; [|discriminate].
  destruct (orThrow_Ok _ _ _ _ _ Hfound) as (Hlookup & _ & ->).
  rewrite Hrt in Hlookup.
  subst R. fold (sameScope requesterVpc accepterVpc).
  destruct (sameScope requesterVpc accepterVpc).
  - destruct (truthy (RouteTableEntryConfig.destinationPrefixList entry)).
    + unfold bind.
      destruct (orThrow (prefixListMap s1 !! _) _ s1) as [plId s4|] eqn:Hplfound; [|discriminate].
      destruct (orThrow_Ok _ _ _ _ _ Hplfound) as (_ & _ & ->).
      unfold ret, emit, modify. intros [= <-].
      split; [by repeat split|]. eexists [_]. split; [reflexivity|].
      constructor; [|constructor]. by eexists _, _, _.
    + unfold ret, emit, modify. intros [= <-].
      split; [by repeat split|]. eexists [_]. split; [reflexivity|].
      constructor; [|constructor]. by eexists _, _, _.
  - destruct (crossAcctRouteProvider s1) as [provider|] eqn:Hp; [|discriminate].
    rewrite Hprov in Hp.
    unfold emit, modify. intros [= <-].
    split; [by repeat split|]. eexists [_]. split; [reflexivity|].
    constructor; [|constructor]. by eexists _, _, _, _.
Qed.

Lemma accepterPeeringRoutes_In (accepterVpc : VpcConfig.t) (peeringName : string) :
  accepterPeeringRoutes accepterVpc peeringName ≠ [] →
  ∃ routeTable entry,
    In routeTable (VpcConfig.routeTables accepterVpc)
    ∧ In entry (RouteTableConfig.routes routeTable)
    ∧ isPeeringRoute entry peeringName = true.
Proof.
  unfold accepterPeeringRoutes. intros Hne.
  destruct (flat_map _ _) as [|[routeTable entry] rest] eqn:Hflat; [done|].
  assert (Hin : In (routeTable, entry) (flat_map
            (fun routeTable => map (fun entry => (routeTable, entry))
               (List.filter (fun entry => isPeeringRoute entry peeringName)
                  (RouteTableConfig.routes routeTable)))
            (VpcConfig.routeTables accepterVpc))).
  { rewrite Hflat. by left. }
  apply in_flat_map in Hin as (rt & Hrt & Hin).
  apply in_map_iff in Hin as (e & [= <- <-] & Hin).
  apply filter_In in Hin as [Hin Hp]. by exists rt, e.
Qed.

(** Outside the same scope and without a provider, the accepter-side routes
    of a peering that has any cannot be created. *)
Lemma createAccepterVpcPeeringRoutes_needs_provider
    (E : Env) (accepterAccountId : string) (accepterVpc requesterVpc : VpcConfig.t)
    (peeringName : string) (s : Stack) :
  sameScope requesterVpc accepterVpc = false →
  crossAcctRouteProvider s = None →
  accepterPeeringRoutes accepterVpc peeringName ≠ [] →
  is_Some (threw (createAccepterVpcPeeringRoutes E accepterAccountId accepterVpc requesterVpc
                    peeringName s)).
Proof.
  intros Hscope Hnone Hroutes.
  destruct (accepterPeeringRoutes_In _ _ Hroutes) as (routeTable & entry & Hrt & Hentry & Hp).
  unfold createAccepterVpcPeeringRoutes.
  apply (forM__throws (fun s => crossAcctRouteProvider s = None) _ _ routeTable); [done| |..|done].
  { intros rt. solve_untouched. }
  intros s1 Hs1.
  apply (forM__throws (fun s => crossAcctRouteProvider s = None) _ _ entry); [done| |..|done].
  { intros e. solve_untouched. }
  intros s2 Hs2. rewrite Hp. simpl when. unfold bind, get.
  destruct (orThrow _ _ s2) as [routeTableId s3|] eqn:Hfound; [|by eexists].
  destruct (orThrow_Ok _ _ _ _ _ Hfound) as (_ & _ & ->).
  fold (sameScope requesterVpc accepterVpc). rewrite Hscope, Hs2. by eexists.
Qed.

(** ** The provider *)

Lemma fold_left_flag {A} (c : A → bool) (xs : list A) (b : bool) :
  fold_left (fun flag x => if c x then true else flag) xs b = b || existsb c xs.
Proof.
  revert b. induction xs as [|x xs IH]; intros b; simpl.
  - by rewrite orb_false_r.
  - rewrite IH. destruct (c x), b; reflexivity.
Qed.

Lemma fold_left_flag_nested {A B} (c : B → bool) (inner : A → list B) (xs : list A) (b : bool) :
  fold_left (fun flag x => fold_left (fun flag y => if c y then true else flag) (inner x) flag) xs b
  = b || existsb (fun x => existsb c (inner x)) xs.
Proof.
  revert b. induction xs as [|x xs IH]; intros b; simpl.
  - by rewrite orb_false_r.
  - rewrite IH, fold_left_flag. by rewrite orb_assoc.
Qed.

Lemma existsb_pointwise {A} (p q : A → bool) (xs : list A) :
  (∀ x, p x = q x) → existsb p xs = existsb q xs.
Proof. intros H. induction xs as [|x xs IH]; simpl; [done|]. by rewrite H, IH. Qed.

Lemma existsb_and_r {A} (p : A → bool) (b : bool) (xs : list A) :
  existsb (fun x => p x && b) xs = existsb p xs && b.
Proof.
  induction xs as [|x xs IH]; simpl; [done|].
  rewrite IH. destruct (p x), b, (existsb p xs); reflexivity.
Qed.

Lemma existsb_filter_nil {A} (p : A → bool) (xs : list A) :
  existsb p xs = negb (bool_decide (List.filter p xs = [])).
Proof.
  induction xs as [|x xs IH]; simpl; [done|].
  destruct (p x); simpl; [done|exact IH].
Qed.

Lemma accepterPeeringRoutes_exists (accepterVpc : VpcConfig.t) (peeringName : string) :
  existsb (fun routeTable =>
             existsb (fun entry => isPeeringRoute entry peeringName)
               (RouteTableConfig.routes routeTable))
    (VpcConfig.routeTables accepterVpc)
  = bool_decide (accepterPeeringRoutes accepterVpc peeringName ≠ []).
Proof.
  unfold accepterPeeringRoutes.
  induction (VpcConfig.routeTables accepterVpc) as [|rt rts IH]; simpl; [done|].
  rewrite IH, existsb_filter_nil.
  destruct (List.filter _ (RouteTableConfig.routes rt)) as [|e es] eqn:Hf; simpl; done.
Qed.

(** The flag computed by the loops of [createCrossAcctRouteProvider]. *)
Lemma createFramework_needsProvider (ps : list Peering.t) (b : bool) (s : Stack) :
  Forall (fun p => is_Some (Peering.accepter p)) ps →
  foldM ps b
    (fun createFramework peering =>
       match Peering.accepter peering with
       | None => throw (TypeError "routeTables")
       | Some accepterVpc =>
           ret (fold_left
                  (fun createFramework routeTable =>
                     fold_left
                       (fun createFramework routeTableEntry =>
                          if isPeeringRoute routeTableEntry (Peering.name peering)
                             && (negb (String.eqb (VpcConfig.account accepterVpc)
                                         (VpcConfig.account (Peering.requester peering)))
                                 || negb (String.eqb (VpcConfig.region accepterVpc)
                                            (VpcConfig.region (Peering.requester peering))))
                          then true else createFramework)
                       (RouteTableConfig.routes routeTable) createFramework)
                  (VpcConfig.routeTables accepterVpc) createFramework)
       end) s
  = Ok (b || existsb needsProvider ps) s.
Proof.
  intros Hall. revert b. induction Hall as [|p ps [acc Hacc] _ IH]; intros b; simpl.
  - by rewrite orb_false_r.
  - unfold bind. rewrite Hacc. unfold ret at 1.
    rewrite IH. f_equal.
    rewrite (fold_left_flag_nested _ RouteTableConfig.routes), <- orb_assoc. f_equal. f_equal.
    unfold needsProvider. rewrite Hacc.
    erewrite existsb_pointwise; [|intros rt; apply existsb_and_r].
    rewrite existsb_and_r, accepterPeeringRoutes_exists, andb_comm. f_equal.
    unfold sameScope.
    rewrite (String.eqb_sym (VpcConfig.account acc)), (String.eqb_sym (VpcConfig.region acc)).
    by rewrite negb_andb.
Qed.

(** [createCrossAcctRouteProvider] creates the provider when a peering needs
    it, and nothing otherwise. *)
Lemma createCrossAcctRouteProvider_needed (E : Env) (s : Stack) :
  Forall (fun p => is_Some (Peering.accepter p)) (peeringList s) →
  refused (trace s) routeFramework = None →
  createCrossAcctRouteProvider E s
  = if existsb needsProvider (peeringList s)
    then Ok (Some (crossAccountRouteFrameworkProvider E "CrossAccountRouteFramework"))
           (with_trace (trace s ++ [routeFramework]) s)
    else Ok None s.
Proof.
  intros Hall Hfresh. unfold createCrossAcctRouteProvider, bind, get.
  rewrite (createFramework_needsProvider _ _ _ Hall). simpl orb.
  destruct (existsb needsProvider (peeringList s)); [|reflexivity].
  destruct (emit_cases routeFramework s) as [[_ Hok]|(err & Herr & _)]; [|congruence].
  unfold routeFramework in Hok. cbn [orb]. cbv beta iota. by rewrite Hok.
Qed.

(** Whatever the peering list, it creates the provider at most once. *)
Lemma createCrossAcctRouteProvider_once (E : Env) (s : Stack) :
  trace (final (createCrossAcctRouteProvider E s)) = trace s
  ∨ trace (final (createCrossAcctRouteProvider E s)) = trace s ++ [routeFramework].
Proof.
  unfold createCrossAcctRouteProvider, bind, get.
  lazymatch goal with
  | |- context [foldM ?ps ?b ?body s] =>
      assert (Hpure : final (foldM ps b body s) = s);
      [|destruct (foldM ps b body s) as [[] s1|e s1]; simpl in Hpure; subst s1; simpl; auto;
        destruct (emit_cases routeFramework s) as [[_ Hok]|(err & _ & Hok)];
        unfold routeFramework in Hok; rewrite Hok; simpl; auto]
  end.
  apply (preserves_foldM (fun s' => s' = s)); [|reflexivity].
  intros acc p _. destruct (Peering.accepter p); [apply preserves_ret|apply preserves_throw].
Qed.

Lemma setPeeringList_pure (E : Env) (s : Stack) : final (setPeeringList E s) = s.
Proof.
  unfold setPeeringList.
  apply (preserves_foldM (fun s' => s' = s)); [|reflexivity].
  intros acc peering _. cbv zeta.
  destruct (List.filter _ _); [apply preserves_throw|].
  destruct (_ && _); apply preserves_ret.
Qed.

(** The accepter-side routes of a peering.
    - When [createAccepterVpcPeeringRoutes] returns, it has created exactly
      one route per accepter-side route to the peering, in order: directly on
      the peering when requester and accepter are declared in the same account
      and region, and through the provider of the stack, in the accepter's
      account, otherwise.
    - Outside the same scope, with no provider and at least one such route,
      it throws.
    - [createCrossAcctRouteProvider] creates the provider exactly when some
      peering of the list needs it.
    - Over the whole constructor the provider is created at most once, and
      before every other request of the peering and transit gateway steps. *)
Theorem accepter_peering_routes (E : Env) :
  (∀ accepterAccountId accepterVpc requesterVpc peeringName s s',
     createAccepterVpcPeeringRoutes E accepterAccountId accepterVpc requesterVpc peeringName s
     = Ok tt s' →
     ∃ evs,
       trace s' = trace s ++ evs
       ∧ Forall2 (if sameScope requesterVpc accepterVpc
                  then directRouteFor E s accepterVpc peeringName
                  else crossAccountRouteFor E s accepterAccountId accepterVpc peeringName)
           (accepterPeeringRoutes accepterVpc peeringName) evs)
  ∧ (∀ accepterAccountId accepterVpc requesterVpc peeringName s,
       sameScope requesterVpc accepterVpc = false →
       crossAcctRouteProvider s = None →
       accepterPeeringRoutes accepterVpc peeringName ≠ [] →
       is_Some (threw (createAccepterVpcPeeringRoutes E accepterAccountId accepterVpc
                         requesterVpc peeringName s)))
  ∧ (∀ s,
       Forall (fun p => is_Some (Peering.accepter p)) (peeringList s) →
       refused (trace s) routeFramework = None →
       createCrossAcctRouteProvider E s
       = if existsb needsProvider (peeringList s)
         then Ok (Some (crossAccountRouteFrameworkProvider E "CrossAccountRouteFramework"))
                (with_trace (trace s ++ [routeFramework]) s)
         else Ok None s)
  ∧ ∃ first rest,
      trace (final (construct E newStack)) = first ++ rest
      ∧ (first = [] ∨ first = [routeFramework])
      ∧ Forall notRouteFramework rest.
Proof.
  split; [intros; by eapply createAccepterVpcPeeringRoutes_trace|].
  split; [intros; by eapply createAccepterVpcPeeringRoutes_needs_provider|].
  split; [intros; by apply createCrossAcctRouteProvider_needed|].
  unfold construct. unfold bind at 1.
  pose proof (setPeeringList_pure E newStack) as Hpure.
  destruct (setPeeringList E newStack) as [peeringList s0|e s0]; simpl in Hpure; subst s0.
  2:{ exists [], []. split; [done|]. split; [by left|constructor]. }
  unfold bind at 1. unfold modify at 1.
  set (s1 := with_peeringList peeringList newStack).
  unfold bind at 1.
  assert (Hrest : ∀ (m : M unit) (s2 : Stack),
            preserves (extends notRouteFramework (trace s2)) m →
            trace s2 = [] ∨ trace s2 = [routeFramework] →
            ∃ first rest,
              trace (final (m s2)) = first ++ rest
              ∧ (first = [] ∨ first = [routeFramework])
              ∧ Forall notRouteFramework rest).
  { intros m s2 Hp Hfirst.
    destruct (Hp s2 (extends_refl _ _)) as (rest & Hrest & Hall).
    exists (trace s2), rest. by repeat split. }
  pose proof (createCrossAcctRouteProvider_once E s1) as Honce.
  change (trace s1) with (@nil Event) in Honce. rewrite app_nil_l in Honce.
  destruct (createCrossAcctRouteProvider E s1) as [provider s2|e s2]; cbn [final] in Honce.
  - apply Hrest; [solve_extends|exact Honce].
  - cbn [final]. exists (trace s2), []. rewrite app_nil_r. split; [done|].
    split; [exact Honce|constructor].
Qed.

(** On the sample, the route of the accepter VPC-C of the Workload account is
    requested once, through the provider. *)
Lemma accepter_peering_routes_witness :
  ∃ evs,
    trace (final (createAccepterVpcPeeringRoutes Sample.crossScopePeering "222222222222"
                    Sample.vpcC Sample.vpcA "A-to-B" (Sample.prepared Sample.crossScopePeering)))
    = trace (Sample.prepared Sample.crossScopePeering) ++ evs
    ∧ Forall2 (crossAccountRouteFor Sample.crossScopePeering
                 (Sample.prepared Sample.crossScopePeering) "222222222222" Sample.vpcC "A-to-B")
        (accepterPeeringRoutes Sample.vpcC "A-to-B") evs.
Proof.
  apply (proj1 (accepter_peering_routes Sample.crossScopePeering) "222222222222"
           Sample.vpcC Sample.vpcA "A-to-B" (Sample.prepared Sample.crossScopePeering)
           (final (createAccepterVpcPeeringRoutes Sample.crossScopePeering "222222222222"
                     Sample.vpcC Sample.vpcA "A-to-B" (Sample.prepared Sample.crossScopePeering)))).
  vm_compute. reflexivity.
Defined.

(** C5: every accepter-side route of a peering is meant to be created,
    directly when requester and accepter are in the same account and region
    and through the provider otherwise.
    - [setCrossAcctRouteTables] keeps its lookups apart by a key made of the
      VPC and the route table, and creates them under an identifier made of
      the name of the route table only. In the run of the constructor for a
      requester peered with two accepters of other accounts whose route
      tables have the same name, the second lookup dies on the identifier of
      the first: the provider and one lookup are all that is created, and
      no peering and no route.
    - [createAccepterVpcPeeringRoutes] compares the account names of the two
      VPCs, where [createVpcPeeringConnections] compares their account
      identifiers. For an accepter declared under a second name of the
      requester's account, in the requester's region, the constructor
      returns having requested the route through the provider, in the
      account of the stack itself, and not directly. *)
Theorem accepter_routes_not_created :
  let run := construct Sample.twoAccepters newStack in
  let runNames := construct Sample.accepterUnderSecondName newStack in
  threw run = Some (Error "There is already a Construct with name 'SsmParamLookupPrivate'")
  ∧ trace (final run)
    = [ CrossAccountRouteFramework "CrossAccountRouteFramework";
        SsmParameterLookup "SsmParamLookupPrivate"
          {| SsmParameterLookupProps.name := "/accelerator/network/vpc/VPC-C/routeTable/Private/id";
             SsmParameterLookupProps.accountId := "222222222222";
             SsmParameterLookupProps.parameterRegion := "us-east-1";
             SsmParameterLookupProps.roleName := "AWSAccelerator-VpcPeeringRole-us-east-1" |} ]
  ∧ omap peeringRouteOf (trace (final run)) = []
  ∧ getAccountId Sample.accepterUnderSecondName "Network-Legacy"
    = getAccountId Sample.accepterUnderSecondName "Network"
  ∧ account Sample.accepterUnderSecondName
    = getAccountId Sample.accepterUnderSecondName "Network"
  ∧ threw runNames = None
  ∧ omap peeringRouteOf (trace (final runNames)) = [ ("A-to-B", Some "111111111111") ].
Proof. cbv zeta. repeat split; vm_compute; reflexivity. Qed.

(** * Shared resources *)

Lemma resolvedAsShared_insert (E : Env) (r : SharedResource) (owningAccountId : string)
    (m0 m : gmap string string) (name : string) :
  resolvedAsShared E r owningAccountId m0 m →
  resolvedAsShared E r owningAccountId m0 (<[name := sharedIdentifier E r owningAccountId name]> m).
Proof.
  intros H n v Hn. rewrite lookup_insert. case_decide as Heq.
  - subst n. by intros [= <-].
  - by apply H.
Qed.

Lemma resolvedAsShared_refl (E : Env) (r : SharedResource) (owningAccountId : string)
    (m : gmap string string) :
  resolvedAsShared E r owningAccountId m m.
Proof. intros n v Hn Hv. congruence. Qed.

(** Writing the shared identifier of [name] keeps the invariant; every other
    step leaves the map alone. *)
Ltac shared_leaf r :=
  idtac;
  lazymatch goal with
  | |- preserves _ (setEntry _ ?name _) =>
      let s := fresh "s" in
      let H := fresh "H" in
      intros s H; simpl;
      lazymatch goal with
      | Heq : String.eqb _ _ = _ |- _ =>
          pose proof (resolvedAsShared_insert _ r _ _ _ name H) as H';
          unfold sharedIdentifier in H'; rewrite Heq in H'; exact H'
      end
  | |- _ =>
      let s := fresh "s" in let H := fresh "H" in
      try apply preserves_emit; intros s H; exact H
  end.

Lemma createDnsFirewallAssociations_shared (E : Env) (vpcItem : VpcItem) (owner : string)
    (m0 : gmap string string) :
  preserves (fun s => resolvedAsShared E FirewallRuleGroup owner m0 (dnsFirewallMap s))
    (createDnsFirewallAssociations E vpcItem owner).
Proof. solve [repeat preserves_step ltac:(shared_leaf FirewallRuleGroup)]. Qed.

Lemma createResolverRuleAssociations_shared (E : Env) (vpcItem : VpcItem) (owner : string)
    (m0 : gmap string string) :
  preserves (fun s => resolvedAsShared E ResolverRule owner m0 (resolverRuleMap s))
    (createResolverRuleAssociations E vpcItem owner).
Proof. solve [repeat preserves_step ltac:(shared_leaf ResolverRule)]. Qed.

Lemma createQueryLogConfigAssociations_shared (E : Env) (vpcItem : VpcItem) (owner : string)
    (m0 : gmap string string) :
  preserves (fun s => resolvedAsShared E QueryLogConfig owner m0 (queryLogMap s))
    (createQueryLogConfigAssociations E vpcItem owner).
Proof. solve [repeat preserves_step ltac:(shared_leaf QueryLogConfig)]. Qed.

(** An invariant of the accumulator of a loop. *)
Lemma foldM_acc {A B} (P : B → Prop) (xs : list A) (body : B → A → M B) :
  (∀ acc x s acc' s', P acc → body acc x s = Ok acc' s' → P acc') →
  ∀ acc s acc' s', P acc → foldM xs acc body s = Ok acc' s' → P acc'.
Proof.
  intros Hbody. induction xs as [|x xs IH]; simpl; intros acc s acc' s' Hacc.
  - by intros [= <- <-].
  - unfold bind. destruct (body acc x s) as [acc1 s1|] eqn:Hb; [|discriminate].
    apply IH. by eapply Hbody.
Qed.

Lemma setNfwPolicyMap_shared (E : Env) (s s' : Stack) (policyMap : gmap string string) :
  setNfwPolicyMap E s = Ok policyMap s' →
  ∀ name v,
    policyMap !! name = Some v →
    ∃ c, NetworkConfig.centralNetworkServices (networkConfig E) = Some c
         ∧ v = sharedIdentifier E FirewallPolicy
                 (getAccountId E (CentralNetworkServicesConfig.delegatedAdminAccount c)) name.
Proof.
  unfold setNfwPolicyMap.
  destruct (NetworkConfig.centralNetworkServices (networkConfig E)) as [c|];
    [|intros [= <- <-] name v; by rewrite lookup_empty].
  destruct (CentralNetworkServicesConfig.firewalls c) as [firewalls|];
    [|intros [= <- <-] name v; by rewrite lookup_empty].
  intros Hrun name v Hv. exists c. split; [done|].
  set (owner := getAccountId E (CentralNetworkServicesConfig.delegatedAdminAccount c)) in *.
  assert (Hshared : resolvedAsShared E FirewallPolicy owner ∅ policyMap);
    [|by apply Hshared].
  revert Hrun. apply foldM_acc; [|apply resolvedAsShared_refl].
  intros acc vpcItem s1 acc1 s2 Hacc.
  destruct (_ && _); [|by intros [= <- <-]].
  apply foldM_acc; [|done].
  clear. intros acc firewallItem s acc' s' Hacc.
  destruct (_ && _); [|by intros [= <- <-]].
  destruct (String.eqb owner (account E)) eqn:Howner.
  - intros [= <- <-].
    pose proof (resolvedAsShared_insert E FirewallPolicy owner ∅ acc
                  (NfwFirewallConfig.firewallPolicy firewallItem) Hacc) as H.
    unfold sharedIdentifier in H. by rewrite Howner in H.
  - unfold bind, emit, modify, ret. intros [= <- <-].
    pose proof (resolvedAsShared_insert E FirewallPolicy owner ∅ acc
                  (NfwFirewallConfig.firewallPolicy firewallItem) Hacc) as H.
    unfold sharedIdentifier in H. by rewrite Howner in H.
Qed.

(** ** Entries and associations of a run that returns *)

Lemma resolvesShared_refl (E : Env) (r : SharedResource) (m : MapName) (owner : string) (s : Stack) :
  resolvesShared E r m owner s s [].
Proof.
  split; [done|]. split; [by rewrite app_nil_r|]. intros name id Hnone Hsome. congruence.
Qed.

Lemma resolvesShared_trans (E : Env) (r : SharedResource) (m : MapName) (owner : string)
    (s s1 s2 : Stack) (new1 new2 : list Event) :
  resolvesShared E r m owner s s1 new1 → resolvesShared E r m owner s1 s2 new2 →
  resolvesShared E r m owner s s2 (new1 ++ new2).
Proof.
  intros (Hsub1 & Htrace1 & Hnew1) (Hsub2 & Htrace2 & Hnew2).
  split; [by etrans|]. split; [by rewrite Htrace2, Htrace1, app_assoc|].
  intros name id Hnone Hsome.
  destruct (readMap m s1 !! name) as [w|] eqn:Hmid.
  - destruct (Hnew1 name w Hnone Hmid) as [-> Hlookup].
    pose proof (lookup_weaken _ _ _ _ Hmid Hsub2) as Hw.
    split; [congruence|]. intros Hremote. apply in_or_app. left. by apply Hlookup.
  - destruct (Hnew2 name id Hmid Hsome) as [-> Hlookup].
    split; [done|]. intros Hremote. apply in_or_app. right. by apply Hlookup.
Qed.

(** A step that leaves the map alone. *)
Lemma resolvesShared_frame (E : Env) (r : SharedResource) (m : MapName) (owner : string)
    (s s' : Stack) (new : list Event) :
  readMap m s' = readMap m s → trace s' = trace s ++ new →
  resolvesShared E r m owner s s' new.
Proof.
  intros Hmap Htrace. split; [by rewrite Hmap|]. split; [done|].
  intros name id Hnone Hsome. rewrite Hmap in Hsome. congruence.
Qed.

Lemma readMap_with_trace (m : MapName) (t : list Event) (s : Stack) :
  readMap m (with_trace t s) = readMap m s.
Proof. by destruct m. Qed.

Lemma associatedFrom_grows (m : MapName) (names : list string) (uses : string → string → Event)
    (s s' : Stack) (before new after : list Event) :
  readMap m s ⊆ readMap m s' →
  associatedFrom m names uses s new → associatedFrom m names uses s' (before ++ new ++ after).
Proof.
  intros Hsub H name Hin. destruct (H name Hin) as (id & Hid & Huse).
  exists id. split; [by eapply lookup_weaken|].
  apply in_or_app. right. apply in_or_app. by left.
Qed.

(** The resolution step of the three association methods: it returns, and
    afterwards the map has an entry for the name. *)
Lemma resolve_step (E : Env) (r : SharedResource) (m : MapName) (owner name : string) (s : Stack) :
  r ≠ FirewallPolicy →
  ∃ s1 new,
    when (negb (has (readMap m s) name))
      (if String.eqb owner (account E) then
         setEntry m name (valueForStringParameter E (localKey r name))
       else
         emit (ResourceShareLookup (shareName r name) (resourceType r) owner) >>
         setEntry m name (resourceShareItemId E (shareName r name) (resourceType r) owner)) s
    = Ok tt s1
    ∧ resolvesShared E r m owner s s1 new
    ∧ is_Some (readMap m s1 !! name).
Proof.
  intros Hr. destruct (has (readMap m s) name) eqn:Hhas; simpl when.
  { exists s, []. split; [done|]. split; [apply resolvesShared_refl|]. by apply has_true. }
  apply has_false in Hhas.
  destruct (String.eqb owner (account E)) eqn:Howner.
  - eexists _, [_]. split; [reflexivity|].
    assert (Hmap : ∀ v s0, readMap m (writeMap m name v s0) = <[name:=v]> (readMap m s0))
      by (intros; rewrite readMap_writeMap; by case_decide).
    split; [|rewrite Hmap; by rewrite lookup_insert_eq].
    unfold resolvesShared. rewrite Hmap.
    split; [by apply insert_subseteq|]. split; [reflexivity|].
    intros n id Hnone. rewrite lookup_insert. case_decide as Hn; [|congruence].
    intros [= <-]. subst n. unfold sharedIdentifier. rewrite Howner. split; [done|].
    apply String.eqb_eq in Howner. congruence.
  - eexists _, [_; _]. split; [reflexivity|].
    assert (Hmap : ∀ v s0, readMap m (writeMap m name v s0) = <[name:=v]> (readMap m s0))
      by (intros; rewrite readMap_writeMap; by case_decide).
    split; [|rewrite Hmap; by rewrite lookup_insert_eq].
    unfold resolvesShared. rewrite Hmap, readMap_with_trace.
    split; [by apply insert_subseteq|].
    split; [simpl; by rewrite <- app_assoc|].
    intros n id Hnone. rewrite lookup_insert. case_decide as Hn; [|congruence].
    intros [= <-]. subst n. unfold sharedIdentifier. rewrite Howner.
    split; [by destruct r|]. intros _. by left.
Qed.

(** A loop whose iterations stand in a relation that composes. *)
Lemma forM__runs {A} (R : Stack → Stack → list Event → Prop)
    (Q : A → Stack → list Event → Prop) (xs : list A) (body : A → M unit) :
  (∀ s, R s s []) →
  (∀ s s1 s2 new1 new2, R s s1 new1 → R s1 s2 new2 → R s s2 (new1 ++ new2)) →
  (∀ x s s' before new after, Q x s new → R s s' after → Q x s' (before ++ new ++ after)) →
  (∀ x s s', body x s = Ok tt s' → ∃ new, R s s' new ∧ Q x s' new) →
  ∀ s s', forM_ xs body s = Ok tt s' → ∃ new, R s s' new ∧ ∀ x, In x xs → Q x s' new.
Proof.
  intros Hrefl Htrans Hgrows Hbody. induction xs as [|x xs IH]; intros s s'; simpl.
  - intros [= <-]. exists []. split; [apply Hrefl|]. intros ? [].
  - unfold bind. destruct (body x s) as [[] s1|] eqn:Hx; [|discriminate]. intros Hrest.
    destruct (Hbody _ _ _ Hx) as (new1 & Hres1 & Hass1).
    destruct (IH _ _ Hrest) as (new2 & Hres2 & Hass2).
    exists (new1 ++ new2). split; [by eapply Htrans|].
    intros y [<-|Hy].
    + apply (Hgrows x s1 s' [] new1 new2 Hass1 Hres2).
    + pose proof (Hgrows y s' s' new1 new2 [] (Hass2 y Hy) (Hrefl s')) as H.
      by rewrite app_nil_r in H.
Qed.

(** A loop whose iterations resolve and associate does so for all its items. *)
Lemma forM__resolves {A} (E : Env) (r : SharedResource) (m : MapName) (owner : string)
    (names : A → list string) (uses : A → string → string → Event)
    (xs : list A) (body : A → M unit) :
  (∀ x s s', body x s = Ok tt s' →
             ∃ new, resolvesShared E r m owner s s' new
                    ∧ associatedFrom m (names x) (uses x) s' new) →
  ∀ s s', forM_ xs body s = Ok tt s' →
          ∃ new, resolvesShared E r m owner s s' new
                 ∧ ∀ x, In x xs → associatedFrom m (names x) (uses x) s' new.
Proof.
  apply (forM__runs (resolvesShared E r m owner)
           (fun x => associatedFrom m (names x) (uses x))).
  - apply resolvesShared_refl.
  - apply resolvesShared_trans.
  - intros x s s' before new after Hass Hres.
    eapply associatedFrom_grows; [apply Hres|done].
Qed.

Lemma createDnsFirewallAssociations_resolves
    (E : Env) (vpcItem : VpcItem) (owner : string) (s s' : Stack) :
  createDnsFirewallAssociations E vpcItem owner s = Ok tt s' →
  ∃ new,
    resolvesShared E FirewallRuleGroup DnsFirewallMap owner s s' new
    ∧ ∀ firewallItem,
        In firewallItem (VpcItem.dnsFirewallRuleGroups vpcItem) →
        associatedFrom DnsFirewallMap [VpcDnsFirewallAssociationConfig.name firewallItem]
          (ruleGroupAssociation E vpcItem firewallItem) s' new.
Proof.
  unfold createDnsFirewallAssociations.
  apply (forM__resolves E FirewallRuleGroup DnsFirewallMap owner
           (fun firewallItem => [VpcDnsFirewallAssociationConfig.name firewallItem])
           (ruleGroupAssociation E vpcItem)).
  clear s s'. intros firewallItem s s' Hrun. cbv zeta in Hrun.
  unfold bind at 1, get in Hrun. unfold bind at 1 in Hrun.
  destruct (resolve_step E FirewallRuleGroup DnsFirewallMap owner
              (VpcDnsFirewallAssociationConfig.name firewallItem) s)
    as (s1 & new1 & Hstep & Hres & [id Hid]); [done|].
  cbn [readMap localKey shareName resourceType] in Hstep. rewrite Hstep in Hrun.
  unfold bind at 1, getMap in Hrun. rewrite Hid in Hrun. unfold bind at 1 in Hrun.
  destruct (orThrow (Some id) _ s1) as [id' s2|] eqn:Hfound; [|discriminate].
  apply orThrow_Ok in Hfound as ([= <-] & _ & ->).
  apply emit_Ok in Hrun as ->.
  eexists (new1 ++ [_]). split.
  - eapply resolvesShared_trans; [exact Hres|].
    apply resolvesShared_frame; [apply readMap_with_trace|reflexivity].
  - intros name [<-|[]]. exists id. rewrite readMap_with_trace. split; [done|].
    apply in_or_app. right. by left.
Qed.

Lemma createResolverRuleAssociations_resolves
    (E : Env) (vpcItem : VpcItem) (owner : string) (s s' : Stack) :
  createResolverRuleAssociations E vpcItem owner s = Ok tt s' →
  ∃ new,
    resolvesShared E ResolverRule ResolverRuleMap owner s s' new
    ∧ ∀ ruleItem,
        In ruleItem (VpcItem.resolverRules vpcItem) →
        associatedFrom ResolverRuleMap [ruleItem] (resolverRuleAssociation E vpcItem) s' new.
Proof.
  unfold createResolverRuleAssociations.
  apply (forM__resolves E ResolverRule ResolverRuleMap owner (fun ruleItem => [ruleItem])
           (fun _ => resolverRuleAssociation E vpcItem)).
  clear s s'. intros ruleItem s s' Hrun. cbv zeta in Hrun.
  unfold bind at 1, get in Hrun. unfold bind at 1 in Hrun.
  destruct (resolve_step E ResolverRule ResolverRuleMap owner ruleItem s)
    as (s1 & new1 & Hstep & Hres & [id Hid]); [done|].
  cbn [readMap localKey shareName resourceType] in Hstep. rewrite Hstep in Hrun.
  unfold bind at 1, getMap in Hrun. rewrite Hid in Hrun. unfold bind at 1 in Hrun.
  destruct (orThrow (Some id) _ s1) as [id' s2|] eqn:Hfound; [|discriminate].
  apply orThrow_Ok in Hfound as ([= <-] & _ & ->).
  apply emit_Ok in Hrun as ->.
  eexists (new1 ++ [_]). split.
  - eapply resolvesShared_trans; [exact Hres|].
    apply resolvesShared_frame; [apply readMap_with_trace|reflexivity].
  - intros name [<-|[]]. exists id. rewrite readMap_with_trace. split; [done|].
    apply in_or_app. right. by left.
Qed.

(** The names of the query log configurations of an item of a VPC, in a
    network with central network services. *)
Lemma createQueryLogConfigAssociations_resolves
    (E : Env) (vpcItem : VpcItem) (owner : string) (s s' : Stack) :
  createQueryLogConfigAssociations E vpcItem owner s = Ok tt s' →
  ∃ new,
    resolvesShared E QueryLogConfig QueryLogMap owner s s' new
    ∧ ∀ configItem,
        In configItem (VpcItem.queryLogs vpcItem) →
        ∃ centralNetworkConfig,
          NetworkConfig.centralNetworkServices (networkConfig E) = Some centralNetworkConfig
          ∧ associatedFrom QueryLogMap (queryLogConfigNames centralNetworkConfig configItem)
              (queryLogAssociation E vpcItem) s' new.
Proof.
  unfold createQueryLogConfigAssociations. intros Hrun.
  set (uses := queryLogAssociation E vpcItem).
  destruct (NetworkConfig.centralNetworkServices (networkConfig E)) as [c|] eqn:Hc.
  2:{ destruct (VpcItem.queryLogs vpcItem) as [|x xs]; [|discriminate].
      injection Hrun as <-. exists []. split; [apply resolvesShared_refl|]. intros ? []. }
  revert s s' Hrun.
  cut (∀ s s',
         forM_ (VpcItem.queryLogs vpcItem)
           (fun configItem =>
              let vpcId :=
                valueForStringParameter E
                  ("/accelerator/network/vpc/" +:+ VpcItem.name vpcItem +:+ "/id") in
              let configNames := queryLogConfigNames c configItem in
              forM_ configNames
                (fun nameItem =>
                   let* s := get in
                   when (negb (has (queryLogMap s) nameItem))
                     (if String.eqb owner (account E) then
                        let configId :=
                          valueForStringParameter E
                            ("/accelerator/network/route53Resolver/queryLogConfigs/"
                             +:+ nameItem +:+ "/id") in
                        setEntry QueryLogMap nameItem configId
                      else
                        emit (ResourceShareLookup (nameItem +:+ "_QueryLogConfigShare")
                                "route53resolver:ResolverQueryLogConfig" owner) >>
                        setEntry QueryLogMap nameItem
                          (resourceShareItemId E (nameItem +:+ "_QueryLogConfigShare")
                             "route53resolver:ResolverQueryLogConfig" owner))) >>
              forM_ configNames
                (fun nameItem =>
                   let* found := getMap QueryLogMap nameItem in
                   if negb (truthy found) then
                     throw (Error ("[network-associations-stack] Could not find existing DNS query log config "
                                   +:+ nameItem))
                   else
                     emit (QueryLoggingConfigAssociation
                             (pascalCase E (VpcItem.name vpcItem +:+ nameItem +:+ "QueryLogAssociation"))
                             found vpcId (partition E)))) s = Ok tt s' →
         ∃ new,
           resolvesShared E QueryLogConfig QueryLogMap owner s s' new
           ∧ ∀ configItem, In configItem (VpcItem.queryLogs vpcItem) →
                           associatedFrom QueryLogMap (queryLogConfigNames c configItem) uses s' new).
  { intros H s s' Hrun. destruct (H s s' Hrun) as (new & Hres & Hass).
    exists new. split; [done|]. intros configItem Hin. exists c. split; [done|]. by apply Hass. }
  apply (forM__resolves E QueryLogConfig QueryLogMap owner (queryLogConfigNames c) (fun _ => uses)).
  intros configItem s s' Hrun. cbv zeta in Hrun. unfold bind at 1 in Hrun.
  lazymatch type of Hrun with
  | match forM_ ?names ?body ?st with _ => _ end = _ =>
      destruct (forM_ names body st) as [[] s1|] eqn:Hfirst; [|discriminate]
  end.
  apply (forM__resolves E QueryLogConfig QueryLogMap owner (fun _ => []) (fun _ => uses))
    in Hfirst as (new1 & Hres1 & _).
  2:{ intros nameItem s2 s3 Hstep. unfold bind at 1, get in Hstep.
      destruct (resolve_step E QueryLogConfig QueryLogMap owner nameItem s2)
        as (s4 & new & Hstep' & Hres & _); [done|].
      cbn [readMap localKey shareName resourceType] in Hstep'. rewrite Hstep' in Hstep.
      injection Hstep as <-. exists new. split; [done|]. intros ? []. }
  apply (forM__resolves E QueryLogConfig QueryLogMap owner (fun nameItem => [nameItem])
           (fun _ => uses)) in Hrun as (new2 & Hres2 & Hass2).
  2:{ intros nameItem s2 s3 Hstep. unfold bind, getMap in Hstep.
      destruct (truthy (readMap QueryLogMap s2 !! nameItem)) eqn:Hfound; [|by simpl in Hstep].
      destruct (truthy_Some _ Hfound) as (id & Hid & _). simpl negb in Hstep. cbv iota in Hstep.
      apply emit_Ok in Hstep as ->. eexists [_]. split.
      - apply resolvesShared_frame; [apply readMap_with_trace|reflexivity].
      - intros name [<-|[]]. exists id. rewrite readMap_with_trace. split; [done|].
        left. subst uses. unfold queryLogAssociation. by rewrite Hid. }
  exists (new1 ++ new2). split; [by eapply resolvesShared_trans|].
  intros name Hname. destruct (Hass2 name Hname name (or_introl eq_refl)) as (id & Hid & Huse).
  exists id. split; [done|]. apply in_or_app. by right.
Qed.

(** A loop over an accumulator whose iterations all return: an invariant of
    accumulator and stack is kept, the accumulator grows, and what each
    iteration establishes of it holds at the end. *)
Lemma foldM_grows {A} (I : gmap string string → Stack → Prop)
    (Q : A → gmap string string → Prop) (xs : list A)
    (body : gmap string string → A → M (gmap string string)) :
  (∀ x acc acc', Q x acc → acc ⊆ acc' → Q x acc') →
  (∀ acc x s, In x xs → I acc s →
              ∃ acc' s', body acc x s = Ok acc' s' ∧ I acc' s' ∧ acc ⊆ acc' ∧ Q x acc') →
  ∀ acc s, I acc s →
           ∃ acc' s', foldM xs acc body s = Ok acc' s' ∧ I acc' s' ∧ acc ⊆ acc'
                      ∧ ∀ x, In x xs → Q x acc'.
Proof.
  intros Hmono. induction xs as [|x xs IH]; intros Hbody acc s Hacc; simpl.
  - exists acc, s. split; [done|]. split; [done|]. split; [done|]. intros ? [].
  - destruct (Hbody acc x s (or_introl eq_refl) Hacc) as (acc1 & s1 & Hx & Hacc1 & Hsub1 & HQ).
    destruct (IH (fun acc x s Hin => Hbody acc x s (or_intror Hin)) acc1 s1 Hacc1)
      as (acc' & s' & Hrest & Hacc' & Hsub & HQs).
    exists acc', s'. unfold bind. rewrite Hx. split; [done|]. split; [done|].
    split; [by etrans|]. intros y [<-|Hy]; [by eapply Hmono|by apply HQs].
Qed.

(** [setNfwPolicyMap] returns with an entry for the policy of every firewall
    of a VPC of the stack: the shared identifier of the policy, looked up in
    the resource share outside the owning account. *)
Lemma setNfwPolicyMap_resolves (E : Env) (s : Stack) :
  ∃ policyMap s' new,
    setNfwPolicyMap E s = Ok policyMap s'
    ∧ trace s' = trace s ++ new
    ∧ ∀ centralNetworkServices firewalls vpcItem firewallItem,
        NetworkConfig.centralNetworkServices (networkConfig E) = Some centralNetworkServices →
        CentralNetworkServicesConfig.firewalls centralNetworkServices = Some firewalls →
        In vpcItem (NetworkConfig.allVpcs (networkConfig E)) →
        vpcInScope E vpcItem = true →
        In firewallItem firewalls →
        NfwFirewallConfig.vpc firewallItem = VpcItem.name vpcItem →
        let owner :=
          getAccountId E (CentralNetworkServicesConfig.delegatedAdminAccount centralNetworkServices) in
        let policy := NfwFirewallConfig.firewallPolicy firewallItem in
        policyMap !! policy = Some (sharedIdentifier E FirewallPolicy owner policy)
        ∧ (owner ≠ account E →
           In (ResourceShareLookup (shareName FirewallPolicy policy) (resourceType FirewallPolicy)
                 owner) new).
Proof.
  unfold setNfwPolicyMap.
  destruct (NetworkConfig.centralNetworkServices (networkConfig E)) as [c|] eqn:Hc;
    [|exists ∅, s, []; rewrite app_nil_r; split; [done|]; split; [done|]; intros; congruence].
  destruct (CentralNetworkServicesConfig.firewalls c) as [firewalls|] eqn:Hf;
    [|exists ∅, s, []; rewrite app_nil_r; split; [done|]; split; [done|]; intros; congruence].
  set (owner := getAccountId E (CentralNetworkServicesConfig.delegatedAdminAccount c)).
  set (I := fun (acc : gmap string string) (s' : Stack) =>
              ∃ new, trace s' = trace s ++ new
                     ∧ ∀ name v, acc !! name = Some v →
                                 v = sharedIdentifier E FirewallPolicy owner name
                                 ∧ (owner ≠ account E →
                                    In (ResourceShareLookup (shareName FirewallPolicy name)
                                          (resourceType FirewallPolicy) owner) new)).
  set (inner := fun (vpcItem : VpcItem) (firewallItem : NfwFirewallConfig.t)
                    (acc : gmap string string) =>
                  NfwFirewallConfig.vpc firewallItem = VpcItem.name vpcItem →
                  is_Some (acc !! NfwFirewallConfig.firewallPolicy firewallItem)).
  set (outer := fun (vpcItem : VpcItem) (acc : gmap string string) =>
                  vpcInScope E vpcItem = true →
                  ∀ firewallItem, In firewallItem firewalls → inner vpcItem firewallItem acc).
  assert (Hinner : ∀ vpcItem x acc acc', inner vpcItem x acc → acc ⊆ acc' → inner vpcItem x acc').
  { intros vpcItem x acc acc' H Hsub Hvpc. destruct (H Hvpc) as [v Hv].
    exists v. by eapply lookup_weaken. }
  lazymatch goal with
  | |- context [foldM ?xs ∅ ?body s] =>
      destruct (foldM_grows I outer xs body) with (acc := (∅ : gmap string string)) (s := s)
        as (policyMap & s' & Hrun & (new & Htrace & Hentries) & _ & Hall)
  end.
  - intros x acc acc' H Hsub Hscope firewallItem Hin. eapply Hinner; [by apply H|done].
  - intros acc vpcItem s1 _ Hacc. fold (vpcInScope E vpcItem).
    destruct (vpcInScope E vpcItem) eqn:Hscope.
    2:{ exists acc, s1. split; [done|]. split; [done|]. split; [done|].
        intros Htrue. congruence. }
    lazymatch goal with
    | |- context [foldM firewalls acc ?body s1] =>
        destruct (foldM_grows I (inner vpcItem) firewalls body) with (acc := acc) (s := s1)
          as (acc' & s2 & Hrun & Hacc' & Hsub & Hall)
    end.
    + apply Hinner.
    + clear Hacc. intros acc0 firewallItem s2 _ (new & Htrace & Hentries).
      destruct (String.eqb (NfwFirewallConfig.vpc firewallItem) (VpcItem.name vpcItem)) eqn:Hvpc;
        simpl andb.
      2:{ exists acc0, s2. split; [done|]. split; [by exists new|]. split; [done|].
          intros Heq. apply String.eqb_neq in Hvpc. done. }
      destruct (has acc0 (NfwFirewallConfig.firewallPolicy firewallItem)) eqn:Hhas; simpl negb.
      { exists acc0, s2. split; [done|]. split; [by exists new|]. split; [done|].
        intros _. by apply has_true. }
      apply has_false in Hhas. cbv iota.
      destruct (String.eqb owner (account E)) eqn:Howner.
      * eexists _, s2. split; [reflexivity|]. split; [|split].
        -- exists new. split; [done|]. intros name v. rewrite lookup_insert.
           case_decide as Hname; [|by apply Hentries].
           intros [= <-]. subst name. unfold sharedIdentifier. rewrite Howner. split; [done|].
           apply String.eqb_eq in Howner. congruence.
        -- by apply insert_subseteq.
        -- intros _. by rewrite lookup_insert_eq.
      * eexists _, _. split; [reflexivity|]. split; [|split].
        -- eexists (new ++ [_]). simpl. split; [by rewrite Htrace, <- app_assoc|].
           intros name v. rewrite lookup_insert. case_decide as Hname.
           ++ intros [= <-]. subst name. unfold sharedIdentifier. rewrite Howner. split; [done|].
              intros _. apply in_or_app. right. by left.
           ++ intros Hv. destruct (Hentries _ _ Hv) as [-> Hlookup]. split; [done|].
              intros Hremote. apply in_or_app. left. by apply Hlookup.
        -- by apply insert_subseteq.
        -- intros _. by rewrite lookup_insert_eq.
    + done.
    + exists acc', s2. split; [done|]. split; [done|]. split; [done|].
      intros _ firewallItem Hin. by apply Hall.
  - exists []. rewrite app_nil_r. split; [done|]. intros name v. by rewrite lookup_empty.
  - exists policyMap, s', new. split; [done|]. split; [done|].
    intros c' firewalls' vpcItem firewallItem [= <-] Hf' Hvpc Hscope Hfw Hname. cbv zeta.
    assert (firewalls' = firewalls) as -> by congruence.
    destruct (Hall vpcItem Hvpc Hscope firewallItem Hfw Hname) as [v Hv].
    destruct (Hentries _ _ Hv) as [-> Hlookup]. done.
Qed.

(** The three methods leave the maps of one another alone. *)
Ltac frame_leaf :=
  idtac;
  lazymatch goal with
  | |- preserves _ (emit _) =>
      apply preserves_emit; let s := fresh in let H := fresh in
      intros s H; by rewrite readMap_with_trace
  | |- preserves _ (setEntry _ _ _) =>
      let s := fresh in let H := fresh in
      intros s H; simpl; rewrite readMap_writeMap; by case_decide
  end.

Lemma createDnsFirewallAssociations_frame
    (E : Env) (vpcItem : VpcItem) (owner : string) (m : MapName) (s : Stack) :
  m ≠ DnsFirewallMap →
  readMap m (final (createDnsFirewallAssociations E vpcItem owner s)) = readMap m s.
Proof.
  intros Hm.
  assert (Hp : preserves (fun s' => readMap m s' = readMap m s)
                 (createDnsFirewallAssociations E vpcItem owner))
    by (solve [repeat preserves_step frame_leaf]).
  by apply Hp.
Qed.

Lemma createQueryLogConfigAssociations_frame
    (E : Env) (vpcItem : VpcItem) (owner : string) (m : MapName) (s : Stack) :
  m ≠ QueryLogMap →
  readMap m (final (createQueryLogConfigAssociations E vpcItem owner s)) = readMap m s.
Proof.
  intros Hm.
  assert (Hp : preserves (fun s' => readMap m s' = readMap m s)
                 (createQueryLogConfigAssociations E vpcItem owner))
    by (solve [repeat preserves_step frame_leaf]).
  by apply Hp.
Qed.

Lemma createResolverRuleAssociations_frame
    (E : Env) (vpcItem : VpcItem) (owner : string) (m : MapName) (s : Stack) :
  m ≠ ResolverRuleMap →
  readMap m (final (createResolverRuleAssociations E vpcItem owner s)) = readMap m s.
Proof.
  intros Hm.
  assert (Hp : preserves (fun s' => readMap m s' = readMap m s)
                 (createResolverRuleAssociations E vpcItem owner))
    by (solve [repeat preserves_step frame_leaf]).
  by apply Hp.
Qed.

Lemma associatedFrom_frame (m : MapName) (names : list string) (uses : string → string → Event)
    (s s' : Stack) (before new after : list Event) :
  readMap m s' = readMap m s →
  associatedFrom m names uses s new → associatedFrom m names uses s' (before ++ new ++ after).
Proof. intros Hmap. apply associatedFrom_grows. by rewrite Hmap. Qed.

(** The central network associations of one VPC of the stack. *)
Lemma vpc_central_associations
    (E : Env) (c : CentralNetworkServicesConfig.t) (vpcItem : VpcItem) (owner : string)
    (s s' : Stack) :
  NetworkConfig.centralNetworkServices (networkConfig E) = Some c →
  (createDnsFirewallAssociations E vpcItem owner >>
   createQueryLogConfigAssociations E vpcItem owner >>
   createResolverRuleAssociations E vpcItem owner) s = Ok tt s' →
  ∃ new,
    resolvesShared E FirewallRuleGroup DnsFirewallMap owner s s' new
    ∧ resolvesShared E QueryLogConfig QueryLogMap owner s s' new
    ∧ resolvesShared E ResolverRule ResolverRuleMap owner s s' new
    ∧ vpcAssociated E c vpcItem s' new.
Proof.
  intros Hc Hrun. unfold bind in Hrun.
  pose proof (createDnsFirewallAssociations_frame E vpcItem owner QueryLogMap s ltac:(discriminate)) as Hd1.
  pose proof (createDnsFirewallAssociations_frame E vpcItem owner ResolverRuleMap s ltac:(discriminate)) as Hd2.
  destruct (createDnsFirewallAssociations E vpcItem owner s) as [[] s1|] eqn:Hdns; [|discriminate].
  pose proof (createQueryLogConfigAssociations_frame E vpcItem owner DnsFirewallMap s1 ltac:(discriminate)) as Hq1.
  pose proof (createQueryLogConfigAssociations_frame E vpcItem owner ResolverRuleMap s1 ltac:(discriminate)) as Hq2.
  destruct (createQueryLogConfigAssociations E vpcItem owner s1) as [[] s2|] eqn:Hquery;
    [|discriminate].
  pose proof (createResolverRuleAssociations_frame E vpcItem owner DnsFirewallMap s2 ltac:(discriminate)) as Hr1.
  pose proof (createResolverRuleAssociations_frame E vpcItem owner QueryLogMap s2 ltac:(discriminate)) as Hr2.
  rewrite Hrun in Hr1, Hr2. cbn [final] in Hd1, Hd2, Hq1, Hq2, Hr1, Hr2.
  apply createDnsFirewallAssociations_resolves in Hdns as (new1 & Hres1 & Hass1).
  apply createQueryLogConfigAssociations_resolves in Hquery as (new2 & Hres2 & Hass2).
  apply createResolverRuleAssociations_resolves in Hrun as (new3 & Hres3 & Hass3).
  pose proof (proj1 (proj2 Hres1)) as Ht1.
  pose proof (proj1 (proj2 Hres2)) as Ht2.
  pose proof (proj1 (proj2 Hres3)) as Ht3.
  exists (new1 ++ new2 ++ new3). unfold vpcAssociated.
  split; [|split; [|split; [|split; [|split]]]].
  - eapply resolvesShared_trans; [exact Hres1|].
    eapply resolvesShared_trans; apply resolvesShared_frame; eauto.
  - eapply resolvesShared_trans; [apply resolvesShared_frame; eauto|].
    eapply resolvesShared_trans; [exact Hres2|]. apply resolvesShared_frame; eauto.
  - eapply resolvesShared_trans; [apply resolvesShared_frame; eauto|].
    eapply resolvesShared_trans; [apply resolvesShared_frame; eauto|]. exact Hres3.
  - intros firewallItem Hin.
    apply (associatedFrom_frame DnsFirewallMap _ _ s1 s' [] new1 (new2 ++ new3));
      [congruence|by apply Hass1].
  - intros configItem Hin. destruct (Hass2 configItem Hin) as (c' & Hc' & Hass).
    assert (c' = c) as -> by congruence.
    pose proof (associatedFrom_frame QueryLogMap _ _ s2 s' new1 new2 new3 Hr2 Hass) as H.
    exact H.
  - intros ruleItem Hin.
    pose proof (associatedFrom_frame ResolverRuleMap _ _ s' s' (new1 ++ new2) new3 []
                  eq_refl (Hass3 ruleItem Hin)) as H.
    by rewrite app_nil_r, <- app_assoc in H.
Qed.

(** [createCentralNetworkAssociations], when it returns, has resolved and
    associated the shared resources of every VPC of the stack, with the
    delegated administrator account as their owner. *)
Lemma createCentralNetworkAssociations_resolves (E : Env) (s s' : Stack) :
  createCentralNetworkAssociations E s = Ok tt s' →
  ∀ c,
    NetworkConfig.centralNetworkServices (networkConfig E) = Some c →
    let owner := getAccountId E (CentralNetworkServicesConfig.delegatedAdminAccount c) in
    ∃ new,
      resolvesShared E FirewallRuleGroup DnsFirewallMap owner s s' new
      ∧ resolvesShared E QueryLogConfig QueryLogMap owner s s' new
      ∧ resolvesShared E ResolverRule ResolverRuleMap owner s s' new
      ∧ ∀ vpcItem,
          In vpcItem (NetworkConfig.allVpcs (networkConfig E)) →
          vpcInScope E vpcItem = true →
          vpcAssociated E c vpcItem s' new.
Proof.
  intros Hrun c Hc owner. unfold createCentralNetworkAssociations in Hrun. rewrite Hc in Hrun.
  fold owner in Hrun.
  set (R := fun s s' new =>
              resolvesShared E FirewallRuleGroup DnsFirewallMap owner s s' new
              ∧ resolvesShared E QueryLogConfig QueryLogMap owner s s' new
              ∧ resolvesShared E ResolverRule ResolverRuleMap owner s s' new).
  set (Q := fun vpcItem s' new => vpcInScope E vpcItem = true → vpcAssociated E c vpcItem s' new).
  apply (forM__runs R Q) in Hrun.
  - destruct Hrun as (new & (H1 & H2 & H3) & Hall).
    exists new. split; [done|]. split; [done|]. split; [done|].
    intros vpcItem Hin Hscope. by apply Hall.
  - intros s0. split; [|split]; apply resolvesShared_refl.
  - intros s0 s1 s2 new1 new2 (A1 & A2 & A3) (B1 & B2 & B3).
    split; [|split]; by eapply resolvesShared_trans.
  - intros vpcItem s0 s1 before new after HQ (A1 & A2 & A3) Hscope.
    destruct (HQ Hscope) as (Hdns & Hquery & Hrules).
    split; [|split]; intros item Hin;
      (eapply associatedFrom_grows; [|by eauto]); [apply A1|apply A2|apply A3].
  - intros vpcItem s0 s1 Hbody. cbv zeta in Hbody. fold (vpcInScope E vpcItem) in Hbody.
    subst Q. cbv beta. destruct (vpcInScope E vpcItem); simpl when in Hbody.
    + destruct (vpc_central_associations E c vpcItem owner s0 s1 Hc Hbody)
        as (new & A1 & A2 & A3 & HQ).
      exists new. split; [by split|done].
    + injection Hbody as <-. exists []. split; [|done].
      split; [|split]; apply resolvesShared_refl.
Qed.

(** In the owning account nothing is looked up in the resource share. *)
Ltac local_leaf :=
  idtac;
  lazymatch goal with
  | H : String.eqb ?x ?x = false |- _ => rewrite String.eqb_refl in H; discriminate H
  | |- preserves _ (emit _) => apply extends_emit; exact I
  | |- preserves _ (setEntry _ _ _) => apply extends_setEntry; exact I
  | |- preserves _ (modify _) => apply extends_modify_same_trace; intros []; reflexivity
  end.

Lemma owning_account_reads_local_keys (E : Env) (vpcItem : VpcItem) (t0 : list Event) :
  preserves (extends notShareLookup t0) (createDnsFirewallAssociations E vpcItem (account E))
  ∧ preserves (extends notShareLookup t0) (createQueryLogConfigAssociations E vpcItem (account E))
  ∧ preserves (extends notShareLookup t0) (createResolverRuleAssociations E vpcItem (account E)).
Proof. repeat split; solve [repeat preserves_step local_leaf]. Qed.

Lemma setNfwPolicyMap_reads_local_keys (E : Env) (s : Stack) :
  (∀ c, NetworkConfig.centralNetworkServices (networkConfig E) = Some c →
        getAccountId E (CentralNetworkServicesConfig.delegatedAdminAccount c) = account E) →
  extends notShareLookup (trace s) (final (setNfwPolicyMap E s)).
Proof.
  intros Howner. unfold setNfwPolicyMap.
  destruct (NetworkConfig.centralNetworkServices (networkConfig E)) as [c|];
    [|apply extends_refl].
  rewrite (Howner c eq_refl).
  destruct (CentralNetworkServicesConfig.firewalls c) as [firewalls|]; [|apply extends_refl].
  lazymatch goal with
  | |- extends _ _ (final (?m s)) =>
      assert (Hp : preserves (extends notShareLookup (trace s)) m)
        by (solve [repeat preserves_step local_leaf])
  end.
  apply Hp, extends_refl.
Qed.

(** C7: the identifiers of shared resources are resolved on a branch of their
    own: from the local key when the stack is in the owning account, and
    from the resource share, looked up by share name and resource type,
    otherwise; never by a remote fetch.
    - Whatever they do, the three association methods add to their maps only
      such identifiers, every entry of the network firewall policy map is
      one, and none of the four methods performs a remote fetch; in the
      owning account none of them queries the resource share.
    - When one of the three association methods returns, every rule group,
      query log configuration or resolver rule of the VPC has an entry in
      the map and an association created on the identifier of that entry;
      the map has lost or changed no entry, and every entry it has gained is
      the shared identifier of its name and, outside the owning account, has
      been looked up in the resource share.
    - [setNfwPolicyMap] returns, and its map holds, for every firewall of a
      VPC of the stack, the shared identifier of the policy of the firewall,
      looked up in the resource share outside the owning account.
    - When [createCentralNetworkAssociations] returns, all this holds of
      every VPC of the stack, with the delegated administrator account as
      the owner. *)
Theorem shared_resources_resolution (E : Env) :
  (∀ vpcItem owner s,
     resolvedAsShared E FirewallRuleGroup owner (dnsFirewallMap s)
       (dnsFirewallMap (final (createDnsFirewallAssociations E vpcItem owner s)))
     ∧ extends notRemoteFetch (trace s) (final (createDnsFirewallAssociations E vpcItem owner s)))
  ∧ (∀ vpcItem owner s,
       resolvedAsShared E QueryLogConfig owner (queryLogMap s)
         (queryLogMap (final (createQueryLogConfigAssociations E vpcItem owner s)))
       ∧ extends notRemoteFetch (trace s)
           (final (createQueryLogConfigAssociations E vpcItem owner s)))
  ∧ (∀ vpcItem owner s,
       resolvedAsShared E ResolverRule owner (resolverRuleMap s)
         (resolverRuleMap (final (createResolverRuleAssociations E vpcItem owner s)))
       ∧ extends notRemoteFetch (trace s)
           (final (createResolverRuleAssociations E vpcItem owner s)))
  ∧ (∀ s,
       (∀ policyMap s' name v,
          setNfwPolicyMap E s = Ok policyMap s' →
          policyMap !! name = Some v →
          ∃ c, NetworkConfig.centralNetworkServices (networkConfig E) = Some c
               ∧ v = sharedIdentifier E FirewallPolicy
                       (getAccountId E (CentralNetworkServicesConfig.delegatedAdminAccount c)) name)
       ∧ extends notRemoteFetch (trace s) (final (setNfwPolicyMap E s)))
  ∧ (∀ vpcItem s,
       extends notShareLookup (trace s)
         (final (createDnsFirewallAssociations E vpcItem (account E) s))
       ∧ extends notShareLookup (trace s)
           (final (createQueryLogConfigAssociations E vpcItem (account E) s))
       ∧ extends notShareLookup (trace s)
           (final (createResolverRuleAssociations E vpcItem (account E) s)))
  ∧ (∀ s,
       (∀ c, NetworkConfig.centralNetworkServices (networkConfig E) = Some c →
             getAccountId E (CentralNetworkServicesConfig.delegatedAdminAccount c) = account E) →
       extends notShareLookup (trace s) (final (setNfwPolicyMap E s)))
  ∧ (∀ vpcItem owner s s',
       createDnsFirewallAssociations E vpcItem owner s = Ok tt s' →
       ∃ new,
         resolvesShared E FirewallRuleGroup DnsFirewallMap owner s s' new
         ∧ ∀ firewallItem,
             In firewallItem (VpcItem.dnsFirewallRuleGroups vpcItem) →
             associatedFrom DnsFirewallMap [VpcDnsFirewallAssociationConfig.name firewallItem]
               (ruleGroupAssociation E vpcItem firewallItem) s' new)
  ∧ (∀ vpcItem owner s s',
       createQueryLogConfigAssociations E vpcItem owner s = Ok tt s' →
       ∃ new,
         resolvesShared E QueryLogConfig QueryLogMap owner s s' new
         ∧ ∀ configItem,
             In configItem (VpcItem.queryLogs vpcItem) →
             ∃ centralNetworkConfig,
               NetworkConfig.centralNetworkServices (networkConfig E) = Some centralNetworkConfig
               ∧ associatedFrom QueryLogMap (queryLogConfigNames centralNetworkConfig configItem)
                   (queryLogAssociation E vpcItem) s' new)
  ∧ (∀ vpcItem owner s s',
       createResolverRuleAssociations E vpcItem owner s = Ok tt s' →
       ∃ new,
         resolvesShared E ResolverRule ResolverRuleMap owner s s' new
         ∧ ∀ ruleItem,
             In ruleItem (VpcItem.resolverRules vpcItem) →
             associatedFrom ResolverRuleMap [ruleItem] (resolverRuleAssociation E vpcItem) s' new)
  ∧ (∀ s,
       ∃ policyMap s' new,
         setNfwPolicyMap E s = Ok policyMap s'
         ∧ trace s' = trace s ++ new
         ∧ ∀ centralNetworkServices firewalls vpcItem firewallItem,
             NetworkConfig.centralNetworkServices (networkConfig E) = Some centralNetworkServices →
             CentralNetworkServicesConfig.firewalls centralNetworkServices = Some firewalls →
             In vpcItem (NetworkConfig.allVpcs (networkConfig E)) →
             vpcInScope E vpcItem = true →
             In firewallItem firewalls →
             NfwFirewallConfig.vpc firewallItem = VpcItem.name vpcItem →
             let owner :=
               getAccountId E
                 (CentralNetworkServicesConfig.delegatedAdminAccount centralNetworkServices) in
             let policy := NfwFirewallConfig.firewallPolicy firewallItem in
             policyMap !! policy = Some (sharedIdentifier E FirewallPolicy owner policy)
             ∧ (owner ≠ account E →
                In (ResourceShareLookup (shareName FirewallPolicy policy)
                      (resourceType FirewallPolicy) owner) new))
  ∧ (∀ s s' c,
       createCentralNetworkAssociations E s = Ok tt s' →
       NetworkConfig.centralNetworkServices (networkConfig E) = Some c →
       let owner := getAccountId E (CentralNetworkServicesConfig.delegatedAdminAccount c) in
       ∃ new,
         resolvesShared E FirewallRuleGroup DnsFirewallMap owner s s' new
         ∧ resolvesShared E QueryLogConfig QueryLogMap owner s s' new
         ∧ resolvesShared E ResolverRule ResolverRuleMap owner s s' new
         ∧ ∀ vpcItem,
             In vpcItem (NetworkConfig.allVpcs (networkConfig E)) →
             vpcInScope E vpcItem = true →
             vpcAssociated E c vpcItem s' new).
Proof.
  split; [intros vpcItem owner s; split|].
  { apply (createDnsFirewallAssociations_shared E vpcItem owner (dnsFirewallMap s) s).
    apply resolvedAsShared_refl. }
  { assert (Hp : preserves (extends notRemoteFetch (trace s))
                   (createDnsFirewallAssociations E vpcItem owner)) by solve_extends.
    apply Hp, extends_refl. }
  split; [intros vpcItem owner s; split|].
  { apply (createQueryLogConfigAssociations_shared E vpcItem owner (queryLogMap s) s).
    apply resolvedAsShared_refl. }
  { assert (Hp : preserves (extends notRemoteFetch (trace s))
                   (createQueryLogConfigAssociations E vpcItem owner)) by solve_extends.
    apply Hp, extends_refl. }
  split; [intros vpcItem owner s; split|].
  { apply (createResolverRuleAssociations_shared E vpcItem owner (resolverRuleMap s) s).
    apply resolvedAsShared_refl. }
  { assert (Hp : preserves (extends notRemoteFetch (trace s))
                   (createResolverRuleAssociations E vpcItem owner)) by solve_extends.
    apply Hp, extends_refl. }
  split; [intros s; split|].
  { intros policyMap s' name v Hrun Hv. by eapply setNfwPolicyMap_shared. }
  { assert (Hp : preserves (extends notRemoteFetch (trace s)) (setNfwPolicyMap E))
      by solve_extends.
    apply Hp, extends_refl. }
  split.
  { intros vpcItem s.
    destruct (owning_account_reads_local_keys E vpcItem (trace s)) as (Hd & Hq & Hr).
    split; [apply Hd, extends_refl|]. split; [apply Hq, extends_refl|apply Hr, extends_refl]. }
  split; [intros s Howner; by apply setNfwPolicyMap_reads_local_keys|].
  split; [intros; by apply createDnsFirewallAssociations_resolves|].
  split; [intros; by apply createQueryLogConfigAssociations_resolves|].
  split; [intros; by apply createResolverRuleAssociations_resolves|].
  split; [apply setNfwPolicyMap_resolves|].
  intros s s' c Hrun Hc. by apply createCentralNetworkAssociations_resolves.
Qed.

(** On the sample, in the account of the workload, the rule group is looked
    up in the share of the Network account and associated on the identifier
    of the share. *)
Lemma shared_resources_resolution_witness :
  let s' := final (createCentralNetworkAssociations Sample.centralServices newStack) in
  In (ResourceShareLookup "block-list_ResolverFirewallRuleGroupShare"
        "route53resolver:FirewallRuleGroup" "111111111111") (trace s')
  ∧ In (ResolverFirewallRuleGroupAssociation "Workload-Mainblock-listRuleGroupAssociation"
          "share:111111111111:block-list_ResolverFirewallRuleGroupShare" 101
          "ssm:/accelerator/network/vpc/Workload-Main/id" false) (trace s').
Proof.
  cbv zeta.
  destruct (NetworkConfig.centralNetworkServices (networkConfig Sample.centralServices))
    as [c|] eqn:Hc; [|discriminate].
  assert (Hrun : createCentralNetworkAssociations Sample.centralServices newStack
                 = Ok tt (final (createCentralNetworkAssociations Sample.centralServices newStack)))
    by (vm_compute; reflexivity).
  destruct (proj2 (proj2 (proj2 (proj2 (proj2 (proj2 (proj2 (proj2 (proj2 (proj2
              (shared_resources_resolution Sample.centralServices))))))))))
              newStack _ c Hrun Hc)
    as (new & (_ & Htrace & Hnew) & _ & _ & Hvpcs).
  rewrite Htrace. change (trace newStack) with (@nil Event). rewrite app_nil_l.
  injection Hc as <-.
  destruct (Hvpcs (IsVpc _) (or_introl eq_refl) eq_refl) as (Hdns & _ & _).
  destruct (Hdns _ (or_introl eq_refl) _ (or_introl eq_refl)) as (id & Hid & Huse).
  destruct (Hnew _ _ eq_refl Hid) as [-> Hlookup].
  split; [apply Hlookup; discriminate|exact Huse].
Defined.

(** * Attachments are read from the map *)

Lemma readsFrom_refl (s : Stack) : readsFrom (transitGatewayAttachments s) (trace s) s.
Proof. split; [done|apply extends_refl]. Qed.

Lemma readsFrom_emit (m0 : gmap string string) (t0 : list Event) (e : Event) (s : Stack) :
  fromAttachmentsMap m0 e → readsFrom m0 t0 s → readsFrom m0 t0 (final (emit e s)).
Proof.
  intros He [Hm Hext]. split; [|by apply extends_emit].
  by destruct (emit_final e s) as [-> | ->].
Qed.

Lemma readsAttachments_intro (m : M unit) :
  (∀ m0 t0, preserves (readsFrom m0 t0) m) → readsAttachments m.
Proof. intros H s. apply H, readsFrom_refl. Qed.

(** What a completed step tells about its result. *)
Ltac invert_run Heq :=
  lazymatch type of Heq with
  | getMap _ _ _ = Ok _ _ => unfold getMap in Heq; injection Heq as <- <-
  | get _ = Ok _ _ => injection Heq as <- <-
  | ret _ _ = Ok _ _ => injection Heq as <- <-
  | emit _ _ = Ok _ _ => apply emit_Ok in Heq; subst
  | orThrow _ _ _ = Ok _ _ =>
      let Hne := fresh "Hne" in
      apply orThrow_Ok in Heq as (Heq & Hne & ->)
  | _ => idtac
  end.

(** Pointwise, syntax-directed proof of [P (final (m s))] from [P s], for an
    invariant [P] given by name; [leaf] proves the steps that change the
    stack, with what the steps before them have read at hand. *)
Ltac pointwise_step leaf :=
  cbv beta zeta;
  lazymatch goal with
  | |- _ (final (ret _ _)) => assumption
  | |- _ (final (throw _ _)) => assumption
  | |- _ (final (get _)) => assumption
  | |- _ (final (getMap _ _ _)) => assumption
  | |- ?P (final (orThrow ?x ?e ?s)) => apply (preserves_orThrow P x e s); assumption
  | |- _ (final (emit _ _)) => leaf
  | |- _ (final (setEntry _ _ _ _)) => leaf
  | |- _ (final (bind _ _ _)) =>
      apply preserves_bind_at;
      [|let a := fresh "a" in
        let s' := fresh "s" in
        let Heq := fresh "Heq" in
        let Hs' := fresh "Hs" in
        intros a s' Heq Hs'; invert_run Heq]
  | |- _ (final (when ?c _ _)) =>
      destruct c eqn:?; [unfold when at 1; cbv iota|assumption]
  | |- ?P (final (forM_ ?xs ?body ?s)) =>
      apply (preserves_forM_ P xs body); [|assumption];
      let x := fresh "x" in
      let s' := fresh "s" in
      let Hs' := fresh "Hs" in
      intros x _ s' Hs'
  | |- _ (final ((if ?c then _ else _) _)) => destruct c eqn:?
  | |- _ (final ((match ?x with _ => _ end) _)) => destruct x eqn:?
  | |- _ (final (?m _)) => let h := head_of m in unfold h
  end.

(** A request refers to an attachment that was read from the map. *)
Ltac reads_leaf :=
  idtac;
  lazymatch goal with
  | |- readsFrom _ _ (final (emit _ _)) =>
      apply readsFrom_emit; [|assumption];
      let a := fresh "a" in
      let Ha := fresh "Ha" in
      intros a Ha; simpl in Ha; simpl readMap in *;
      repeat match goal with
             | Hs : readsFrom ?m0 _ ?s, H : context [transitGatewayAttachments ?s] |- _ =>
                 rewrite (proj1 Hs) in H
             end;
      first [discriminate Ha
            |injection Ha as <-; eexists; eassumption
            |eexists; eassumption]
  end.

Ltac solve_reads :=
  let m0 := fresh "m0" in
  let t0 := fresh "t0" in
  let s := fresh "s" in
  let Hs := fresh "Hs" in
  apply readsAttachments_intro; intros m0 t0 s Hs;
  solve [repeat pointwise_step reads_leaf].

Lemma createVpcTransitGatewayAssociations_reads (E : Env) (vpcItem : VpcItem) :
  readsAttachments (createVpcTransitGatewayAssociations E vpcItem).
Proof. solve_reads. Qed.

Lemma createVpcTransitGatewayPropagations_reads (E : Env) (vpcItem : VpcItem) :
  readsAttachments (createVpcTransitGatewayPropagations E vpcItem).
Proof. solve_reads. Qed.

Lemma createVpnTransitGatewayAssociations_reads
    (E : Env) (cgwItem : CustomerGatewayConfig.t) (vpnItem : VpnConnectionConfig.t) :
  readsAttachments (createVpnTransitGatewayAssociations E cgwItem vpnItem).
Proof. solve_reads. Qed.

Lemma createVpnTransitGatewayPropagations_reads
    (E : Env) (cgwItem : CustomerGatewayConfig.t) (vpnItem : VpnConnectionConfig.t) :
  readsAttachments (createVpnTransitGatewayPropagations E cgwItem vpnItem).
Proof. solve_reads. Qed.

Lemma createDxTgwRouteTableAssociations_reads
    (E : Env) (dxgwItem : DxGatewayConfig.t) (tgw : TransitGatewayConfig.t)
    (tgwRouteTableName tgwAccountId : string) :
  readsAttachments (createDxTgwRouteTableAssociations E dxgwItem tgw tgwRouteTableName tgwAccountId).
Proof. solve_reads. Qed.

Lemma createDxTgwRouteTablePropagations_reads
    (E : Env) (dxgwItem : DxGatewayConfig.t) (tgw : TransitGatewayConfig.t)
    (tgwRouteTableName tgwAccountId : string) :
  readsAttachments (createDxTgwRouteTablePropagations E dxgwItem tgw tgwRouteTableName tgwAccountId).
Proof. solve_reads. Qed.

Lemma createTransitGatewayStaticRouteItem_reads
    (E : Env) (tgwItem : TransitGatewayConfig.t)
    (routeTableItem : TransitGatewayRouteTableConfig.t)
    (routeItem : TransitGatewayRouteEntryConfig.t) (transitGatewayRouteTableId : string) :
  (∀ name, TransitGatewayRouteEntryConfig.attachment routeItem ≠ Some (TgwPeeringEntry name)) →
  readsAttachments (createTransitGatewayStaticRouteItem E tgwItem routeTableItem routeItem
                      transitGatewayRouteTableId).
Proof.
  intros Hshape. apply readsAttachments_intro. intros m0 t0 s Hs.
  unfold createTransitGatewayStaticRouteItem.
  destruct (TransitGatewayRouteEntryConfig.attachment routeItem) as [[| | |name]|] eqn:Hatt;
    [..|by destruct (Hshape name)|];
    unfold routeAttachmentId; solve [repeat pointwise_step reads_leaf].
Qed.

(** The attachments that the association and propagation loops of a VPC
    visit: the VPC is in the region of the stack, the transit gateway of the
    attachment belongs to the account of the stack, and the owning account is
    not excluded. *)
Lemma vpc_attachment_absent_key
    (E : Env) (vpcItem : VpcItem) (tgwAttachmentItem : TransitGatewayAttachmentConfig.t)
    (owningAccount : string) (s : Stack) :
  String.eqb (VpcItem.region vpcItem) (region E) = true →
  In tgwAttachmentItem (VpcItem.transitGatewayAttachments vpcItem) →
  String.eqb
    (getAccountId E (TransitGatewayAttachmentTargetConfig.account
                       (TransitGatewayAttachmentConfig.transitGateway tgwAttachmentItem)))
    (account E) = true →
  In owningAccount (fst (getTransitGatewayAttachmentAccounts E vpcItem)) →
  includes (snd (getTransitGatewayAttachmentAccounts E vpcItem)) (getAccountId E owningAccount)
  = false →
  truthy (transitGatewayAttachments s !! attachmentKey owningAccount (VpcItem.name vpcItem))
  = false →
  is_Some (threw (createVpcTransitGatewayAssociations E vpcItem s))
  ∧ is_Some (threw (createVpcTransitGatewayPropagations E vpcItem s)).
Proof.
  intros Hregion Hatt Hacct Howner Hexcl Hkey.
  unfold createVpcTransitGatewayAssociations, createVpcTransitGatewayPropagations.
  destruct (getTransitGatewayAttachmentAccounts E vpcItem) as [accountNames excluded].
  simpl in Howner, Hexcl. rewrite Hregion. unfold when at 1 3. cbv iota.
  split.
  - apply (forM__throws (fun s' => transitGatewayAttachments s' = transitGatewayAttachments s)
             _ _ tgwAttachmentItem); [done| |..|done].
    { intros y. solve_untouched. }
    intros s1 Hs1. cbv zeta. rewrite Hacct. unfold when at 1. cbv iota.
    apply (forM__throws (fun s' => transitGatewayAttachments s' = transitGatewayAttachments s)
             _ _ owningAccount); [done| |..|done].
    { intros y. solve_untouched. }
    intros s2 Hs2. cbv zeta. rewrite Hexcl. unfold bind at 1, getMap. simpl readMap.
    unfold bind at 1. rewrite Hs2, (orThrow_missing _ _ _ Hkey). by eexists.
  - apply (forM__throws (fun s' => transitGatewayAttachments s' = transitGatewayAttachments s)
             _ _ tgwAttachmentItem); [done| |..|done].
    { intros y. solve_untouched. }
    intros s1 Hs1. cbv zeta. rewrite Hacct. unfold when at 1. cbv iota.
    apply (forM__throws (fun s' => transitGatewayAttachments s' = transitGatewayAttachments s)
             _ _ owningAccount); [done| |..|done].
    { intros y. solve_untouched. }
    intros s2 Hs2. cbv zeta. rewrite Hexcl. unfold bind at 1, getMap. simpl readMap.
    unfold bind at 1. rewrite Hs2, (orThrow_missing _ _ _ Hkey). by eexists.
Qed.

(** The same for the attachment of a VPN connection of the stack. *)
Lemma vpn_attachment_absent_key
    (E : Env) (cgwItem : CustomerGatewayConfig.t) (vpnItem : VpnConnectionConfig.t) (s : Stack) :
  let key := VpnConnectionConfig.name vpnItem +:+ "_"
             +:+ str (VpnConnectionConfig.transitGateway vpnItem) in
  let e := Error ("Transit Gateway attachment " +:+ key +:+ " not found") in
  String.eqb (getAccountId E (CustomerGatewayConfig.account cgwItem)) (account E)
  && String.eqb (CustomerGatewayConfig.region cgwItem) (region E) = true →
  truthy (transitGatewayAttachments s !! key) = false →
  (is_Some (VpnConnectionConfig.routeTableAssociations vpnItem) →
   createVpnTransitGatewayAssociations E cgwItem vpnItem s = Throw e s)
  ∧ (is_Some (VpnConnectionConfig.routeTablePropagations vpnItem) →
     createVpnTransitGatewayPropagations E cgwItem vpnItem s = Throw e s).
Proof.
  intros key e Hscope Hkey. subst key e. split.
  - intros [l Hl]. unfold createVpnTransitGatewayAssociations. cbv zeta.
    rewrite Hl, Hscope. unfold when, bind, getMap. simpl readMap.
    by rewrite (orThrow_missing _ _ _ Hkey).
  - intros [l Hl]. unfold createVpnTransitGatewayPropagations. cbv zeta.
    rewrite Hl, Hscope. unfold when, bind, getMap. simpl readMap.
    by rewrite (orThrow_missing _ _ _ Hkey).
Qed.

(** C2, as the code has it: every route table association and propagation
    (of VPC, VPN and Direct Connect attachments), and every static route or
    prefix list reference whose attachment is not a transit gateway peering,
    refers to an attachment identifier that the attachments map holds when
    the request is made; the methods that make the requests do not write to
    the map. A VPC attachment that the association and propagation loops
    visit and whose key has no identifier in the map makes both methods
    throw, and so do the attachment of a VPN connection and of a Direct
    Connect gateway of the stack. The identifier of a peering attachment is
    not read from the map. *)
Theorem attachments_read_from_map (E : Env) :
  (∀ vpcItem, readsAttachments (createVpcTransitGatewayAssociations E vpcItem))
  ∧ (∀ vpcItem, readsAttachments (createVpcTransitGatewayPropagations E vpcItem))
  ∧ (∀ cgwItem vpnItem, readsAttachments (createVpnTransitGatewayAssociations E cgwItem vpnItem))
  ∧ (∀ cgwItem vpnItem, readsAttachments (createVpnTransitGatewayPropagations E cgwItem vpnItem))
  ∧ (∀ dxgwItem tgw tgwRouteTableName tgwAccountId,
       readsAttachments
         (createDxTgwRouteTableAssociations E dxgwItem tgw tgwRouteTableName tgwAccountId))
  ∧ (∀ dxgwItem tgw tgwRouteTableName tgwAccountId,
       readsAttachments
         (createDxTgwRouteTablePropagations E dxgwItem tgw tgwRouteTableName tgwAccountId))
  ∧ (∀ tgwItem routeTableItem routeItem transitGatewayRouteTableId,
       (∀ name, TransitGatewayRouteEntryConfig.attachment routeItem ≠ Some (TgwPeeringEntry name)) →
       readsAttachments
         (createTransitGatewayStaticRouteItem E tgwItem routeTableItem routeItem
            transitGatewayRouteTableId))
  ∧ (∀ vpcItem tgwAttachmentItem owningAccount s,
       String.eqb (VpcItem.region vpcItem) (region E) = true →
       In tgwAttachmentItem (VpcItem.transitGatewayAttachments vpcItem) →
       String.eqb
         (getAccountId E (TransitGatewayAttachmentTargetConfig.account
                            (TransitGatewayAttachmentConfig.transitGateway tgwAttachmentItem)))
         (account E) = true →
       In owningAccount (fst (getTransitGatewayAttachmentAccounts E vpcItem)) →
       includes (snd (getTransitGatewayAttachmentAccounts E vpcItem)) (getAccountId E owningAccount)
       = false →
       truthy (transitGatewayAttachments s !! attachmentKey owningAccount (VpcItem.name vpcItem))
       = false →
       is_Some (threw (createVpcTransitGatewayAssociations E vpcItem s))
       ∧ is_Some (threw (createVpcTransitGatewayPropagations E vpcItem s)))
  ∧ (∀ cgwItem vpnItem s,
       String.eqb (getAccountId E (CustomerGatewayConfig.account cgwItem)) (account E)
       && String.eqb (CustomerGatewayConfig.region cgwItem) (region E) = true →
       truthy (transitGatewayAttachments s
                 !! (VpnConnectionConfig.name vpnItem +:+ "_"
                     +:+ str (VpnConnectionConfig.transitGateway vpnItem))) = false →
       (is_Some (VpnConnectionConfig.routeTableAssociations vpnItem) →
        is_Some (threw (createVpnTransitGatewayAssociations E cgwItem vpnItem s)))
       ∧ (is_Some (VpnConnectionConfig.routeTablePropagations vpnItem) →
          is_Some (threw (createVpnTransitGatewayPropagations E cgwItem vpnItem s))))
  ∧ (∀ dxgwItem tgw tgwRouteTableName tgwAccountId s,
       tgwInScope E tgw tgwAccountId = true →
       truthy (transitGatewayAttachments s !! dxAttachmentKey dxgwItem tgw) = false →
       is_Some (threw (createDxTgwRouteTableAssociations E dxgwItem tgw tgwRouteTableName
                         tgwAccountId s))
       ∧ is_Some (threw (createDxTgwRouteTablePropagations E dxgwItem tgw tgwRouteTableName
                           tgwAccountId s))).
Proof.
  split; [apply createVpcTransitGatewayAssociations_reads|].
  split; [apply createVpcTransitGatewayPropagations_reads|].
  split; [apply createVpnTransitGatewayAssociations_reads|].
  split; [apply createVpnTransitGatewayPropagations_reads|].
  split; [apply createDxTgwRouteTableAssociations_reads|].
  split; [apply createDxTgwRouteTablePropagations_reads|].
  split; [apply createTransitGatewayStaticRouteItem_reads|].
  split; [apply vpc_attachment_absent_key|].
  split.
  - intros cgwItem vpnItem s Hscope Hkey.
    destruct (vpn_attachment_absent_key E cgwItem vpnItem s Hscope Hkey) as [Ha Hp].
    split; intros Hsome; [rewrite (Ha Hsome)|rewrite (Hp Hsome)]; by eexists.
  - intros dxgwItem tgw tgwRouteTableName tgwAccountId s Hscope Hkey.
    destruct (dx_attachment_absent_key E dxgwItem tgw tgwRouteTableName tgwAccountId s
                Hscope Hkey) as [Ha Hp].
    rewrite Ha, Hp. split; by eexists.
Qed.

(** The static route to the peering is created on the identifier that
    [getTgwPeeringAttachmentId] reads from the parameter of the peering,
    while the attachments map is empty. *)
Lemma peering_route_not_from_map :
  ¬ readsAttachments
      (createTransitGatewayStaticRouteItem Sample.routeToPeering
         (Sample.mainTgw [Sample.peeringRoute]) (Sample.coreRouteTable [Sample.peeringRoute])
         Sample.peeringRoute "tgw-rtb-core").
Proof.
  intros H. destruct (H newStack) as [_ (new & Hnew & Hall)].
  vm_compute in Hnew. subst new.
  apply Forall_inv in Hall. destruct (Hall _ eq_refl) as [k Hk].
  change (transitGatewayAttachments newStack) with (∅ : gmap string string) in Hk.
  by rewrite lookup_empty in Hk.
Qed.

(** * Cached resolutions *)

Lemma writesTo_app (m : MapName) (t1 t2 : list Event) :
  writesTo m (t1 ++ t2) = writesTo m t1 ++ writesTo m t2.
Proof. unfold writesTo. apply omap_app. Qed.

Lemma cached_refl (m : MapName) (s : Stack) : cached m (readMap m s) (trace s) s.
Proof.
  split; [done|]. exists []. rewrite app_nil_r. split; [done|].
  split; [constructor|]. split; [|constructor].
  intros k v Hin. by apply elem_of_nil in Hin.
Qed.

Lemma cached_emit (m : MapName) (m0 : gmap string string) (t0 : list Event) (e : Event)
    (s : Stack) :
  match e with SetEntry _ _ _ => False | _ => True end →
  (∀ id, consumedFrom m e = Some id → ∃ k, readMap m s !! k = Some id) →
  cached m m0 t0 s → cached m m0 t0 (final (emit e s)).
Proof.
  intros Hkind He Hs.
  destruct (emit_final e s) as [-> | ->]; [done|].
  destruct Hs as (Hsub & new & Hnew & Honce & Hwrites & Hall).
  assert (Hmap : readMap m (with_trace (trace s ++ [e]) s) = readMap m s) by (by destruct m).
  unfold cached. rewrite Hmap. split; [done|].
  exists (new ++ [e]). simpl. rewrite Hnew, app_assoc. split; [done|].
  assert (Hw : writesTo m (new ++ [e]) = writesTo m new).
  { rewrite writesTo_app. destruct e; try done; simpl; by rewrite app_nil_r. }
  unfold populatedOnce. rewrite Hw. split; [done|]. split; [done|].
  apply Forall_app. split; [done|]. by constructor.
Qed.

Lemma cached_setEntry_other (m n : MapName) (m0 : gmap string string) (t0 : list Event)
    (k v : string) (s : Stack) :
  n ≠ m → cached m m0 t0 s → cached m m0 t0 (final (setEntry n k v s)).
Proof.
  intros Hne (Hsub & new & Hnew & Honce & Hwrites & Hall).
  assert (Hmap : readMap m (final (setEntry n k v s)) = readMap m s).
  { simpl. rewrite readMap_writeMap. by case_decide. }
  unfold cached. rewrite Hmap. split; [done|].
  exists (new ++ [SetEntry n k v]). simpl. rewrite Hnew, app_assoc. split; [done|].
  assert (Hw : writesTo m (new ++ [SetEntry n k v]) = writesTo m new).
  { rewrite writesTo_app. simpl. case_decide; [done|]. by rewrite app_nil_r. }
  unfold populatedOnce. rewrite Hw. split; [done|]. split; [done|].
  apply Forall_app. split; [done|]. constructor; [|constructor].
  intros id. by destruct m.
Qed.

Lemma cached_setEntry_fresh (m : MapName) (m0 : gmap string string) (t0 : list Event)
    (k v : string) (s : Stack) :
  readMap m s !! k = None → cached m m0 t0 s → cached m m0 t0 (final (setEntry m k v s)).
Proof.
  intros Hfresh (Hsub & new & Hnew & Honce & Hwrites & Hall).
  assert (Hmap : readMap m (final (setEntry m k v s)) = <[k:=v]> (readMap m s)).
  { simpl. rewrite readMap_writeMap. by case_decide. }
  unfold cached. rewrite Hmap. split.
  { apply insert_subseteq_r; [|done]. by eapply lookup_weaken_None. }
  exists (new ++ [SetEntry m k v]). simpl. rewrite Hnew, app_assoc. split; [done|].
  assert (Hw : writesTo m (new ++ [SetEntry m k v]) = writesTo m new ++ [(k, v)]).
  { rewrite writesTo_app. simpl. by case_decide. }
  unfold populatedOnce. rewrite Hw. split; [|split].
  - rewrite fmap_app. apply NoDup_app. split; [done|]. split; [|apply NoDup_singleton].
    intros k' Hk' Hin. apply list_elem_of_singleton in Hin. simpl in Hin. subst k'.
    apply list_elem_of_fmap in Hk' as ([k' v'] & -> & Hin). simpl in Hfresh.
    destruct (Hwrites _ _ Hin) as [_ Hv']. simpl in Hv'. congruence.
  - intros k' v' Hin. apply elem_of_app in Hin as [Hin|Hin].
    + destruct (Hwrites _ _ Hin) as [Hk0 Hv']. split; [done|].
      rewrite lookup_insert_ne; [done|]. intros <-. congruence.
    + apply list_elem_of_singleton in Hin. injection Hin as -> ->. split.
      * by eapply lookup_weaken_None.
      * by rewrite lookup_insert_eq.
  - apply Forall_app. split.
    + eapply Forall_impl; [exact Hall|]. intros e He id Hid.
      destruct (He id Hid) as [k' Hk']. exists k'.
      rewrite lookup_insert_ne; [done|]. intros <-. congruence.
    + constructor; [|constructor]. intros id. by destruct m.
Qed.

Lemma cachesResolutions_intro (m : MapName) (c : M unit) :
  (∀ m0 t0, preserves (cached m m0 t0) c) → cachesResolutions m c.
Proof. intros H s. apply H, cached_refl. Qed.

(** A write happens under the guard [!map.has(key)]; an association consumes
    what was just read from the map. *)
Ltac cached_leaf :=
  idtac;
  lazymatch goal with
  | |- cached ?m _ _ (final (emit _ _)) =>
      apply cached_emit; [exact I| |assumption];
      let id := fresh "id" in
      let Hid := fresh "Hid" in
      intros id Hid; simpl in Hid; simpl readMap in *;
      first [discriminate Hid
            |injection Hid as <-; eexists; eassumption
            |eexists; eassumption]
  | |- cached ?m _ _ (final (setEntry ?m _ _ _)) =>
      apply cached_setEntry_fresh; [|assumption];
      simpl; apply has_false; apply negb_true_iff; assumption
  | |- cached _ _ _ (final (setEntry _ _ _ _)) =>
      apply cached_setEntry_other; [discriminate|assumption]
  end.

Ltac solve_cached :=
  let m0 := fresh "m0" in
  let t0 := fresh "t0" in
  let s := fresh "s" in
  let Hs := fresh "Hs" in
  apply cachesResolutions_intro; intros m0 t0 s Hs;
  solve [repeat pointwise_step cached_leaf].

Lemma createDnsFirewallAssociations_cached (E : Env) (vpcItem : VpcItem) (owner : string) :
  cachesResolutions DnsFirewallMap (createDnsFirewallAssociations E vpcItem owner).
Proof. solve_cached. Qed.

Lemma createQueryLogConfigAssociations_cached (E : Env) (vpcItem : VpcItem) (owner : string) :
  cachesResolutions QueryLogMap (createQueryLogConfigAssociations E vpcItem owner).
Proof. solve_cached. Qed.

Lemma createResolverRuleAssociations_cached (E : Env) (vpcItem : VpcItem) (owner : string) :
  cachesResolutions ResolverRuleMap (createResolverRuleAssociations E vpcItem owner).
Proof. solve_cached. Qed.

(** The maps of DNS firewall rule groups, query log configurations and
    resolver rules are populated at most once per key. Over a run of the
    central network associations of all VPCs of the stack, and over each of
    the three association methods, no entry that the map held is changed,
    each key is written at most once and only when the map did not hold it,
    and every association consumes the value of an entry of the map. *)
Theorem resolver_maps_cached (E : Env) :
  (∀ vpcItem owner,
     cachesResolutions DnsFirewallMap (createDnsFirewallAssociations E vpcItem owner))
  ∧ (∀ vpcItem owner,
       cachesResolutions QueryLogMap (createQueryLogConfigAssociations E vpcItem owner))
  ∧ (∀ vpcItem owner,
       cachesResolutions ResolverRuleMap (createResolverRuleAssociations E vpcItem owner))
  ∧ cachesResolutions DnsFirewallMap (createCentralNetworkAssociations E)
  ∧ cachesResolutions QueryLogMap (createCentralNetworkAssociations E)
  ∧ cachesResolutions ResolverRuleMap (createCentralNetworkAssociations E).
Proof.
  split; [apply createDnsFirewallAssociations_cached|].
  split; [apply createQueryLogConfigAssociations_cached|].
  split; [apply createResolverRuleAssociations_cached|].
  split; [solve_cached|]. split; solve_cached.
Qed.

(** C6: each per-scope map is meant to be populated at most once per key,
    so that resolving the same name twice gives the same identifier. The
    attachments map is written without a guard, under a key made of the
    owning account and the VPC only: every attachment of a VPC is written
    under the one key of the VPC. In the run of the constructor for a VPC
    attached to two transit gateways of the stack the key is written twice,
    the identifier of the second attachment replaces that of the first, and
    the association and the propagation of the first attachment, on the
    route table of the first transit gateway, are created on the identifier
    of the second attachment; nothing is created on the identifier of the
    first. The constructor returns. *)
Theorem attachment_entry_overwritten :
  let run := construct Sample.twoAttachments newStack in
  threw run = None
  ∧ writesTo TransitGatewayAttachments (trace (final run))
    = [ ("Workload_Workload-Main", "tgw-attach:222222222222:Main-Attach");
        ("Workload_Workload-Main", "tgw-attach:222222222222:Inspection-Attach") ]
  ∧ ¬ populatedOnce TransitGatewayAttachments (trace (final run))
  ∧ List.filter (fun e => bool_decide (is_Some (attachmentOf e))) (trace (final run))
    = [ TransitGatewayRouteTableAssociation "Main-AttachcoreAssociation"
          "tgw-attach:222222222222:Inspection-Attach"
          "ssm:/accelerator/network/transitGateways/Network-Main/routeTables/core/id";
        TransitGatewayRouteTableAssociation "Inspection-AttachcoreAssociation"
          "tgw-attach:222222222222:Inspection-Attach"
          "ssm:/accelerator/network/transitGateways/Network-Inspection/routeTables/core/id";
        TransitGatewayRouteTablePropagation "Main-AttachcorePropagation"
          "tgw-attach:222222222222:Inspection-Attach"
          "ssm:/accelerator/network/transitGateways/Network-Main/routeTables/core/id" ].
Proof.
  cbv zeta. split; [vm_compute; reflexivity|]. split; [vm_compute; reflexivity|].
  split; [|vm_compute; reflexivity].
  unfold populatedOnce. vm_compute. intros H.
  apply NoDup_cons in H as [Hnotin _]. apply Hnotin. by left.
Qed.

(** * Further properties *)

(** ** The accounts of the hosted zone association *)

Lemma push_new_fold (ids acc : list string) :
  (NoDup acc →
   NoDup (fold_left (fun (acc : list string) id =>
                       if negb (includes acc id) then (acc ++ [id])%list else acc) ids acc))
  ∧ ∀ x, In x (fold_left (fun (acc : list string) id =>
                            if negb (includes acc id) then (acc ++ [id])%list else acc) ids acc)
         ↔ In x acc ∨ In x ids.
Proof.
  revert acc. induction ids as [|id ids IH]; intros acc; simpl.
  - split; [done|]. intros x. split; [by left|by intros [?|[]]].
  - destruct (includes acc id) eqn:Hinc; simpl.
    + destruct (IH acc) as [Hnd Hin]. split; [done|]. intros x. rewrite Hin.
      apply includes_In in Hinc. split; [intros [?|?]; auto|intros [?|[<-|?]]; auto].
    + destruct (IH (acc ++ [id])%list) as [Hnd Hin]. split.
      * intros Hacc. apply Hnd. apply NoDup_app. split; [done|].
        split; [|apply NoDup_singleton].
        intros y Hy Hy'. apply list_elem_of_singleton in Hy' as ->.
        apply list_elem_of_In, includes_In in Hy. congruence.
      * intros x. rewrite Hin, in_app_iff. simpl. tauto.
Qed.

Lemma zone_accounts_fold (E : Env) (vpcs : list VpcItem) (acc : list string) :
  let result :=
    fold_left
      (fun (zoneAssociationAccountIds : list string) vpcItem =>
         let vpcAccountIds := getVpcAccountIds E vpcItem in
         if String.eqb (VpcItem.region vpcItem) (region E) && VpcItem.useCentralEndpoints vpcItem
         then
           fold_left
             (fun (zoneAssociationAccountIds : list string) accountId =>
                if negb (includes zoneAssociationAccountIds accountId)
                then (zoneAssociationAccountIds ++ [accountId])%list
                else zoneAssociationAccountIds)
             vpcAccountIds zoneAssociationAccountIds
         else zoneAssociationAccountIds)
      vpcs acc in
  (NoDup acc → NoDup result)
  ∧ ∀ x, In x result ↔ In x acc ∨ usesCentralEndpoints E vpcs x.
Proof.
  cbv zeta. unfold usesCentralEndpoints. revert acc.
  induction vpcs as [|vpcItem vpcs IH]; intros acc; simpl.
  - split; [done|]. intros x. split; [by left|]. intros [?|(v & [] & _)]. done.
  - destruct (String.eqb (VpcItem.region vpcItem) (region E)
              && VpcItem.useCentralEndpoints vpcItem) eqn:Hcond.
    + destruct (push_new_fold (getVpcAccountIds E vpcItem) acc) as [Hnd1 Hin1].
      destruct (IH (fold_left (fun (acc0 : list string) id =>
                                 if negb (includes acc0 id) then (acc0 ++ [id])%list else acc0)
                      (getVpcAccountIds E vpcItem) acc)) as [Hnd Hin].
      split; [intros Hacc; by apply Hnd, Hnd1|].
      intros x. rewrite Hin, Hin1.
      apply andb_true_iff in Hcond as [Hregion Huse]. apply String.eqb_eq in Hregion.
      split.
      * intros [[?|?]|(v & Hv & ?)]; [by left|right; exists vpcItem; by auto|].
        right. exists v. by auto.
      * intros [?|(v & [<-|Hv] & Hr & Hu & Hx)]; [by auto|by auto|].
        right. exists v. by auto.
    + destruct (IH acc) as [Hnd Hin]. split; [done|]. intros x. rewrite Hin.
      split.
      * intros [?|(v & Hv & ?)]; [by left|]. right. exists v. by auto.
      * intros [?|(v & [<-|Hv] & Hr & Hu & Hx)]; [by left| |].
        -- apply String.eqb_eq in Hr. rewrite Hr, Hu in Hcond. discriminate.
        -- right. exists v. by auto.
Qed.

(** When [createHostedZoneAssociations] returns, either the stack has no
    central endpoints VPC and nothing has been created, or it has exactly
    one and one association has been created: for the account of the stack,
    and for the accounts of the VPCs of the region that use the central
    endpoints, each account listed once. *)
Theorem hosted_zone_association_accounts (E : Env) (s s' : Stack) :
  createHostedZoneAssociations E s = Ok tt s' →
  (centralEndpointVpcs E = [] ∧ s' = s)
  ∨ ∃ centralEndpointVpc props,
      centralEndpointVpcs E = [centralEndpointVpc]
      ∧ trace s' = trace s ++ [AssociateHostedZones "AssociateHostedZones" props]
      ∧ AssociateHostedZonesProps.hostedZoneAccountId props = account E
      ∧ NoDup (AssociateHostedZonesProps.accountIds props)
      ∧ ∀ accountId,
          In accountId (AssociateHostedZonesProps.accountIds props)
          ↔ usesCentralEndpoints E (NetworkConfig.allVpcs (networkConfig E)) accountId.
Proof.
  unfold createHostedZoneAssociations. cbv zeta.
  destruct (_ && _ && _); [discriminate|].
  destruct (1 <? length (centralEndpointVpcs E))%nat eqn:Hmany; [discriminate|].
  apply Nat.ltb_ge in Hmany.
  destruct (centralEndpointVpcs E) as [|v [|w rest]] eqn:Hvpcs; simpl in Hmany; [| |lia].
  - intros [= <-]. by left.
  - simpl head. intros Hrun. apply emit_Ok in Hrun as ->. right.
    eexists v, _. split; [done|]. split; [reflexivity|]. split; [reflexivity|]. simpl.
    destruct (zone_accounts_fold E (NetworkConfig.allVpcs (networkConfig E)) []) as [Hnd Hin].
    split; [apply Hnd; constructor|].
    intros accountId. rewrite Hin. split; [by intros [[]|?]|by right].
Qed.

Lemma hosted_zone_association_accounts_witness :
  ∃ props,
    trace (final (createHostedZoneAssociations Sample.centralEndpoints newStack))
    = [AssociateHostedZones "AssociateHostedZones" props]
    ∧ NoDup (AssociateHostedZonesProps.accountIds props).
Proof.
  destruct (hosted_zone_association_accounts Sample.centralEndpoints newStack
              (final (createHostedZoneAssociations Sample.centralEndpoints newStack)))
    as [[Hnone _]|(v & props & _ & Htrace & _ & Hnd & _)].
  - vm_compute. reflexivity.
  - vm_compute in Hnone. discriminate.
  - exists props. split; [exact Htrace|exact Hnd].
Defined.

(** ** The lookup of a Direct Connect gateway *)

Lemma includes_childIds (t : list Event) (e : Event) (id : string) :
  In e t → constructId e = Some id → includes (childIds t) (sanitizeId id) = true.
Proof.
  intros Hin Hid. apply includes_In. unfold childIds. apply in_or_app. right.
  apply list_elem_of_In, list_elem_of_omap. exists e.
  split; [by apply list_elem_of_In|]. by rewrite Hid.
Qed.

(** What [setDxGatewayMap] does when it needs the lookup. *)
Lemma setDxGatewayMap_lookup
    (E : Env) (dxgwItem : DxGatewayConfig.t) (tgw : TransitGatewayConfig.t)
    (tgwAccountId : string) (s : Stack) :
  dxLookupNeeded E dxgwItem tgw tgwAccountId = true →
  ∃ props,
    let lookup :=
      SsmParameterLookup (pascalCase E ("SsmParamLookup" +:+ DxGatewayConfig.name dxgwItem)) props in
    match refused (trace s) lookup with
    | Some err => setDxGatewayMap E dxgwItem tgw tgwAccountId s = Throw err s
    | None =>
        ∃ value,
          setDxGatewayMap E dxgwItem tgw tgwAccountId s
          = Ok tt (writeMap DxGatewayMap (DxGatewayConfig.name dxgwItem) value
                     (with_trace (trace s ++ [lookup]) s))
    end.
Proof.
  unfold dxLookupNeeded, setDxGatewayMap. cbv zeta. intros Hneeded.
  apply andb_true_iff in Hneeded as [Hscope Hneeded]. rewrite Hscope.
  destruct (String.eqb (DxGatewayConfig.account dxgwItem) (TransitGatewayConfig.account tgw));
    simpl in Hneeded; cbn [negb andb when]; unfold bind.
  - apply negb_true_iff in Hneeded. rewrite Hneeded.
    exists (dxGatewayLookupProps E dxgwItem (account E)).
    unfold ret, emit, setEntry, modify. cbv beta iota zeta.
    destruct (refused (trace s) _); [reflexivity|]. by eexists.
  - exists (dxGatewayLookupProps E dxgwItem (getAccountId E (DxGatewayConfig.account dxgwItem))).
    unfold ret, emit, setEntry, modify. cbv beta iota zeta.
    destruct (refused (trace s) _); [reflexivity|]. by eexists.
Qed.

(** [setDxGatewayMap] creates the lookup of a gateway at most once: after a
    call that has created it, every call for the same gateway that needs the
    lookup throws, for whichever transit gateway, and leaves the stack as it
    was. *)
Theorem dx_gateway_lookup_once
    (E : Env) (dxgwItem : DxGatewayConfig.t) (tgw tgw' : TransitGatewayConfig.t)
    (tgwAccountId tgwAccountId' : string) (s s1 s2 : Stack) (later : list Event) :
  dxLookupNeeded E dxgwItem tgw tgwAccountId = true →
  dxLookupNeeded E dxgwItem tgw' tgwAccountId' = true →
  setDxGatewayMap E dxgwItem tgw tgwAccountId s = Ok tt s1 →
  trace s2 = trace s1 ++ later →
  setDxGatewayMap E dxgwItem tgw' tgwAccountId' s2
  = Throw (duplicateId
             (sanitizeId (pascalCase E ("SsmParamLookup" +:+ DxGatewayConfig.name dxgwItem))))
      s2.
Proof.
  intros Hneeded Hneeded' Hfirst Hlater.
  destruct (setDxGatewayMap_lookup E dxgwItem tgw tgwAccountId s Hneeded) as (props & Hcall).
  destruct (setDxGatewayMap_lookup E dxgwItem tgw' tgwAccountId' s2 Hneeded') as (props' & Hcall').
  cbv zeta in Hcall, Hcall'.
  set (id := pascalCase E ("SsmParamLookup" +:+ DxGatewayConfig.name dxgwItem)) in *.
  destruct (refused (trace s) (SsmParameterLookup id props)) as [err|] eqn:Hfresh;
    [congruence|].
  destruct Hcall as [value Hcall]. rewrite Hcall in Hfirst. injection Hfirst as <-.
  assert (Hnonempty : String.eqb (sanitizeId id) EmptyString = false).
  { unfold refused in Hfresh. cbn [constructId] in Hfresh.
    by destruct (String.eqb (sanitizeId id) EmptyString). }
  assert (Htaken : includes (childIds (trace s2)) (sanitizeId id) = true).
  { apply (includes_childIds _ (SsmParameterLookup id props)); [|done].
    rewrite Hlater. simpl. rewrite !in_app_iff. simpl. auto. }
  assert (Hrefused : refused (trace s2) (SsmParameterLookup id props')
                     = Some (duplicateId (sanitizeId id))).
  { unfold refused. cbn [constructId]. by rewrite Hnonempty, Htaken. }
  by rewrite Hrefused in Hcall'.
Qed.

Lemma dx_gateway_lookup_once_witness :
  ∃ s1,
    setDxGatewayMap Sample.twoDxAssociations Sample.sharedDxGateway (Sample.mainTgw [])
      "111111111111" newStack = Ok tt s1
    ∧ setDxGatewayMap Sample.twoDxAssociations Sample.sharedDxGateway Sample.inspectionTgw
        "111111111111" s1
      = Throw (Error "There is already a Construct with name 'SsmParamLookupShared-DXGW'") s1.
Proof.
  eexists. split; [vm_compute; reflexivity|].
  eapply (dx_gateway_lookup_once Sample.twoDxAssociations Sample.sharedDxGateway
           (Sample.mainTgw []) Sample.inspectionTgw "111111111111" "111111111111"
           newStack _ _ []).
  - reflexivity.
  - reflexivity.
  - vm_compute. reflexivity.
  - by rewrite app_nil_r.
Defined.

(** ** Peering connections and their routes over a run *)

Lemma directRouteFor_sameRouting (E : Env) (s0 s : Stack) (vpc : VpcConfig.t) (peeringName : string)
    (route : RouteTableConfig.t * RouteTableEntryConfig.t) (e : Event) :
  sameRouting s0 s → directRouteFor E s vpc peeringName route e →
  directRouteFor E s0 vpc peeringName route e.
Proof.
  intros (Hrt & _ & _) (routeTableId & destination & pl & Hlookup & ->).
  rewrite Hrt in Hlookup. by exists routeTableId, destination, pl.
Qed.

Lemma crossAccountRouteFor_sameRouting (E : Env) (s0 s : Stack) (accepterAccountId : string)
    (vpc : VpcConfig.t) (peeringName : string)
    (route : RouteTableConfig.t * RouteTableEntryConfig.t) (e : Event) :
  sameRouting s0 s → crossAccountRouteFor E s accepterAccountId vpc peeringName route e →
  crossAccountRouteFor E s0 accepterAccountId vpc peeringName route e.
Proof.
  intros (Hrt & _ & Hprov) (provider & routeTableId & destination & pl & Hp & Hlookup & ->).
  rewrite Hrt in Hlookup. rewrite Hprov in Hp. by exists provider, routeTableId, destination, pl.
Qed.

Lemma sameRouting_trans (s0 s1 s2 : Stack) :
  sameRouting s0 s1 → sameRouting s1 s2 → sameRouting s0 s2.
Proof. intros (A & B & C) (A' & B' & C'). repeat split; congruence. Qed.

(** The requester-side routes that [createRequesterVpcPeeringRoutes] creates
    when it returns: one per route of the requester to the peering, in order. *)
Lemma createRequesterVpcPeeringRoutes_trace
    (E : Env) (requesterVpc : VpcConfig.t) (peeringName : string) (s s' : Stack) :
  createRequesterVpcPeeringRoutes E requesterVpc peeringName s = Ok tt s' →
  sameRouting s s'
  ∧ ∃ evs,
      trace s' = trace s ++ evs
      ∧ Forall2 (directRouteFor E s requesterVpc peeringName)
          (accepterPeeringRoutes requesterVpc peeringName) evs.
Proof.
  unfold createRequesterVpcPeeringRoutes, accepterPeeringRoutes.
  generalize (sameRouting_refl s). generalize s at 2 3 5 as s1. intros s1 Hs1.
  revert s1 s' Hs1.
  apply (forM__Forall2 (sameRouting s) (directRouteFor E s requesterVpc peeringName)).
  intros routeTable s1 s2 Hs1. rewrite <- flat_map_filter_pair.
  revert s1 s2 Hs1.
  apply (forM__Forall2 (sameRouting s) (directRouteFor E s requesterVpc peeringName)).
  intros entry s1 s2 Hs1.
  destruct (isPeeringRoute entry peeringName); simpl when.
  2:{ intros [= <-]. split; [done|]. exists []. rewrite app_nil_r. split; [done|constructor]. }
  unfold bind, get.
  destruct Hs1 as (Hrt & Hpl & Hprov).
  destruct (orThrow (routeTableMap s1 !! _) _ s1) as [routeTableId s3|] eqn:Hfound; [|discriminate].
  destruct (orThrow_Ok _ _ _ _ _ Hfound) as (Hlookup & _ & ->).
  rewrite Hrt in Hlookup.
  destruct (truthy (RouteTableEntryConfig.destinationPrefixList entry)).
  - unfold bind.
    destruct (orThrow (prefixListMap s1 !! _) _ s1) as [plId s4|] eqn:Hplfound; [|discriminate].
    destruct (orThrow_Ok _ _ _ _ _ Hplfound) as (_ & _ & ->).
    unfold ret. intros Hemit. apply emit_Ok in Hemit as ->.
    split; [by repeat split|]. eexists [_]. split; [reflexivity|].
    constructor; [|constructor]. by eexists _, _, _.
  - unfold ret. intros Hemit. apply emit_Ok in Hemit as ->.
    split; [by repeat split|]. eexists [_]. split; [reflexivity|].
    constructor; [|constructor]. by eexists _, _, _.
Qed.

Lemma bind_Ok {A B} (m : M A) (f : A → M B) (s s' : Stack) (b : B) :
  bind m f s = Ok b s' → ∃ a s1, m s = Ok a s1 ∧ f a s1 = Ok b s'.
Proof. unfold bind. destruct (m s) as [a s1|]; [|discriminate]. by exists a, s1. Qed.

(** A loop whose iterations return leaves one part of the trace per item. *)
Lemma forM__parts {A} (I : Stack → Prop) (P : A → list Event → Prop)
    (xs : list A) (body : A → M unit) :
  (∀ x s s', I s → body x s = Ok tt s' →
             I s' ∧ ∃ part, trace s' = trace s ++ part ∧ P x part) →
  ∀ s s', I s → forM_ xs body s = Ok tt s' →
          I s' ∧ ∃ parts, trace s' = trace s ++ concat parts ∧ Forall2 P xs parts.
Proof.
  intros Hbody. induction xs as [|x xs IH]; simpl; intros s s' Hs.
  - intros [= <-]. split; [done|]. exists []. simpl. rewrite app_nil_r. split; [done|constructor].
  - unfold bind. destruct (body x s) as [[] s1|] eqn:Hb; [|discriminate].
    intros Hrest.
    destruct (Hbody _ _ _ Hs Hb) as (Hs1 & part & Ht1 & HP).
    destruct (IH _ _ Hs1 Hrest) as (Hs' & parts & Ht2 & HPs).
    split; [done|]. exists (part :: parts). simpl. rewrite Ht2, Ht1, app_assoc.
    split; [done|]. by constructor.
Qed.

(** When [createVpcPeeringConnections] returns, the trace is, peering by
    peering in the order of the peering list: the peering connection with
    what goes with it, then one route per route of the requester to the
    peering, then one route per route of the accepter to the peering, direct
    or through the provider. *)
Theorem peering_connections_and_routes (E : Env) (s s' : Stack) :
  createVpcPeeringConnections E s = Ok tt s' →
  ∃ parts,
    trace s' = trace s ++ concat parts
    ∧ Forall2 (peeringPart E s) (peeringList s) parts.
Proof.
  unfold createVpcPeeringConnections, bind at 1, get. intros Hrun.
  cut (sameRouting s s'
       ∧ ∃ parts, trace s' = trace s ++ concat parts
                  ∧ Forall2 (peeringPart E s) (peeringList s) parts).
  { by intros [_ H]. }
  revert Hrun. generalize (sameRouting_refl s).
  generalize (peeringList s) as peerings. generalize s at 2 3 5 as s1.
  intros s1 peerings Hs1. revert s1 s' Hs1.
  apply (forM__parts (sameRouting s) (peeringPart E s)).
  intros peering s1 s2 Hs1 Hbody. cbv zeta in Hbody.
  destruct (Peering.accepter peering) as [accepterVpc|] eqn:Haccepter; [|discriminate].
  set (cross := negb (String.eqb (getAccountId E (VpcConfig.account accepterVpc))
                        (getAccountId E (VpcConfig.account (Peering.requester peering))))
                || negb (String.eqb (VpcConfig.region accepterVpc)
                           (VpcConfig.region (Peering.requester peering)))) in *.
  apply bind_Ok in Hbody as (accepterSide & s1' & Hside & Hbody).
  assert (Hs1' : ∃ lookups, trace s1' = trace s1 ++ lookups
                            ∧ Forall (fun e => peeringRouteOf e = None) lookups
                            ∧ sameRouting s s1').
  { destruct cross.
    - apply bind_Ok in Hside as ([] & s1'' & Hlookup & Hret).
      apply emit_Ok in Hlookup as ->. injection Hret as _ <-.
      eexists [_]. split; [reflexivity|]. split; [by repeat constructor|exact Hs1].
    - injection Hside as _ <-. exists []. split; [by rewrite app_nil_r|].
      split; [constructor|exact Hs1]. }
  clear Hside. destruct Hs1' as (lookups & Hlookups & Hnone & Hs1').
  apply bind_Ok in Hbody as ([] & s3 & Hpeering & Hbody). apply emit_Ok in Hpeering as ->.
  apply bind_Ok in Hbody as ([] & s4 & Hparam & Hbody). apply emit_Ok in Hparam as ->.
  apply bind_Ok in Hbody as ([] & s5 & Hwhen & Hbody).
  set (connection := VpcPeering (Peering.name peering +:+ "VpcPeering") _) in *.
  set (parameter := SsmParameter _ _ _) in *.
  assert (Hs5 : ∃ puts, trace s5 = trace s1' ++ [connection; parameter] ++ puts
                        ∧ Forall (fun e => peeringRouteOf e = None) puts
                        ∧ sameRouting s s5).
  { destruct cross; simpl in Hwhen.
    - apply emit_Ok in Hwhen as ->. eexists [_]. split; [simpl; by rewrite <- !app_assoc|].
      split; [by repeat constructor|exact Hs1'].
    - injection Hwhen as <-. exists []. split; [simpl; by rewrite <- !app_assoc|].
      split; [constructor|exact Hs1']. }
  clear Hwhen. destruct Hs5 as (puts & Hputs & Hnone' & Hs5).
  unfold createVpcPeeringRoutes in Hbody.
  apply bind_Ok in Hbody as ([] & s6 & Hreq & Hbody).
  apply createRequesterVpcPeeringRoutes_trace in Hreq as (Hs6 & requesterRoutes & Htrace6 & Hreq).
  pose proof Hbody as Hacc.
  apply createAccepterVpcPeeringRoutes_trace in Hacc as (accepterRoutes & Htrace2 & Hacc).
  assert (Hs2 : sameRouting s s2).
  { assert (Hp : preserves (sameRouting s)
                   (createAccepterVpcPeeringRoutes E (getAccountId E (VpcConfig.account accepterVpc))
                      accepterVpc (Peering.requester peering) (Peering.name peering)))
      by solve_untouched.
    specialize (Hp s6 (sameRouting_trans _ _ _ Hs5 Hs6)). by rewrite Hbody in Hp. }
  split; [exact Hs2|].
  exists ((lookups ++ [connection; parameter] ++ puts) ++ requesterRoutes ++ accepterRoutes).
  split.
  { rewrite Htrace2, Htrace6, Hputs, Hlookups. by rewrite <- !app_assoc. }
  exists accepterVpc, (lookups ++ [connection; parameter] ++ puts), requesterRoutes, accepterRoutes.
  split; [done|]. split; [done|]. split.
  { eexists. split; [apply in_or_app; right; left; reflexivity|reflexivity]. }
  split.
  { apply Forall_app. split; [done|]. constructor; [done|]. constructor; [done|]. done. }
  split.
  - eapply Forall2_impl; [exact Hreq|]. intros route e.
    apply directRouteFor_sameRouting. exact Hs5.
  - destruct (sameScope (Peering.requester peering) accepterVpc);
      (eapply Forall2_impl; [exact Hacc|]); intros route e.
    + apply directRouteFor_sameRouting. exact (sameRouting_trans _ _ _ Hs5 Hs6).
    + apply crossAccountRouteFor_sameRouting. exact (sameRouting_trans _ _ _ Hs5 Hs6).
Qed.
Lemma peering_connections_and_routes_witness :
  ∃ parts,
    trace (final (createVpcPeeringConnections Sample.crossScopePeering
                    (Sample.prepared Sample.crossScopePeering)))
    = trace (Sample.prepared Sample.crossScopePeering) ++ concat parts
    ∧ Forall2 (peeringPart Sample.crossScopePeering (Sample.prepared Sample.crossScopePeering))
        (peeringList (Sample.prepared Sample.crossScopePeering)) parts.
Proof.
  apply (peering_connections_and_routes Sample.crossScopePeering
           (Sample.prepared Sample.crossScopePeering)
           (final (createVpcPeeringConnections Sample.crossScopePeering
                     (Sample.prepared Sample.crossScopePeering)))).
  vm_compute. reflexivity.
Defined.
